(** * SentimentScope: the sentiment scoring pipeline

    A shallow embedding of [backend/ml_utils/sentiment_analyzer.py]
    (class [SentimentAnalyzer]) and the properties of its text
    normaliser, language bridge, tiered classifier and word-frequency
    aggregator.

    Conventions of the embedding:
    - a Python [str] is the list of its Unicode code points;
    - a Python [float] that the code only compares, adds and returns is
      a rational number: every finite double is a rational, comparisons
      of doubles are the comparisons of their values, and the rounded sum
      of two doubles has the sign of their exact sum;
    - a call that may raise returns a [result]; the methods of the
      analyzer run in a monad that threads the analyzer object, records
      the external calls in a trace and propagates exceptions;
    - what the Unicode database, the [emoji] package and the loaded
      models compute is taken as a parameter. *)

From Stdlib Require Import Strings.String Strings.Ascii.
From Stdlib Require Import List Bool NArith ZArith QArith Lia Lqa.
From Stdlib Require Import Sorting.Sorted Sorting.Permutation.
Import ListNotations.

Set Implicit Arguments.

(** ** Python strings *)

Module Py.

Definition char := N.
Definition str := list char.

Definition char_eqb : char -> char -> bool := N.eqb.

Fixpoint str_eqb (a b : str) : bool :=
  match a, b with
  | [], [] => true
  | x :: a', y :: b' => char_eqb x y && str_eqb a' b'
  | _, _ => false
  end.

(** String literals of the development are ASCII. *)
Fixpoint of_string (s : String.string) : str :=
  match s with
  | String.EmptyString => []
  | String.String c s' => Ascii.N_of_ascii c :: of_string s'
  end.
Arguments of_string s%_string.

Definition in_range (lo hi c : N) : bool := ((lo <=? c) && (c <=? hi))%N.

(** [Py_UNICODE_ISSPACE]: the predicate behind [str.strip], [str.split]
    and the regular-expression classes [\s] and [\S]. *)
Definition is_space (c : char) : bool :=
  in_range 9 13 c || in_range 28 32 c || (c =? 133)%N || (c =? 160)%N
  || (c =? 5760)%N || in_range 8192 8202 c || (c =? 8232)%N
  || (c =? 8233)%N || (c =? 8239)%N || (c =? 8287)%N || (c =? 12288)%N.

Definition is_ascii_char (c : char) : bool := (c <? 128)%N.

(** [str.isascii] *)
Definition isascii (s : str) : bool := forallb is_ascii_char s.

Definition is_upper_ascii (c : char) : bool := in_range 65 90 c.
Definition is_lower_ascii (c : char) : bool := in_range 97 122 c.
Definition is_digit_ascii (c : char) : bool := in_range 48 57 c.

Definition is_alnum_ascii (c : char) : bool :=
  is_lower_ascii c || is_upper_ascii c || is_digit_ascii c.

Definition lower_ascii (c : char) : char :=
  if is_upper_ascii c then (c + 32)%N else c.

(** What the Unicode database and the [emoji] package decide outside
    ASCII. *)
Record Unicode := {
  uni_lower : str -> str;        (* str.lower on a string that is not ASCII *)
  uni_isalnum : char -> bool;    (* Py_UNICODE_ISALNUM on a code point >= 128 *)
  emoji_demojize : str -> str    (* emoji.demojize(_, delimiters=(' ', ' '))
                                    on a string that is not ASCII *)
}.

(** An instance for texts that stay within ASCII. *)
Definition ascii_only : Unicode :=
  {| uni_lower := fun s => s;
     uni_isalnum := fun _ => false;
     emoji_demojize := fun s => s |}.

(** [str.lstrip], [str.rstrip], [str.strip] without argument *)
Fixpoint lstrip (s : str) : str :=
  match s with
  | [] => []
  | c :: t => if is_space c then lstrip t else s
  end.

Fixpoint rstrip (s : str) : str :=
  match s with
  | [] => []
  | c :: t =>
      match rstrip t with
      | [] => if is_space c then [] else [c]
      | r => c :: r
      end
  end.

Definition strip (s : str) : str := rstrip (lstrip s).

(** [str.split] without argument: the maximal runs of non-whitespace. *)
Fixpoint split (s : str) : list str :=
  match s with
  | [] => []
  | c :: t =>
      if is_space c then split t
      else match t with
           | [] => [[c]]
           | d :: _ =>
               if is_space d then [c] :: split t
               else match split t with
                    | w :: ws => (c :: w) :: ws
                    | [] => [[c]]
                    end
           end
  end.

(** [sep.join(l)] *)
Fixpoint join (sep : str) (l : list str) : str :=
  match l with
  | [] => []
  | [w] => w
  | w :: ws => w ++ sep ++ join sep ws
  end.

Definition SPACE : char := 32%N.
Definition AT : char := 64%N.
Definition UNDERSCORE : char := 95%N.

Fixpoint starts_with (p s : str) : bool :=
  match p, s with
  | [], _ => true
  | x :: p', y :: s' => char_eqb x y && starts_with p' s'
  | _ :: _, [] => false
  end.

(** The head of [s] is a non-whitespace character: [\S] matches there. *)
Definition head_nonspace (s : str) : bool :=
  match s with
  | [] => false
  | c :: _ => negb (is_space c)
  end.

End Py.

Import Py.

(** ** The text normaliser: [SentimentAnalyzer.clean_text] *)

(** Values a Python caller can pass where the code expects a [str]. A
    [bytes] or a [bytearray] is the list of its bytes. *)
#[warnings="-register-all"]
Inductive pyval :=
| PyNone
| PyInt (z : Z)
| PyStr (s : str)
| PyList (l : list pyval)
| PyBytes (b : list N).

(** The module-level dictionary [SENTIMENT_FLIPS], in source order. *)
Definition SENTIMENT_FLIPS : list (str * str) :=
  [ (of_string "underrated", of_string "amazing");
    (of_string "underdog", of_string "winner");
    (of_string "goat", of_string "best");
    (of_string "banger", of_string "amazing song");
    (of_string "dope", of_string "amazing");
    (of_string "sick", of_string "amazing");
    (of_string "fire", of_string "amazing");
    (of_string "lit", of_string "amazing");
    (of_string "beast", of_string "amazing");
    (of_string "slaps", of_string "amazing");
    (of_string "addicted", of_string "loving") ].

(** [d.get(k)] on a dictionary given by its items (the keys are distinct). *)
Fixpoint dict_get (d : list (str * str)) (k : str) : option str :=
  match d with
  | [] => None
  | (k', v) :: d' => if str_eqb k' k then Some v else dict_get d' k
  end.

(** [SENTIMENT_FLIPS.get(word, word)] *)
Definition flip (word : str) : str :=
  match dict_get SENTIMENT_FLIPS word with
  | Some v => v
  | None => word
  end.

Section Normaliser.

Variable U : Unicode.

(** [text.lower()] *)
Definition lower (s : str) : str :=
  if isascii s then map lower_ascii s else uni_lower U s.

(** The class [\w]: alphanumeric or underscore. *)
Definition is_word (c : char) : bool :=
  if is_ascii_char c then is_alnum_ascii c || char_eqb c UNDERSCORE
  else uni_isalnum U c.

(** [emoji.demojize(text, delimiters=(' ', ' '))]: a text without emoji,
    in particular an ASCII text, is returned as it is. *)
Definition demojize (s : str) : str :=
  if isascii s then s else emoji_demojize U s.

(** A match of [http\S+|www\S+] starts at the head of [s]. *)
Definition starts_url (s : str) : bool :=
  (starts_with (of_string "http") s && head_nonspace (skipn 4 s))
  || (starts_with (of_string "www") s && head_nonspace (skipn 3 s)).

(** [re.sub(r'http\S+|www\S+', '', s)]: the scan goes left to right; a
    match starts where [starts_url] holds and extends over the whole
    run of non-whitespace that follows ([\S+] is greedy and nothing
    follows it in the pattern). [skip] tells that the scan is inside a
    match. *)
Fixpoint url_sub (skip : bool) (s : str) : str :=
  match s with
  | [] => []
  | c :: t =>
      if is_space c then c :: url_sub false t
      else if skip || starts_url s then url_sub true t
      else c :: url_sub false t
  end.

(** A match of [@\w+] starts at the head of [s]. *)
Definition starts_mention (s : str) : bool :=
  match s with
  | c :: d :: _ => char_eqb c AT && is_word d
  | _ => false
  end.

(** [re.sub(r'@\w+', '', s)]: inside a match ([skip]) the word
    characters are dropped; the first other character ends the match and
    is scanned afresh. *)
Fixpoint mention_sub (skip : bool) (s : str) : str :=
  match s with
  | [] => []
  | c :: t =>
      if skip && is_word c then mention_sub true t
      else if starts_mention s then mention_sub true t
      else c :: mention_sub false t
  end.

(** The characters that [re.sub(r'[^a-zA-Z0-9\s!?.,]', '', _)] keeps. *)
Definition kept (c : char) : bool :=
  is_alnum_ascii c || is_space c
  || (c =? 33)%N || (c =? 63)%N || (c =? 46)%N || (c =? 44)%N.

(** [re.sub(r'\s+', ' ', s)]: each maximal run of whitespace becomes one
    space. [inrun] tells that the previous character was whitespace. *)
Fixpoint collapse_ws (inrun : bool) (s : str) : str :=
  match s with
  | [] => []
  | c :: t =>
      if is_space c then
        if inrun then collapse_ws true t else SPACE :: collapse_ws true t
      else c :: collapse_ws false t
  end.

(** The body of [clean_text] on a string that is not blank. *)
Definition clean_str (text : str) : str :=
  let text := lower text in
  let text := url_sub false text in
  let text := mention_sub false text in
  let text := demojize text in
  let words := split text in
  let normalized_words := map flip words in
  let text := join [SPACE] normalized_words in
  let text := filter kept text in
  strip (collapse_ws false text).

Definition clean_text (text : pyval) : str :=
  match text with
  | PyStr s =>
      match strip s with
      | [] => []
      | _ :: _ => clean_str s
      end
  | _ => []
  end.

End Normaliser.

(** ** Results, exceptions and the analyzer object *)

Inductive label := Negative | Neutral | Positive.

Inductive model_tag := TagNone | TagTransformer | TagBaseline | TagVADER.

Record Scores := { negative : Q; neutral : Q; positive : Q }.

(** The dictionary that [analyze] returns. *)
Record SentimentResult := {
  sentiment : label;
  confidence : Q;
  scores : Scores;
  model_used : model_tag
}.

(** Exceptions derived from [Exception], which [except Exception]
    catches. *)
Inductive exn :=
| NameError | AttributeError | TypeError | IndexError | KeyError
| ValueError | OSError | RuntimeError.

Inductive result (A : Type) :=
| Ok (a : A)
| Raise (e : exn).
Arguments Ok {A} a.
Arguments Raise {A} e.

(** [l[i]] on a sequence *)
Definition getitem {A : Type} (l : list A) (i : nat) : result A :=
  match nth_error l i with
  | Some a => Ok a
  | None => Raise IndexError
  end.

(** The loaded objects, given by what their calls return. *)
Record Tokenizer := {
  (* tokenizer(text, return_tensors='pt', truncation=True, max_length=128,
     padding=True), moved to the device: the token ids *)
  tokenizer_call : str -> result (list N)
}.

Record Model := {
  (* the first row of the softmax of the logits that the model computes
     on the inputs *)
  model_call : list N -> result (list Q)
}.

Record Vectorizer := {
  transform : list str -> result (list Q)
}.

Record Classifier := {
  predict : list Q -> result (list Z);
  predict_proba : list Q -> result (list (list Q))
}.

Record PolarityScores := { neg : Q; neu : Q; pos : Q; compound : Q }.

Record Vader := {
  polarity_scores : str -> result PolarityScores
}.

Record Translator := {
  translate : str -> result pyval
}.

Record SentimentAnalyzer := {
  model : option Model;
  tokenizer : option Tokenizer;
  baseline_model : option Classifier;
  baseline_vectorizer : option Vectorizer;
  vader_analyzer : option Vader;
  translator : Translator
}.

(** [self.sentiment_labels], assigned once in [__init__]. *)
Definition sentiment_labels : list label := [Negative; Neutral; Positive].

(** ** The monad of the methods *)

Inductive level := INFO | WARNING | ERROR.

(** External calls and log records, in the order they happen. *)
Inductive event :=
| EvTranslate (text : str)
| EvTokenizer (text : str)
| EvModel (ids : list N)
| EvTransform (texts : list str)
| EvPredict (x : list Q)
| EvPredictProba (x : list Q)
| EvPolarityScores (text : str)
| EvLog (lvl : level).

(** The events that are calls into a classifier tier. *)
Definition is_tier_call (e : event) : bool :=
  match e with
  | EvTokenizer _ | EvModel _ | EvTransform _ | EvPredict _
  | EvPredictProba _ | EvPolarityScores _ => true
  | EvTranslate _ | EvLog _ => false
  end.

Definition M (A : Type) : Type :=
  SentimentAnalyzer -> list event * SentimentAnalyzer * result A.

Definition ret {A : Type} (a : A) : M A := fun self => ([], self, Ok a).

Definition raise {A : Type} (e : exn) : M A := fun self => ([], self, Raise e).

Definition bind {A B : Type} (m : M A) (f : A -> M B) : M B :=
  fun self =>
    match m self with
    | (t, self', Ok a) =>
        match f a self' with
        | (t', self'', r) => (t ++ t', self'', r)
        end
    | (t, self', Raise e) => (t, self', Raise e)
    end.

(** [try: m  except Exception as e: h e] *)
Definition try_except {A : Type} (m : M A) (h : exn -> M A) : M A :=
  fun self =>
    match m self with
    | (t, self', Raise e) =>
        match h e self' with
        | (t', self'', r) => (t ++ t', self'', r)
        end
    | ok => ok
    end.

(** Reading and assigning the attributes of [self]. *)
Definition get {A : Type} (field : SentimentAnalyzer -> A) : M A :=
  fun self => ([], self, Ok (field self)).

Definition assign (upd : SentimentAnalyzer -> SentimentAnalyzer) : M unit :=
  fun self => ([], upd self, Ok tt).

(** An external call: recorded, then its outcome. *)
Definition call {A : Type} (ev : event) (r : result A) : M A :=
  fun self => ([ev], self, r).

Definition lift {A : Type} (r : result A) : M A := fun self => ([], self, r).

Definition log (lvl : level) : M unit := call (EvLog lvl) (Ok tt).

Declare Scope py_scope.
Delimit Scope py_scope with py.
Notation "x <- m ;; k" := (bind m (fun x => k))
  (at level 100, m at next level, right associativity) : py_scope.
Notation "m ;;; k" := (bind m (fun _ => k))
  (at level 100, right associativity) : py_scope.
Local Open Scope py_scope.

Definition trace_of {A : Type} (o : list event * SentimentAnalyzer * result A) :=
  fst (fst o).
Definition self_of {A : Type} (o : list event * SentimentAnalyzer * result A) :=
  snd (fst o).
Definition value_of {A : Type} (o : list event * SentimentAnalyzer * result A) :=
  snd o.

(** ** Startup: [__init__] and [_load_models] *)

(** The dictionary unpickled from [baseline_model.pkl]. *)
Record PickleData := {
  data_vectorizer : option Vectorizer;   (* data['vectorizer'] *)
  data_model : option Classifier         (* data['model'] *)
}.

(** What the file system and the imported packages answer at startup.
    The module refers to the global name [VaderAnalyzer] without binding
    it in the lines it shows: evaluating the name raises [NameError], or
    gives a false value (the package is not installed), or gives the
    class, whose instantiation has the outcome given here. *)
Record Environment := {
  MODEL_DIR_exists : bool;
  transformer_path_exists : bool;
  baseline_path_exists : bool;
  tokenizer_from_pretrained : result Tokenizer;
  model_from_pretrained : result Model;
  model_to_device : Model -> result Model;
  model_eval : Model -> result unit;
  pickle_load : result PickleData;
  VaderAnalyzer : result (option (result Vader));
  GoogleTranslator : Translator
}.

Definition is_some {A : Type} (o : option A) : bool :=
  match o with Some _ => true | None => false end.

(** [d[key]] *)
Definition subscript {A : Type} (o : option A) : result A :=
  match o with Some a => Ok a | None => Raise KeyError end.

Definition set_model (v : option Model) (self : SentimentAnalyzer) :=
  {| model := v; tokenizer := tokenizer self;
     baseline_model := baseline_model self;
     baseline_vectorizer := baseline_vectorizer self;
     vader_analyzer := vader_analyzer self; translator := translator self |}.

Definition set_tokenizer (v : option Tokenizer) (self : SentimentAnalyzer) :=
  {| model := model self; tokenizer := v;
     baseline_model := baseline_model self;
     baseline_vectorizer := baseline_vectorizer self;
     vader_analyzer := vader_analyzer self; translator := translator self |}.

Definition set_baseline_model (v : option Classifier) (self : SentimentAnalyzer) :=
  {| model := model self; tokenizer := tokenizer self;
     baseline_model := v;
     baseline_vectorizer := baseline_vectorizer self;
     vader_analyzer := vader_analyzer self; translator := translator self |}.

Definition set_baseline_vectorizer (v : option Vectorizer) (self : SentimentAnalyzer) :=
  {| model := model self; tokenizer := tokenizer self;
     baseline_model := baseline_model self;
     baseline_vectorizer := v;
     vader_analyzer := vader_analyzer self; translator := translator self |}.

Definition set_vader_analyzer (v : option Vader) (self : SentimentAnalyzer) :=
  {| model := model self; tokenizer := tokenizer self;
     baseline_model := baseline_model self;
     baseline_vectorizer := baseline_vectorizer self;
     vader_analyzer := v; translator := translator self |}.

Definition load_transformer (E : Environment) : M unit :=
  if MODEL_DIR_exists E && transformer_path_exists E then
    try_except
      (log INFO ;;;
       tok <- lift (tokenizer_from_pretrained E) ;;
       assign (set_tokenizer (Some tok)) ;;;
       m <- lift (model_from_pretrained E) ;;
       assign (set_model (Some m)) ;;;
       m' <- lift (model_to_device E m) ;;
       assign (set_model (Some m')) ;;;
       lift (model_eval E m') ;;;
       log INFO)
      (fun _ => log WARNING)
  else log INFO.

Definition load_baseline (E : Environment) : M unit :=
  if MODEL_DIR_exists E && baseline_path_exists E then
    try_except
      (log INFO ;;;
       data <- lift (pickle_load E) ;;
       v <- lift (subscript (data_vectorizer data)) ;;
       assign (set_baseline_vectorizer (Some v)) ;;;
       m <- lift (subscript (data_model data)) ;;
       assign (set_baseline_model (Some m)) ;;;
       log INFO)
      (fun _ => log WARNING)
  else ret tt.

Definition load_vader (E : Environment) : M unit :=
  m <- get model ;;
  b <- get baseline_model ;;
  if negb (is_some m) && negb (is_some b) then
    V <- lift (VaderAnalyzer E) ;;
    match V with
    | Some instantiate =>
        v <- lift instantiate ;;
        assign (set_vader_analyzer (Some v)) ;;;
        log INFO
    | None => log ERROR
    end
  else ret tt.

(** The three blocks of [_load_models], in source order. *)
Definition _load_models (E : Environment) : M unit :=
  load_transformer E ;;;
  load_baseline E ;;;
  load_vader E.

(** [SentimentAnalyzer()] *)
Definition __init__ (E : Environment) :=
  _load_models E
    {| model := None; tokenizer := None;
       baseline_model := None; baseline_vectorizer := None;
       vader_analyzer := None; translator := GoogleTranslator E |}.

(** ** The language bridge: [translate_if_needed] *)

(** Truth value of an object *)
Definition truthy (v : pyval) : bool :=
  match v with
  | PyNone => false
  | PyInt z => negb (z =? 0)%Z
  | PyStr s => match s with [] => false | _ :: _ => true end
  | PyList l => match l with [] => false | _ :: _ => true end
  | PyBytes b => match b with [] => false | _ :: _ => true end
  end.

(** [bytes.strip] without argument removes the six ASCII whitespace
    bytes, tab to carriage return and the space. *)
Definition is_bspace (c : N) : bool := in_range 9 13 c || (c =? 32)%N.

Fixpoint blstrip (b : list N) : list N :=
  match b with
  | [] => []
  | c :: t => if is_bspace c then blstrip t else b
  end.

Fixpoint brstrip (b : list N) : list N :=
  match b with
  | [] => []
  | c :: t =>
      match brstrip t with
      | [] => if is_bspace c then [] else [c]
      | r => c :: r
      end
  end.

Definition bstrip (b : list N) : list N := brstrip (blstrip b).

(** [text.strip()] and [text.isascii()]: [str] has the methods, and so
    have [bytes] and [bytearray]; None, a number and a list have not. *)
Definition py_strip (v : pyval) : result pyval :=
  match v with
  | PyStr s => Ok (PyStr (strip s))
  | PyBytes b => Ok (PyBytes (bstrip b))
  | _ => Raise AttributeError
  end.

Definition py_isascii (v : pyval) : result bool :=
  match v with
  | PyStr s => Ok (isascii s)
  | PyBytes b => Ok (forallb is_ascii_char b)
  | _ => Raise AttributeError
  end.

Definition is_empty (s : str) : bool :=
  match s with [] => true | _ :: _ => false end.

(** [not text or not text.strip()] *)
Definition is_blank (text : pyval) : result bool :=
  if negb (truthy text) then Ok true
  else match py_strip text with
       | Ok stripped => Ok (negb (truthy stripped))
       | Raise e => Raise e
       end.

(** [self.translator.translate(text)]. The translator is given as a
    function on strings; handed anything else it is taken to raise, which
    the [except Exception] of [translate_if_needed] catches. *)
Definition translator_translate (t : Translator) (text : pyval) : M pyval :=
  match text with
  | PyStr s => call (EvTranslate s) (translate t s)
  | _ => raise TypeError
  end.

Definition translate_if_needed (text : pyval) : M pyval :=
  blank <- lift (is_blank text) ;;
  if blank : bool then ret text
  else
    ascii <- lift (py_isascii text) ;;
    if ascii : bool then ret text
    else
      try_except
        (t <- get translator ;; translator_translate t text)
        (fun _ => log WARNING ;;; ret text).

(** ** The tiered classifier *)

(** [a > b] and [a >= b] on the scores *)
Definition Qgt_bool (a b : Q) : bool := negb (Qle_bool a b).
Definition Qge_bool (a b : Q) : bool := Qle_bool b a.

Definition default_result : SentimentResult :=
  {| sentiment := Neutral;
     confidence := 33 # 100;
     scores := {| negative := 33 # 100; neutral := 34 # 100; positive := 33 # 100 |};
     model_used := TagNone |}.

Definition _analyze_transformer (text : str) : M SentimentResult :=
  tk <- get tokenizer ;;
  inputs <- match tk with
            | Some t => call (EvTokenizer text) (tokenizer_call t text)
            | None => raise TypeError
            end ;;
  m <- get model ;;
  probs <- match m with
           | Some m => call (EvModel inputs) (model_call m inputs)
           | None => raise TypeError
           end ;;
  neg_score <- lift (getitem probs 0) ;;
  neu_score <- lift (getitem probs 1) ;;
  pos_score <- lift (getitem probs 2) ;;
  let total_polarized_score := neg_score + pos_score in
  let '(final_sentiment_idx, final_confidence) :=
    if Qgt_bool total_polarized_score 0 then
      if Qgt_bool pos_score neg_score then (2%nat, pos_score)
      else (0%nat, neg_score)
    else (0%nat, 1 # 2) in
  lab <- lift (getitem sentiment_labels final_sentiment_idx) ;;
  ret {| sentiment := lab;
         confidence := final_confidence;
         scores := {| negative := neg_score; neutral := 0; positive := pos_score |};
         model_used := TagTransformer |}.

Definition _analyze_baseline (text : str) : M SentimentResult :=
  bv <- get baseline_vectorizer ;;
  X <- match bv with
       | Some v => call (EvTransform [text]) (transform v [text])
       | None => raise AttributeError
       end ;;
  bm <- get baseline_model ;;
  preds <- match bm with
           | Some c => call (EvPredict X) (predict c X)
           | None => raise AttributeError
           end ;;
  pred <- lift (getitem preds 0) ;;
  probas <- match bm with
            | Some c => call (EvPredictProba X) (predict_proba c X)
            | None => raise AttributeError
            end ;;
  proba <- lift (getitem probas 0) ;;
  neg_score <- lift (getitem proba 0) ;;
  neu_score <- lift (getitem proba 1) ;;
  pos_score <- lift (getitem proba 2) ;;
  let total_polarized_score := neg_score + pos_score in
  let '(final_sentiment_idx, final_confidence) :=
    if Qgt_bool total_polarized_score 0 then
      if Qgt_bool pos_score neg_score then (2%nat, pos_score)
      else (0%nat, neg_score)
    else (0%nat, 1 # 2) in
  lab <- lift (getitem sentiment_labels final_sentiment_idx) ;;
  ret {| sentiment := lab;
         confidence := final_confidence;
         scores := {| negative := neg_score; neutral := 0; positive := pos_score |};
         model_used := TagBaseline |}.

Definition _analyze_vader (text : str) : M SentimentResult :=
  va <- get vader_analyzer ;;
  scores <- match va with
            | Some v => call (EvPolarityScores text) (polarity_scores v text)
            | None => raise AttributeError
            end ;;
  let neg := neg scores in
  let neu := neu scores in
  let pos := pos scores in
  let compound := compound scores in
  let '(sentiment, confidence) :=
    if Qge_bool compound (5 # 100) then (Positive, pos)
    else if Qle_bool compound (- 5 # 100) then (Negative, neg)
    else (Neutral, neu) in
  ret {| sentiment := sentiment;
         confidence := confidence;
         scores := {| negative := neg; neutral := neu; positive := pos |};
         model_used := TagVADER |}.

(** [try: return tier  except Exception: logger...]: the value returned,
    or [None] when control falls through to the next statement. *)
Definition attempt (tier : M SentimentResult) (lvl : level)
  : M (option SentimentResult) :=
  try_except (r <- tier ;; ret (Some r)) (fun _ => log lvl ;;; ret None).

Section Pipeline.

Variable U : Unicode.

Definition analyze (text : pyval) (use_transformer : bool) : M SentimentResult :=
  blank <- lift (is_blank text) ;;
  if blank : bool then ret default_result
  else
    translated_text <- translate_if_needed text ;;
    let cleaned_text := clean_text U translated_text in
    if is_empty cleaned_text then ret default_result
    else
      m <- get model ;;
      tk <- get tokenizer ;;
      r1 <- (if use_transformer && is_some m && is_some tk
             then attempt (_analyze_transformer cleaned_text) WARNING
             else ret None) ;;
      match r1 with
      | Some r => ret r
      | None =>
          bm <- get baseline_model ;;
          bv <- get baseline_vectorizer ;;
          r2 <- (if is_some bm && is_some bv
                 then attempt (_analyze_baseline cleaned_text) WARNING
                 else ret None) ;;
          match r2 with
          | Some r => ret r
          | None =>
              va <- get vader_analyzer ;;
              r3 <- (if is_some va
                     then attempt (_analyze_vader cleaned_text) ERROR
                     else ret None) ;;
              match r3 with
              | Some r => ret r
              | None => ret default_result
              end
          end
      end.

(** ** The aggregator: [get_word_frequencies] *)

Definition stop_words : list str :=
  map of_string
    [ "the"; "a"; "an"; "and"; "or"; "but"; "in"; "on"; "at"; "to"; "for";
      "of"; "with"; "is"; "was"; "are"; "were"; "been"; "be"; "have"; "has";
      "had"; "do"; "does"; "did"; "will"; "would"; "should"; "could"; "may";
      "might"; "can"; "this"; "that"; "these"; "those"; "i"; "you"; "he";
      "she"; "it"; "we"; "they"; "my"; "your"; "his"; "her"; "its"; "our";
      "their" ]%string.

(** [w in stop_words] *)
Definition in_set (w : str) (s : list str) : bool := existsb (str_eqb w) s.

(** [w not in stop_words and len(w) > 2] *)
Definition qualifies (w : str) : bool :=
  negb (in_set w stop_words) && (2 <? length w)%nat.

(** [Counter(words)]: the dictionary of counts, a key entering at its
    first occurrence. *)
Fixpoint counter_add (w : str) (c : list (str * nat)) : list (str * nat) :=
  match c with
  | [] => [(w, 1%nat)]
  | (k, n) :: c' =>
      if str_eqb k w then (k, S n) :: c' else (k, n) :: counter_add w c'
  end.

Definition Counter (words : list str) : list (str * nat) :=
  fold_left (fun c w => counter_add w c) words [].

(** [sorted(items, key=itemgetter(1), reverse=True)]: a stable sort, an
    item moving only past items of a strictly larger count. *)
Fixpoint insert_desc (x : str * nat) (l : list (str * nat)) : list (str * nat) :=
  match l with
  | [] => [x]
  | y :: l' => if (snd x <? snd y)%nat then y :: insert_desc x l' else x :: l
  end.

Definition sorted_desc (items : list (str * nat)) : list (str * nat) :=
  fold_right insert_desc [] items.

(** [Counter.most_common(n)], that is [heapq.nlargest(n, items, key)],
    which equals [sorted(items, key=key, reverse=True)[:n]]. *)
Definition most_common (n : nat) (c : list (str * nat)) : list (str * nat) :=
  firstn n (sorted_desc c).

Definition get_word_frequencies (texts : list pyval) : list (str * nat) :=
  let all_text := join [SPACE] (map (clean_text U) texts) in
  let words := split all_text in
  let filtered_words := filter qualifies words in
  let word_counts := Counter filtered_words in
  most_common 50 word_counts.

End Pipeline.

(** ** The module-level singleton: [get_analyzer] *)

(** [get_analyzer()], the global [_analyzer] passed in and out. The
    environment is the one of the call that constructs the analyzer. *)
Definition get_analyzer (E : Environment) (_analyzer : option SentimentAnalyzer)
  : list event * option SentimentAnalyzer * result SentimentAnalyzer :=
  match _analyzer with
  | Some a => ([], Some a, Ok a)
  | None =>
      match __init__ E with
      | (t, self, Ok _) => (t, Some self, Ok self)
      | (t, _, Raise e) => (t, None, Raise e)
      end
  end.

(** ** The HTTP layer: [backend/server.py]

    The endpoints and helpers that call the analyzer. What the server
    reaches outside itself (TextBlob, the display translator, the LLM
    client, the browser scraper, the database, the parsed upload) is a
    field of [World]; a call that may raise returns a [result]. The
    awaits are sequential, so an endpoint is a computation that leaves a
    list of effects and returns or raises. The [id] and the [timestamp]
    of a history document come from [uuid4] and the clock and are left
    out of the documents. *)

Module Server.

(** The exceptions of this layer, all derived from [Exception]. The
    detail of an [HTTPException] is a literal text or [str(e)]. *)
Inductive error :=
| Py (e : exn)
| EmptyDataError
| HTTPException (status_code : nat) (detail : message)
with message :=
| Text (s : str)
| StrOf (e : error).

Inductive outcome (A : Type) :=
| Return (a : A)
| Raised (e : error).
Arguments Return {A} a.
Arguments Raised {A} e.

(** [content.get(...)] reads these keys of what a scrape returns. *)
Record Content := {
  title : option str;
  description : option str;
  comments : option (list str);
  reviews : option (list str)
}.

(** The [scores] of a history document: the scores of one analysis, or
    the counts of a URL analysis. *)
Inductive doc_scores :=
| ScoresOf (s : Scores)
| CountsOf (c : list (str * nat)).

(** [AnalysisHistory(...).model_dump()] *)
Record HistoryDoc := {
  doc_text : str;
  doc_sentiment : str;
  doc_confidence : Q;
  doc_scores_of : doc_scores;
  doc_model_used : str;
  doc_analysis_type : str
}.

(** A document as [get_stats] reads it back: the keys may be missing. *)
Record StoredDoc := {
  stored_sentiment : option str;        (* h['sentiment'] *)
  stored_analysis_type : option str     (* h.get('analysis_type', 'single') *)
}.

Record World := {
  unicode : Unicode;
  (* the module-level [analyzer]: None when get_analyzer() raised *)
  analyzer : option SentimentAnalyzer;
  (* str(TextBlob(text).correct()) *)
  textblob_correct : str -> result str;
  (* display_translator.translate(text), as an f-string prints it *)
  display_translate : str -> result str;
  (* the module-level [llm_client]; given the user content, the content
     of the first choice *)
  llm_client : option (str -> result str);
  (* scrape_youtube_sync(url), run in the executor: None or a content *)
  scrape_youtube_sync : str -> result (option Content);
  (* db.analysis_history.insert_one(doc) *)
  insert_one : HistoryDoc -> result unit;
  (* db.analysis_history.find({}, {"_id": 0}).to_list(1000) *)
  find_all : result (list StoredDoc);
  (* round(v / total * 100, 2) on floats, for total > 0 *)
  percent : nat -> nat -> Q
}.

Inductive effect :=
| Correct (text : str)
| Analyze (text : str)
| Translate (text : str)
| Scrape (url : str)
| Complete (prompt : str)
| Insert (doc : HistoryDoc)
| FindAll
| Log (lvl : level).

Definition S (A : Type) : Type := (list effect * outcome A)%type.

Definition ret {A : Type} (a : A) : S A := ([], Return a).

Definition raise {A : Type} (e : error) : S A := ([], Raised e).

Definition bind {A B : Type} (m : S A) (f : A -> S B) : S B :=
  match m with
  | (t, Return a) =>
      match f a with
      | (t', r) => (t ++ t', r)
      end
  | (t, Raised e) => (t, Raised e)
  end.

(** [try: m  except ...: h e], the handler choosing by the exception. *)
Definition try_except {A : Type} (m : S A) (h : error -> S A) : S A :=
  match m with
  | (t, Raised e) =>
      match h e with
      | (t', r) => (t ++ t', r)
      end
  | ok => ok
  end.

(** An external call: recorded, then its outcome. *)
Definition call {A : Type} (ef : effect) (r : result A) : S A :=
  ([ef],
   match r with
   | Ok a => Return a
   | Raise e => Raised (Py e)
   end).

Definition log (lvl : level) : S unit := ([Log lvl], Return tt).

Declare Scope srv_scope.
Delimit Scope srv_scope with srv.
Notation "x <- m ;; k" := (bind m (fun x => k))
  (at level 100, m at next level, right associativity) : srv_scope.
Notation "m ;;; k" := (bind m (fun _ => k))
  (at level 100, right associativity) : srv_scope.
Local Open Scope srv_scope.

(** [for x in l: f x], the values collected. *)
Fixpoint for_each {A B : Type} (f : A -> S B) (l : list A) : S (list B) :=
  match l with
  | [] => ret []
  | x :: l' => y <- f x ;; ys <- for_each f l' ;; ret (y :: ys)
  end.

(** [needle in hay] on strings *)
Fixpoint contains (needle hay : str) : bool :=
  starts_with needle hay
  || match hay with
     | [] => false
     | _ :: t => contains needle t
     end.

(** [l.count(x)] *)
Definition list_count (x : str) (l : list str) : nat :=
  length (filter (str_eqb x) l).

(** The strings of the result dictionary of [analyze]. *)
Definition label_str (l : label) : str :=
  match l with
  | Negative => of_string "Negative"
  | Neutral => of_string "Neutral"
  | Positive => of_string "Positive"
  end.

Definition tag_str (t : model_tag) : str :=
  match t with
  | TagNone => of_string "None"
  | TagTransformer => of_string "Transformer"
  | TagBaseline => of_string "Baseline"
  | TagVADER => of_string "VADER-fallback"
  end.

Definition NL : char := 10%N.

Section Endpoints.

Variable W : World.

Definition autocorrect_text (text : str) : S str :=
  try_except
    (call (Correct text) (textblob_correct W text))
    (fun _ => log WARNING ;;; ret text).

Definition format_comment_with_translation (text : str) : S str :=
  if is_empty text then ret text
  else if negb (isascii text) then
    try_except
      (translated <- call (Translate text) (display_translate W text) ;;
       ret (text ++ of_string " (" ++ translated ++ of_string ")"))
      (fun _ => log WARNING ;;; ret text)
  else ret text.

(** The site markers of [fetch_content_from_url]. *)
Definition is_video_url (url : str) : bool :=
  contains (of_string "youtube.com") url || contains (of_string "youtu.be") url.

Definition is_shop_url (url : str) : bool :=
  contains (of_string "amazon") url || contains (of_string "flipkart") url.

Definition is_scraped_url (url : str) : bool :=
  contains (of_string "youtube.com") url || contains (of_string "youtu.be") url
  || contains (of_string "instagram.com") url || contains (of_string "instagr.am") url
  || contains (of_string "amazon") url || contains (of_string "flipkart") url.

Definition mock_reviews : Content :=
  {| title := Some (of_string "Wireless Noise Cancelling Headphones");
     description := Some (of_string "High fidelity audio, 30h battery life.");
     comments := None;
     reviews :=
       Some [ of_string "Best headphones I've ever owned.";
              of_string "Broke after 2 weeks.";
              of_string "Good for price, NC is okay.";
              of_string "I am in love with these!";
              of_string "Shipping slow.";
              of_string "Battery life as advertised." ] |}.

Definition mock_comments : Content :=
  {| title := Some (of_string "Viral Travel Reel");
     description := Some (of_string "Exploring hidden gems.");
     comments :=
       Some [ of_string "Wow, stunning! " ++ [128525%N];
              of_string "Where is this?";
              of_string "Too much editing.";
              of_string "Breathtaking.";
              of_string "Music perfect.";
              of_string "Overcrowded." ];
     reviews := None |}.

Definition scrape_unavailable : message :=
  Text (of_string "Could not scrape video comments. The video might be private, age-restricted, comments are disabled, or comments are hidden.").

(** [fetch_content_from_url]: the value scraped, [None] when control
    leaves the first block without returning. *)
Definition try_scrape (url : str) : S (option Content) :=
  if is_scraped_url url then
    log INFO ;;;
    try_except
      (call (Scrape url) (scrape_youtube_sync W url))
      (fun _ => log ERROR ;;; ret None)
  else ret None.

Definition fetch_content_from_url (url : str) : S Content :=
  scraped <- try_scrape url ;;
  match scraped with
  | Some result => ret result
  | None =>
      log INFO ;;;
      if is_video_url url then raise (HTTPException 503 scrape_unavailable)
      else if is_shop_url url then ret mock_reviews
      else ret mock_comments
  end.

Definition generate_llm_summary (title description : str) (texts : list str) : S str :=
  match llm_client W with
  | None => ret (of_string "Summary unavailable: OpenRouter API Key not configured.")
  | Some create =>
      try_except
        (let combined_text :=
           of_string "Title: " ++ title ++ [NL] ++ of_string "Description: "
           ++ description ++ [NL; NL] ++ of_string "Comments/Reviews:" ++ [NL]
           ++ join [NL] (firstn 20 texts) in
         call (Complete combined_text) (create combined_text))
        (fun _ => log ERROR ;;; ret (of_string "Error generating summary."))
  end.

(** The response model [SentimentResult], and the dictionaries of the
    same keys that the CSV and URL endpoints build. *)
Record SentimentResultModel := {
  res_text : str;
  res_sentiment : str;
  res_confidence : Q;
  res_scores : Scores;
  res_model_used : str
}.

Record Summary := {
  total_analyzed : nat;
  sentiment_counts : list (str * nat);
  sentiment_percentages : list (str * Q)
}.

(** The response model [BulkSentimentResult], also the dictionary of the
    CSV endpoint. *)
Record BulkSentimentResult := {
  results : list SentimentResultModel;
  summary : Summary;
  word_frequencies : list (str * nat)
}.

Record UrlResult := {
  url_results : list SentimentResultModel;
  url_summary : Summary;
  url_word_frequencies : list (str * nat);
  ai_summary : str;
  metadata_title : option str;
  metadata_description : str
}.

Record Stats := {
  total_analyses : nat;
  sentiment_distribution : list (str * nat);
  by_type : list (str * nat)
}.

Definition unavailable : error :=
  HTTPException 503 (Text (of_string "Sentiment analyzer not available")).

(** [analyzer.analyze(text)], with [use_transformer] at its default. *)
Definition analyzer_analyze (a : SentimentAnalyzer) (text : str) : S SentimentResult :=
  call (Analyze text) (value_of (analyze (unicode W) (PyStr text) true a)).

(** The dictionary [{k: round(v / total * 100, 2) if total > 0 else 0
    for k, v in sentiment_counts.items()}]. *)
Definition percentages (total : nat) (counts : list (str * nat)) : list (str * Q) :=
  map (fun kv => (fst kv, if (0 <? total)%nat then percent W (snd kv) total else 0))
      counts.

(** [except Exception as e: logger.error(...); raise
    HTTPException(status_code=500, detail=str(e))] *)
Definition internal_error {A : Type} (e : error) : S A :=
  log ERROR ;;; raise (HTTPException 500 (StrOf e)).

Definition analyze_text (text : str) : S SentimentResultModel :=
  match analyzer W with
  | None => raise unavailable
  | Some a =>
      try_except
        (corrected_text <- autocorrect_text text ;;
         result <- analyzer_analyze a corrected_text ;;
         let response :=
           {| res_text := firstn 200 text;
              res_sentiment := label_str (sentiment result);
              res_confidence := confidence result;
              res_scores := scores result;
              res_model_used := tag_str (model_used result) |} in
         let doc :=
           {| doc_text := firstn 500 corrected_text;
              doc_sentiment := label_str (sentiment result);
              doc_confidence := confidence result;
              doc_scores_of := ScoresOf (scores result);
              doc_model_used := tag_str (model_used result);
              doc_analysis_type := of_string "single" |} in
         call (Insert doc) (insert_one W doc) ;;;
         ret response)
        internal_error
  end.

(** One round of the loop of [analyze_bulk]: the entry appended to
    [results] and the one appended to [sentiments]. *)
Definition bulk_step (a : SentimentAnalyzer) (text : str)
  : S (SentimentResultModel * str) :=
  corrected_text <- autocorrect_text text ;;
  result <- analyzer_analyze a corrected_text ;;
  ret ({| res_text := firstn 200 text;
          res_sentiment := label_str (sentiment result);
          res_confidence := confidence result;
          res_scores := scores result;
          res_model_used := tag_str (model_used result) |},
       label_str (sentiment result)).

Definition bulk_doc (r : SentimentResultModel) : HistoryDoc :=
  {| doc_text := res_text r;
     doc_sentiment := res_sentiment r;
     doc_confidence := res_confidence r;
     doc_scores_of := ScoresOf (res_scores r);
     doc_model_used := res_model_used r;
     doc_analysis_type := of_string "bulk" |}.

Definition analyze_bulk (texts : list str) : S BulkSentimentResult :=
  match analyzer W with
  | None => raise unavailable
  | Some a =>
      if (100 <? length texts)%nat then
        raise (HTTPException 400 (Text (of_string "Maximum 100 texts allowed")))
      else
        try_except
          (analysed <- for_each (bulk_step a) texts ;;
           let results := map fst analysed in
           let sentiments := map snd analysed in
           let sentiment_counts :=
             [ (of_string "positive", list_count (of_string "Positive") sentiments);
               (of_string "negative", list_count (of_string "Negative") sentiments);
               (of_string "neutral", 0%nat) ] in
           let total := length sentiments in
           let sentiment_percentages := percentages total sentiment_counts in
           let word_frequencies :=
             get_word_frequencies (unicode W) (map PyStr texts) in
           let summary :=
             {| total_analyzed := length results;
                sentiment_counts := sentiment_counts;
                sentiment_percentages := sentiment_percentages |} in
           for_each (fun r => call (Insert (bulk_doc r)) (insert_one W (bulk_doc r)))
                    (firstn 10 results) ;;;
           ret {| results := results;
                  summary := summary;
                  word_frequencies := word_frequencies |})
          internal_error
  end.

(** One round of the loop of [analyze_csv], for a row that is not
    skipped. *)
Definition csv_step (a : SentimentAnalyzer) (text : str)
  : S (SentimentResultModel * str) :=
  corrected_text <- autocorrect_text text ;;
  result <- analyzer_analyze a corrected_text ;;
  ret ({| res_text := firstn 200 text;
          res_sentiment := label_str (sentiment result);
          res_confidence := confidence result;
          res_scores := scores result;
          res_model_used := tag_str (model_used result) |},
       label_str (sentiment result)).

(** [if not text or text == 'nan': continue] *)
Definition csv_row_kept (text : str) : bool :=
  negb (is_empty text || str_eqb text (of_string "nan")).

(** [analyze_csv]. [df] is the outcome of reading the upload and parsing
    it with [pd.read_csv]; of a frame the endpoint reads whether it has a
    column [text] and, row by row, [str(row['text'])]. *)
Definition analyze_csv (df : outcome (option (list str))) : S BulkSentimentResult :=
  match analyzer W with
  | None => raise unavailable
  | Some a =>
      try_except
        (frame <- ([], df) ;;
         match frame with
         | None =>
             raise (HTTPException 400 (Text (of_string "CSV must contain 'text' column")))
         | Some rows =>
             let rows := if (1000 <? length rows)%nat then firstn 1000 rows else rows in
             let texts := filter csv_row_kept rows in
             analysed <- for_each (csv_step a) texts ;;
             let results := map fst analysed in
             let sentiments := map snd analysed in
             let sentiment_counts :=
               [ (of_string "positive", list_count (of_string "positive") sentiments);
                 (of_string "negative", list_count (of_string "negative") sentiments);
                 (of_string "neutral", 0%nat) ] in
             let total := length sentiments in
             let sentiment_percentages := percentages total sentiment_counts in
             let word_frequencies :=
               get_word_frequencies (unicode W) (map PyStr texts) in
             let summary :=
               {| total_analyzed := length sentiments;
                  sentiment_counts := sentiment_counts;
                  sentiment_percentages := sentiment_percentages |} in
             ret {| results := results;
                    summary := summary;
                    word_frequencies := word_frequencies |}
         end)
        (fun e =>
           match e with
           | EmptyDataError =>
               raise (HTTPException 400 (Text (of_string "CSV file is empty")))
           | _ => internal_error e
           end)
  end.

(** [x or y] on lists and [d.get(k, default)] *)
Definition list_or (x : option (list str)) (y : list str) : list str :=
  match x with
  | Some (a :: l) => a :: l
  | _ => y
  end.

Definition get_default {A : Type} (o : option A) (d : A) : A :=
  match o with Some a => a | None => d end.

(** One round of the loop of [analyze_url]. *)
Definition url_step (a : SentimentAnalyzer) (text : str)
  : S (SentimentResultModel * str) :=
  corrected_text <- autocorrect_text text ;;
  result <- analyzer_analyze a corrected_text ;;
  display_text <- format_comment_with_translation text ;;
  ret ({| res_text := display_text;
          res_sentiment := label_str (sentiment result);
          res_confidence := confidence result;
          res_scores := scores result;
          res_model_used := tag_str (model_used result) |},
       label_str (sentiment result)).

Definition no_comments (content : Content) : UrlResult :=
  {| url_results := [];
     url_summary :=
       {| total_analyzed := 0;
          sentiment_counts :=
            [ (of_string "positive", 0%nat); (of_string "negative", 0%nat);
              (of_string "neutral", 0%nat) ];
          sentiment_percentages :=
            [ (of_string "positive", 0); (of_string "negative", 0) ] |};
     url_word_frequencies := [];
     ai_summary := of_string "No comments available to analyze.";
     metadata_title := title content;
     metadata_description := get_default (description content) [] |}.

Definition analyze_url (url : str) : S UrlResult :=
  match analyzer W with
  | None => raise unavailable
  | Some a =>
      try_except
        (content <- fetch_content_from_url url ;;
         let texts := list_or (comments content) (list_or (reviews content) []) in
         if match texts with [] => true | _ :: _ => false end then
           ret (no_comments content)
         else
           analysed <- for_each (url_step a) texts ;;
           let results := map fst analysed in
           let sentiments := map snd analysed in
           let positive := list_count (of_string "Positive") sentiments in
           let negative := list_count (of_string "Negative") sentiments in
           let sentiment_counts :=
             [ (of_string "positive", positive); (of_string "negative", negative);
               (of_string "neutral", 0%nat) ] in
           let total := length sentiments in
           let sentiment_percentages := percentages total sentiment_counts in
           let word_frequencies :=
             get_word_frequencies (unicode W) (map PyStr texts) in
           let summary_stats :=
             {| total_analyzed := length results;
                sentiment_counts := sentiment_counts;
                sentiment_percentages := sentiment_percentages |} in
           ai <- generate_llm_summary
                   (get_default (title content) (of_string "Unknown"))
                   (get_default (description content) []) texts ;;
           let overall_sentiment :=
             if (negative <? positive)%nat then of_string "Positive"
             else if (positive <? negative)%nat then of_string "Negative"
             else of_string "Mixed" in
           let doc :=
             {| doc_text := of_string "URL Analysis: " ++ url;
                doc_sentiment := overall_sentiment;
                doc_confidence := 8 # 10;
                doc_scores_of := CountsOf sentiment_counts;
                doc_model_used := of_string "Transformer";
                doc_analysis_type := of_string "url" |} in
           call (Insert doc) (insert_one W doc) ;;;
           ret {| url_results := results;
                  url_summary := summary_stats;
                  url_word_frequencies := word_frequencies;
                  ai_summary := ai;
                  metadata_title := title content;
                  metadata_description := get_default (description content) [] |})
        (fun e =>
           match e with
           | HTTPException _ _ => raise e
           | _ => internal_error e
           end)
  end.

(** [h['sentiment']] *)
Definition stored_sentiment_of (h : StoredDoc) : S str :=
  match stored_sentiment h with
  | Some s => ret s
  | None => raise (Py KeyError)
  end.

Definition get_stats : S Stats :=
  try_except
    (all_history <- call FindAll (find_all W) ;;
     match all_history with
     | [] =>
         ret {| total_analyses := 0;
                sentiment_distribution :=
                  [ (of_string "positive", 0%nat); (of_string "negative", 0%nat);
                    (of_string "neutral", 0%nat) ];
                by_type :=
                  [ (of_string "single", 0%nat); (of_string "bulk", 0%nat);
                    (of_string "csv", 0%nat); (of_string "url", 0%nat) ] |}
     | _ :: _ =>
         sentiments <- for_each stored_sentiment_of all_history ;;
         let analysis_types :=
           map (fun h => get_default (stored_analysis_type h) (of_string "single"))
               all_history in
         ret {| total_analyses := length all_history;
                sentiment_distribution :=
                  [ (of_string "positive", list_count (of_string "Positive") sentiments);
                    (of_string "negative", list_count (of_string "Negative") sentiments);
                    (of_string "neutral", 0%nat) ];
                by_type :=
                  [ (of_string "single", list_count (of_string "single") analysis_types);
                    (of_string "bulk", list_count (of_string "bulk") analysis_types);
                    (of_string "csv", list_count (of_string "csv") analysis_types);
                    (of_string "url", list_count (of_string "url") analysis_types) ] |}
     end)
    internal_error.

End Endpoints.

End Server.

(** * Vocabulary of the properties *)

(** ** C1: the two-class collapse: definitions *)

(** What the claim says of a result [r] computed from the probabilities
    [(neg, neu, pos)]. *)
Definition two_class_collapse (neg neu pos : Q) (r : SentimentResult) : Prop :=
  (pos + neg > 0 -> pos > neg -> sentiment r = Positive /\ confidence r = pos)
  /\ (pos + neg > 0 -> ~ pos > neg -> sentiment r = Negative /\ confidence r = neg)
  /\ (pos + neg == 0 -> sentiment r = Negative /\ confidence r = 1 # 2)
  /\ neutral (scores r) = 0
  /\ negative (scores r) = neg /\ positive (scores r) = pos
  /\ sentiment r <> Neutral.

(** The probabilities the neural tier reads for [text]: the first three
    entries of the row that the loaded tokenizer and model produce. *)
Definition neural_probabilities (self : SentimentAnalyzer) (text : str)
    (neg neu pos : Q) : Prop :=
  exists tok mdl ids rest,
    tokenizer self = Some tok /\ model self = Some mdl
    /\ tokenizer_call tok text = Ok ids
    /\ model_call mdl ids = Ok (neg :: neu :: pos :: rest).

(** The probabilities the classical tier reads for [text]: the first
    three entries of the first row of [predict_proba]. *)
Definition classical_probabilities (self : SentimentAnalyzer) (text : str)
    (neg neu pos : Q) : Prop :=
  exists vec clf X p preds rest rows,
    baseline_vectorizer self = Some vec /\ baseline_model self = Some clf
    /\ transform vec [text] = Ok X
    /\ predict clf X = Ok (p :: preds)
    /\ predict_proba clf X = Ok ((neg :: neu :: pos :: rest) :: rows).

(** An analyzer whose neural and classical tiers both answer
    (neg, neu, pos) = (0.3, 0.9, 0.7) on every text. *)
Definition sample_probs : list Q := [3 # 10; 9 # 10; 7 # 10].

Definition sample_translator : Translator :=
  {| translate := fun s => Ok (PyStr s) |}.

Definition sample_analyzer : SentimentAnalyzer :=
  {| model := Some {| model_call := fun _ => Ok sample_probs |};
     tokenizer := Some {| tokenizer_call := fun _ => Ok [101%N; 102%N] |};
     baseline_model :=
       Some {| predict := fun _ => Ok [2%Z];
               predict_proba := fun _ => Ok [sample_probs] |};
     baseline_vectorizer := Some {| transform := fun _ => Ok [1; 0] |};
     vader_analyzer := None;
     translator := sample_translator |}.

(** ** C4: the lexicon tier: definitions *)

(** What the lexicon tier returns from the polarity scores [sc], the
    thresholds being part of the outer intervals. *)
Definition lexicon_rule (sc : PolarityScores) (r : SentimentResult) : Prop :=
  (5 # 100 <= compound sc -> sentiment r = Positive /\ confidence r = pos sc)
  /\ (compound sc <= - 5 # 100 -> sentiment r = Negative /\ confidence r = neg sc)
  /\ (- 5 # 100 < compound sc -> compound sc < 5 # 100 ->
      sentiment r = Neutral /\ confidence r = neu sc)
  /\ scores r = {| negative := neg sc; neutral := neu sc; positive := pos sc |}
  /\ model_used r = TagVADER.

(** The reading of the claim with strict thresholds: above gives
    Positive, below gives Negative, everything else Neutral. *)
Definition lexicon_rule_strict (sc : PolarityScores) (r : SentimentResult) : Prop :=
  (5 # 100 < compound sc -> sentiment r = Positive /\ confidence r = pos sc)
  /\ (compound sc < - 5 # 100 -> sentiment r = Negative /\ confidence r = neg sc)
  /\ (~ 5 # 100 < compound sc -> ~ compound sc < - 5 # 100 ->
      sentiment r = Neutral /\ confidence r = neu sc).

(** A lexicon analyzer that answers [sc] on every text, alone in the
    analyzer. *)
Definition vader_only (sc : PolarityScores) : SentimentAnalyzer :=
  {| model := None; tokenizer := None;
     baseline_model := None; baseline_vectorizer := None;
     vader_analyzer := Some {| polarity_scores := fun _ => Ok sc |};
     translator := sample_translator |}.

Definition at_threshold : PolarityScores :=
  {| neg := 0; neu := 8 # 10; pos := 2 # 10; compound := 5 # 100 |}.

Definition mild : PolarityScores :=
  {| neg := 1 # 10; neu := 8 # 10; pos := 1 # 10; compound := 0 |}.

(** ** C9: the language bridge: definitions *)

(** A translator that is out of reach. *)
Definition failing_translator : Translator :=
  {| translate := fun _ => Raise OSError |}.

Definition offline_analyzer : SentimentAnalyzer :=
  {| model := None; tokenizer := None;
     baseline_model := None; baseline_vectorizer := None;
     vader_analyzer := None; translator := failing_translator |}.

(** "très bien" *)
Definition tres_bien : str := [116; 114; 232; 115; 32; 98; 105; 101; 110]%N.

(** ** Methods that only read the analyzer: definitions *)

(** [m] returns the analyzer object as it received it. *)
Definition readonly {A : Type} (m : M A) : Prop :=
  forall self, self_of (m self) = self.

(** ** C2 and C3: the short-circuit and the cascade of [analyze]: definitions *)

(** The normalised form of the text inside [analyze]: the language
    bridge, then the normaliser. *)
Definition normalized (U : Unicode) (self : SentimentAnalyzer) (text : pyval) : str :=
  match value_of (translate_if_needed text self) with
  | Ok v => clean_text U v
  | Raise _ => []
  end.

Definition no_tier_call (t : list event) : bool :=
  forallb (fun e => negb (is_tier_call e)) t.

(** Which tiers [analyze] may enter. *)
Definition neural_available (self : SentimentAnalyzer) (use_transformer : bool) : bool :=
  use_transformer && is_some (model self) && is_some (tokenizer self).

Definition classical_available (self : SentimentAnalyzer) : bool :=
  is_some (baseline_model self) && is_some (baseline_vectorizer self).

Definition lexicon_available (self : SentimentAnalyzer) : bool :=
  is_some (vader_analyzer self).

(** The tier, run on the analyzer, raises. *)
Definition fails {A : Type} (m : M A) (self : SentimentAnalyzer) : Prop :=
  exists e, value_of (m self) = Raise e.

(** The tier is not entered or it raises. *)
Definition unavailable_or_fails {A : Type} (available : bool) (m : M A)
    (self : SentimentAnalyzer) : Prop :=
  available = false \/ fails m self.

(** The first call of each tier, on the text [c]. *)
Definition neural_attempted (c : str) (t : list event) : Prop := In (EvTokenizer c) t.

(** One [try] block of [analyze]: the trace it leaves and the value it
    returns, if any. *)
Definition stage (available : bool) (o : list event * SentimentAnalyzer * result SentimentResult)
    (lvl : level) : list event * option SentimentResult :=
  if available then
    match value_of o with
    | Ok r => (trace_of o, Some r)
    | Raise _ => (trace_of o ++ [EvLog lvl], None)
    end
  else ([], None).

(** The cascade over the three blocks. *)
Definition cascade (s1 s2 s3 : list event * option SentimentResult)
  : list event * SentimentResult :=
  match s1 with
  | (t1, Some r) => (t1, r)
  | (t1, None) =>
      match s2 with
      | (t2, Some r) => (t1 ++ t2, r)
      | (t2, None) =>
          match s3 with
          | (t3, Some r) => (t1 ++ t2 ++ t3, r)
          | (t3, None) => (t1 ++ t2 ++ t3, default_result)
          end
      end
  end.

(** An analyzer object whose attributes are set by hand, as a test with
    stubs sets them: the three tiers present, the neural model and the
    classical vectorizer raising on every call. Startup builds no such
    object: it sets the lexicon analyzer only when no model loaded. *)
Definition flaky_analyzer : SentimentAnalyzer :=
  {| model := Some {| model_call := fun _ => Raise RuntimeError |};
     tokenizer := Some {| tokenizer_call := fun _ => Ok [101%N] |};
     baseline_model :=
       Some {| predict := fun _ => Ok [2%Z];
               predict_proba := fun _ => Ok [sample_probs] |};
     baseline_vectorizer := Some {| transform := fun _ => Raise ValueError |};
     vader_analyzer := Some {| polarity_scores := fun _ => Ok mild |};
     translator := sample_translator |}.

(** ** C10: inputs that are not strings: definitions *)

Definition is_str (v : pyval) : bool :=
  match v with PyStr _ => true | _ => false end.

(** The values that have the methods [strip] and [isascii]. *)
Definition has_strip (v : pyval) : bool :=
  match v with PyStr _ | PyBytes _ => true | _ => false end.

(** ** C6: what [_load_models] loads: definitions *)

(** The attributes of the analyzer after [SentimentAnalyzer()]. *)
Definition loaded (E : Environment) : SentimentAnalyzer := self_of (__init__ E).

(** What the neural block and the classical block of [_load_models]
    read from the environment. *)
Definition neural_inputs (E : Environment) :=
  (MODEL_DIR_exists E, transformer_path_exists E, tokenizer_from_pretrained E,
   model_from_pretrained E, model_to_device E).

Definition classical_inputs (E : Environment) :=
  (MODEL_DIR_exists E, baseline_path_exists E, pickle_load E).

Definition sample_vader : Vader := {| polarity_scores := fun _ => Ok mild |}.

(** An empty model directory; the lexicon package is installed. *)
Definition bare_environment : Environment :=
  {| MODEL_DIR_exists := true;
     transformer_path_exists := false;
     baseline_path_exists := false;
     tokenizer_from_pretrained := Raise OSError;
     model_from_pretrained := Raise OSError;
     model_to_device := fun m => Ok m;
     model_eval := fun _ => Ok tt;
     pickle_load := Raise OSError;
     VaderAnalyzer := Ok (Some (Ok sample_vader));
     GoogleTranslator := sample_translator |}.

(** The same, with [baseline_model.pkl] in place. *)
Definition baseline_environment : Environment :=
  {| MODEL_DIR_exists := true;
     transformer_path_exists := false;
     baseline_path_exists := true;
     tokenizer_from_pretrained := Raise OSError;
     model_from_pretrained := Raise OSError;
     model_to_device := fun m => Ok m;
     model_eval := fun _ => Ok tt;
     pickle_load :=
       Ok {| data_vectorizer := Some {| transform := fun _ => Ok [1; 0] |};
             data_model := Some {| predict := fun _ => Ok [2%Z];
                                   predict_proba := fun _ => Ok [sample_probs] |} |};
     VaderAnalyzer := Ok (Some (Ok sample_vader));
     GoogleTranslator := sample_translator |}.



Close Scope Q_scope.

(** ** C5: URL and mention patterns in the normalised text: definitions *)

(** [re.search(r'http\S+|www\S+', s)] finds a match. *)
Fixpoint has_url_match (s : str) : bool :=
  match s with
  | [] => false
  | _ :: t => starts_url s || has_url_match t
  end.


(** The characters of a normalised text. *)
Definition plain (c : char) : bool :=
  is_alnum_ascii c || (c =? 32)%N
  || (c =? 33)%N || (c =? 63)%N || (c =? 46)%N || (c =? 44)%N.

(** ** C8: normalising twice: definitions *)

(** The shape of a normalised text: each whitespace character is one
    space and stands before a character that is not whitespace, and the
    text does not begin with whitespace. *)
Fixpoint tidy_tail (s : str) : bool :=
  match s with
  | [] => true
  | c :: t =>
      (if is_space c then char_eqb c SPACE && head_nonspace t else true)
      && tidy_tail t
  end.

Definition tidy (s : str) : bool :=
  tidy_tail s && (is_empty s || head_nonspace s).

(** The same, a space at the very end allowed. *)
Fixpoint loose (s : str) : bool :=
  match s with
  | [] => true
  | c :: t =>
      (if is_space c then char_eqb c SPACE && (is_empty t || head_nonspace t) else true)
      && loose t
  end.

Definition no_upper (s : str) : bool :=
  forallb (fun c => negb (is_upper_ascii c)) s.

(** No whitespace-delimited token of [s] is a key of [SENTIMENT_FLIPS]. *)
Definition slang_free (s : str) : bool :=
  forallb (fun w => negb (is_some (dict_get SENTIMENT_FLIPS w))) (split s).

(** ** C7: word frequencies: definitions *)

(** How often [w] occurs in [ws]. *)
Definition count (w : str) (ws : list str) : nat :=
  length (filter (str_eqb w) ws).

(** The distinct words of [ws], each at its first occurrence. *)
Fixpoint firsts (ws : list str) : list str :=
  match ws with
  | [] => []
  | w :: t => w :: filter (fun x => negb (str_eqb w x)) (firsts t)
  end.

(** The items whose key is not [w]. *)
Definition without (w : str) (c : list (str * nat)) : list (str * nat) :=
  filter (fun e => negb (str_eqb w (fst e))) c.

(** The order of the ranking: counts do not increase. *)
Definition count_ge (a b : str * nat) : Prop := snd b <= snd a.

(** The items of count [n]. *)
Definition has_count (n : nat) (e : str * nat) : bool := snd e =? n.

(** The tokens that are counted: each text normalised and cut at
    whitespace, without the stopwords and the words under three
    characters. *)
Definition tokens (U : Unicode) (texts : list pyval) : list str :=
  filter qualifies (flat_map (fun t => split (clean_text U t)) texts).

(** The table of counts, a word entering at its first occurrence. *)
Definition tally (toks : list str) : list (str * nat) :=
  map (fun w => (w, count w toks)) (firsts toks).

(** [a] stands before [b] in [l]. *)
Definition before {A : Type} (a b : A) (l : list A) : Prop :=
  exists l1 l2 l3, l = l1 ++ a :: l2 ++ b :: l3.

(** The first occurrence of [w1] in [ws] comes before any occurrence of
    [w2]. *)
Definition first_before (w1 w2 : str) (ws : list str) : Prop :=
  exists p q, ws = p ++ w1 :: q /\ ~ In w1 p /\ ~ In w2 p /\ In w2 q.

(** Sixty distinct words: "wordaa", "wordab", ... *)
Definition sixty_words : list str :=
  map (fun i => of_string "word"
                ++ [N.of_nat (97 + i / 10); N.of_nat (97 + i mod 10)])
      (seq 0 60).

Definition sixty_texts : list pyval :=
  [PyStr (join [SPACE] (firstn 30 sixty_words));
   PyStr (join [SPACE] (skipn 30 sixty_words))].

(** ** Further properties of the analyzer: definitions *)

(** The events of each tier. *)
Definition is_neural_call (e : event) : bool :=
  match e with EvTokenizer _ | EvModel _ => true | _ => false end.

Definition is_classical_call (e : event) : bool :=
  match e with EvTransform _ | EvPredict _ | EvPredictProba _ => true | _ => false end.

Definition is_lexicon_call (e : event) : bool :=
  match e with EvPolarityScores _ => true | _ => false end.

Definition is_translate_call (e : event) : bool :=
  match e with EvTranslate _ => true | _ => false end.

(** No event of [t] satisfies [p]. *)
Definition none_of (p : event -> bool) (t : list event) : bool :=
  forallb (fun e => negb (p e)) t.

(** The text a tier call is made on, if the event is a call that takes
    the text. *)
Definition called_on (e : event) : option str :=
  match e with
  | EvTokenizer c => Some c
  | EvTransform [c] => Some c
  | EvPolarityScores c => Some c
  | _ => None
  end.

Open Scope Q_scope.


(** An empty model directory, the name [VaderAnalyzer] unbound. *)
Definition unbound_environment : Environment :=
  {| MODEL_DIR_exists := true;
     transformer_path_exists := false;
     baseline_path_exists := false;
     tokenizer_from_pretrained := Raise OSError;
     model_from_pretrained := Raise OSError;
     model_to_device := fun m => Ok m;
     model_eval := fun _ => Ok tt;
     pickle_load := Raise OSError;
     VaderAnalyzer := Raise NameError;
     GoogleTranslator := sample_translator |}.

Close Scope Q_scope.

(** ** The HTTP layer: definitions *)

Open Scope Q_scope.

(** The effects of each kind. *)
Definition is_analyze (e : Server.effect) : bool :=
  match e with Server.Analyze _ => true | _ => false end.

Definition is_insert (e : Server.effect) : bool :=
  match e with Server.Insert _ => true | _ => false end.

Definition is_scrape (e : Server.effect) : bool :=
  match e with Server.Scrape _ => true | _ => false end.

Definition is_translate (e : Server.effect) : bool :=
  match e with Server.Translate _ => true | _ => false end.

Definition is_complete (e : Server.effect) : bool :=
  match e with Server.Complete _ => true | _ => false end.

(** How many effects of [t] satisfy [p]. *)
Definition how_many (p : Server.effect -> bool) (t : list Server.effect) : nat :=
  length (filter p t).

(** The computation returns. *)
Definition returns {A : Type} (m : Server.S A) : Prop :=
  exists a, snd m = Server.Return a.

(** The computation returns or raises an [HTTPException] of one of the
    given status codes. *)
Definition http_only {A : Type} (codes : list nat) (m : Server.S A) : Prop :=
  match snd m with
  | Server.Return _ => True
  | Server.Raised (Server.HTTPException code _) => In code codes
  | Server.Raised _ => False
  end.

(** [p] is a prefix of [s]. *)
Definition prefix_of (p s : str) : Prop := exists r, s = p ++ r.

(** The history document [analyze_url] stores for [url] when [positive]
    and [negative] comments were counted. *)
Definition url_doc (url : str) (positive negative : nat) : Server.HistoryDoc :=
  {| Server.doc_text := of_string "URL Analysis: " ++ url;
     Server.doc_sentiment :=
       if (negative <? positive)%nat then of_string "Positive"
       else if (positive <? negative)%nat then of_string "Negative"
       else of_string "Mixed";
     Server.doc_confidence := 8 # 10;
     Server.doc_scores_of :=
       Server.CountsOf
         [ (of_string "positive", positive); (of_string "negative", negative);
           (of_string "neutral", 0%nat) ];
     Server.doc_model_used := of_string "Transformer";
     Server.doc_analysis_type := of_string "url" |}.

(** The texts [analyze_url] reads from a content: the comments, else the
    reviews, else none. *)
Definition texts_of (c : Server.Content) : list str :=
  Server.list_or (Server.comments c) (Server.list_or (Server.reviews c) []).

(** The response and the history document of [analyze_text] for a text,
    its correction and the result of the analysis. *)
Definition text_response (text : str) (r : SentimentResult)
  : Server.SentimentResultModel :=
  {| Server.res_text := firstn 200 text;
     Server.res_sentiment := Server.label_str (sentiment r);
     Server.res_confidence := confidence r;
     Server.res_scores := scores r;
     Server.res_model_used := Server.tag_str (model_used r) |}.

Definition text_doc (corrected : str) (r : SentimentResult) : Server.HistoryDoc :=
  {| Server.doc_text := firstn 500 corrected;
     Server.doc_sentiment := Server.label_str (sentiment r);
     Server.doc_confidence := confidence r;
     Server.doc_scores_of := Server.ScoresOf (scores r);
     Server.doc_model_used := Server.tag_str (model_used r);
     Server.doc_analysis_type := of_string "single" |}.

(** The rows [analyze_csv] analyses: of the first thousand, those whose
    text is neither empty nor [nan]. *)
Definition kept_rows (rows : list str) : list str :=
  filter Server.csv_row_kept (firstn 1000 rows).

(** The error of an endpoint whose work raised [e]. *)
Definition internal (e : Server.error) : Server.error :=
  Server.HTTPException 500 (Server.StrOf e).

(** A world for the examples: the three tiers answer (0.3, 0.9, 0.7),
    TextBlob and the translator are out of reach, the database accepts
    every document. *)
Definition sample_world : Server.World :=
  {| Server.unicode := ascii_only;
     Server.analyzer := Some sample_analyzer;
     Server.textblob_correct := fun _ => Raise OSError;
     Server.display_translate := fun _ => Raise OSError;
     Server.llm_client := None;
     Server.scrape_youtube_sync := fun _ => Ok None;
     Server.insert_one := fun _ => Ok tt;
     Server.find_all := Ok [];
     Server.percent := fun _ _ => 0 |}.

(** The same world with the database out of reach. *)
Definition database_down_world : Server.World :=
  {| Server.unicode := ascii_only;
     Server.analyzer := Some sample_analyzer;
     Server.textblob_correct := fun _ => Raise OSError;
     Server.display_translate := fun _ => Raise OSError;
     Server.llm_client := None;
     Server.scrape_youtube_sync := fun _ => Ok None;
     Server.insert_one := fun _ => Raise OSError;
     Server.find_all := Raise OSError;
     Server.percent := fun _ _ => 0 |}.

(** The sample world over a database that holds [docs], and over a
    scraper that finds [c]. *)
Definition stored_world (docs : list Server.StoredDoc) : Server.World :=
  {| Server.unicode := ascii_only;
     Server.analyzer := Some sample_analyzer;
     Server.textblob_correct := fun _ => Raise OSError;
     Server.display_translate := fun _ => Raise OSError;
     Server.llm_client := None;
     Server.scrape_youtube_sync := fun _ => Ok None;
     Server.insert_one := fun _ => Ok tt;
     Server.find_all := Ok docs;
     Server.percent := fun _ _ => 0 |}.

Definition scraped_world (c : Server.Content) : Server.World :=
  {| Server.unicode := ascii_only;
     Server.analyzer := Some sample_analyzer;
     Server.textblob_correct := fun _ => Raise OSError;
     Server.display_translate := fun _ => Raise OSError;
     Server.llm_client := None;
     Server.scrape_youtube_sync := fun _ => Ok (Some c);
     Server.insert_one := fun _ => Ok tt;
     Server.find_all := Ok [];
     Server.percent := fun _ _ => 0 |}.

(** Three stored documents: a positive text, a URL analysis that came
    out mixed, and a neutral one stored without a type. *)
Definition sample_history : list Server.StoredDoc :=
  [ {| Server.stored_sentiment := Some (of_string "Positive");
       Server.stored_analysis_type := Some (of_string "single") |};
    {| Server.stored_sentiment := Some (of_string "Mixed");
       Server.stored_analysis_type := Some (of_string "url") |};
    {| Server.stored_sentiment := Some (of_string "Neutral");
       Server.stored_analysis_type := None |} ].

(** A stored document without the key [sentiment]. *)
Definition unlabelled_doc : Server.StoredDoc :=
  {| Server.stored_sentiment := None;
     Server.stored_analysis_type := Some (of_string "bulk") |}.

(** A video found with its comments disabled. *)
Definition silent_video : Server.Content :=
  {| Server.title := Some (of_string "A video");
     Server.description := None;
     Server.comments := Some [];
     Server.reviews := None |}.

Close Scope Q_scope.

(** * Properties *)

Open Scope Q_scope.

(** ** Running the monad *)

Ltac unfold_monad :=
  unfold attempt, try_except, bind, ret, raise, get, assign, call, lift, log,
    trace_of, self_of, value_of in *.

(** Case analysis on the first scrutinee the goal is stuck on. *)
Ltac step :=
  match goal with
  | |- context [match ?x with _ => _ end] =>
      lazymatch x with
      | context [match _ with _ => _ end] => fail
      | _ => destruct x eqn:?
      end
  end.

Lemma Qgt_bool_true (a b : Q) : Qgt_bool a b = true <-> b < a.
Proof.
  unfold Qgt_bool. rewrite negb_true_iff. split; intro H.
  - apply Qnot_le_lt. intro L. apply Qle_bool_iff in L. congruence.
  - destruct (Qle_bool a b) eqn:E; [|reflexivity].
    apply Qle_bool_iff in E. exfalso. exact (Qlt_not_le _ _ H E).
Qed.

Lemma Qgt_bool_false (a b : Q) : Qgt_bool a b = false <-> a <= b.
Proof.
  unfold Qgt_bool. rewrite negb_false_iff. apply Qle_bool_iff.
Qed.

(** ** C1: the two-class collapse *)

Lemma Qle_bool_false (a b : Q) : Qle_bool a b = false -> b < a.
Proof.
  intro H. apply Qnot_le_lt. intro L. apply Qle_bool_iff in L. congruence.
Qed.

Lemma Qge_bool_false (a b : Q) : Qge_bool a b = false -> a < b.
Proof. unfold Qge_bool. apply Qle_bool_false. Qed.

Lemma Qge_bool_true (a b : Q) : Qge_bool a b = true -> b <= a.
Proof. unfold Qge_bool. apply Qle_bool_iff. Qed.

Ltac q_facts :=
  repeat match goal with
  | H : Qgt_bool _ _ = true |- _ => apply Qgt_bool_true in H
  | H : Qgt_bool _ _ = false |- _ => apply Qgt_bool_false in H
  | H : Qge_bool _ _ = true |- _ => apply Qge_bool_true in H
  | H : Qge_bool _ _ = false |- _ => apply Qge_bool_false in H
  | H : Qle_bool _ _ = true |- _ => apply Qle_bool_iff in H
  | H : Qle_bool _ _ = false |- _ => apply Qle_bool_false in H
  end.

Lemma collapse_positive (neg neu pos : Q) (tag : model_tag) :
  Qgt_bool (neg + pos) 0 = true -> Qgt_bool pos neg = true ->
  two_class_collapse neg neu pos
    {| sentiment := Positive; confidence := pos;
       scores := {| negative := neg; neutral := 0; positive := pos |};
       model_used := tag |}.
Proof.
  intros Ht Hp. q_facts. unfold two_class_collapse; simpl.
  repeat apply conj; intros; repeat split;
    try reflexivity; try discriminate; exfalso; lra.
Qed.

Lemma collapse_negative (neg neu pos : Q) (tag : model_tag) :
  Qgt_bool (neg + pos) 0 = true -> Qgt_bool pos neg = false ->
  two_class_collapse neg neu pos
    {| sentiment := Negative; confidence := neg;
       scores := {| negative := neg; neutral := 0; positive := pos |};
       model_used := tag |}.
Proof.
  intros Ht Hp. q_facts. unfold two_class_collapse; simpl.
  repeat apply conj; intros; repeat split;
    try reflexivity; try discriminate; exfalso; lra.
Qed.

Lemma collapse_zero (neg neu pos : Q) (tag : model_tag) :
  Qgt_bool (neg + pos) 0 = false ->
  two_class_collapse neg neu pos
    {| sentiment := Negative; confidence := 1 # 2;
       scores := {| negative := neg; neutral := 0; positive := pos |};
       model_used := tag |}.
Proof.
  intros Ht. q_facts. unfold two_class_collapse; simpl.
  repeat apply conj; intros; repeat split;
    try reflexivity; try discriminate; exfalso; lra.
Qed.

Lemma transformer_collapse (self : SentimentAnalyzer) (text : str) (neg neu pos : Q) :
  neural_probabilities self text neg neu pos ->
  exists r, value_of (_analyze_transformer text self) = Ok r
            /\ model_used r = TagTransformer
            /\ two_class_collapse neg neu pos r.
Proof.
  intros (tok & mdl & ids & rest & Ht & Hm & Hc & Hp).
  unfold _analyze_transformer. unfold_monad.
  rewrite Ht, Hc, Hm, Hp. simpl.
  destruct (Qgt_bool (neg + pos) 0) eqn:Et;
    [destruct (Qgt_bool pos neg) eqn:Ep|]; simpl;
    eexists; (split; [reflexivity|split; [reflexivity|]]).
  - now apply collapse_positive.
  - now apply collapse_negative.
  - now apply collapse_zero.
Qed.

Lemma baseline_collapse (self : SentimentAnalyzer) (text : str) (neg neu pos : Q) :
  classical_probabilities self text neg neu pos ->
  exists r, value_of (_analyze_baseline text self) = Ok r
            /\ model_used r = TagBaseline
            /\ two_class_collapse neg neu pos r.
Proof.
  intros (vec & clf & X & p & preds & rest & rows & Hv & Hm & Ht & Hp & Hpp).
  unfold _analyze_baseline. unfold_monad.
  rewrite Hv, Ht, Hm, Hp. simpl. rewrite Hpp. simpl.
  destruct (Qgt_bool (neg + pos) 0) eqn:Et;
    [destruct (Qgt_bool pos neg) eqn:Ep|]; simpl;
    eexists; (split; [reflexivity|split; [reflexivity|]]).
  - now apply collapse_positive.
  - now apply collapse_negative.
  - now apply collapse_zero.
Qed.

Lemma transformer_never_neutral (self : SentimentAnalyzer) (text : str) (r : SentimentResult) :
  value_of (_analyze_transformer text self) = Ok r ->
  sentiment r <> Neutral /\ neutral (scores r) = 0.
Proof.
  unfold _analyze_transformer, getitem. unfold_monad.
  repeat (step; simpl; try discriminate).
  all: intro H; inversion H; subst; simpl; split; (discriminate || reflexivity).
Qed.

Lemma baseline_never_neutral (self : SentimentAnalyzer) (text : str) (r : SentimentResult) :
  value_of (_analyze_baseline text self) = Ok r ->
  sentiment r <> Neutral /\ neutral (scores r) = 0.
Proof.
  unfold _analyze_baseline, getitem. unfold_monad.
  repeat (step; simpl; try discriminate).
  all: intro H; inversion H; subst; simpl; split; (discriminate || reflexivity).
Qed.

(** C1. For the neural and the classical tier, given the class
    probabilities (neg, neu, pos) the tier returns a result that obeys the
    two-class collapse: when pos + neg > 0 it is Positive with confidence
    pos if pos > neg and otherwise (a tie included) Negative with
    confidence neg; when pos + neg == 0 it is Negative with confidence
    0.5; scores.neutral is 0.0 whatever neu is, and the label is never
    Neutral; the last two hold of every result either tier returns. *)
Theorem two_class_collapse_tiers (self : SentimentAnalyzer) (text : str) (neg neu pos : Q) :
  (neural_probabilities self text neg neu pos ->
   exists r, value_of (_analyze_transformer text self) = Ok r
             /\ model_used r = TagTransformer
             /\ two_class_collapse neg neu pos r)
  /\ (classical_probabilities self text neg neu pos ->
      exists r, value_of (_analyze_baseline text self) = Ok r
                /\ model_used r = TagBaseline
                /\ two_class_collapse neg neu pos r)
  /\ (forall r, value_of (_analyze_transformer text self) = Ok r
                \/ value_of (_analyze_baseline text self) = Ok r ->
                sentiment r <> Neutral /\ neutral (scores r) = 0).
Proof.
  split; [|split].
  - apply transformer_collapse.
  - apply baseline_collapse.
  - intros r [H|H].
    + exact (transformer_never_neutral _ _ H).
    + exact (baseline_never_neutral _ _ H).
Qed.

Lemma two_class_collapse_tiers_witness :
  (exists r, value_of (_analyze_transformer (of_string "good") sample_analyzer) = Ok r
             /\ model_used r = TagTransformer
             /\ two_class_collapse (3 # 10) (9 # 10) (7 # 10) r)
  /\ (exists r, value_of (_analyze_baseline (of_string "good") sample_analyzer) = Ok r
                /\ model_used r = TagBaseline
                /\ two_class_collapse (3 # 10) (9 # 10) (7 # 10) r).
Proof.
  destruct (two_class_collapse_tiers sample_analyzer (of_string "good")
              (3 # 10) (9 # 10) (7 # 10)) as [Hn [Hc _]].
  split.
  - apply Hn. unfold neural_probabilities, sample_analyzer; simpl.
    do 4 eexists. repeat split; reflexivity.
  - apply Hc. unfold classical_probabilities, sample_analyzer; simpl.
    do 7 eexists. repeat split; reflexivity.
Defined.

(** The example of the specification: neutral dominates the raw scores
    and the result is Positive with confidence 0.7. *)
Example collapse_neutral_dominant :
  value_of (_analyze_transformer (of_string "good") sample_analyzer)
  = Ok {| sentiment := Positive; confidence := 7 # 10;
          scores := {| negative := 3 # 10; neutral := 0; positive := 7 # 10 |};
          model_used := TagTransformer |}.
Proof. reflexivity. Qed.

(** The tie of the specification, (neg, neu, pos) = (0.4, 0.2, 0.4), in
    the classical tier: Negative. *)
Example collapse_tie :
  value_of
    (_analyze_baseline (of_string "so so")
       {| model := None; tokenizer := None;
          baseline_model :=
            Some {| predict := fun _ => Ok [1%Z];
                    predict_proba := fun _ => Ok [[4 # 10; 2 # 10; 4 # 10]] |};
          baseline_vectorizer := Some {| transform := fun _ => Ok [1] |};
          vader_analyzer := None;
          translator := sample_translator |})
  = Ok {| sentiment := Negative; confidence := 4 # 10;
          scores := {| negative := 4 # 10; neutral := 0; positive := 4 # 10 |};
          model_used := TagBaseline |}.
Proof. reflexivity. Qed.

(** ** C4: the lexicon tier *)

(** C4, as stated, fails on the threshold itself: a compound of exactly
    0.05 is not above 0.05, and the tier answers Positive, not Neutral. *)
Lemma lexicon_threshold_is_positive :
  value_of (_analyze_vader (of_string "fine") (vader_only at_threshold))
  = Ok {| sentiment := Positive; confidence := 2 # 10;
          scores := {| negative := 0; neutral := 8 # 10; positive := 2 # 10 |};
          model_used := TagVADER |}
  /\ ~ 5 # 100 < compound at_threshold
  /\ ~ compound at_threshold < - 5 # 100
  /\ ~ lexicon_rule_strict at_threshold
         {| sentiment := Positive; confidence := 2 # 10;
            scores := {| negative := 0; neutral := 8 # 10; positive := 2 # 10 |};
            model_used := TagVADER |}.
Proof.
  split; [reflexivity|].
  assert (A : ~ 5 # 100 < compound at_threshold) by (simpl; lra).
  assert (B : ~ compound at_threshold < - 5 # 100) by (simpl; lra).
  repeat split; try assumption.
  intros (_ & _ & H). destruct (H A B) as [E _]. simpl in E. discriminate.
Qed.

(** C4, amended. When the lexicon tier handles a text, a compound at or
    above 0.05 gives Positive with the pos sub-score as confidence, a
    compound at or below -0.05 gives Negative with the neg sub-score, and
    a compound strictly between gives Neutral with the neu sub-score; the
    three sub-scores are returned as they are and model_used is
    VADER-fallback. *)
Theorem lexicon_tier_rule (self : SentimentAnalyzer) (text : str)
    (v : Vader) (sc : PolarityScores) :
  vader_analyzer self = Some v ->
  polarity_scores v text = Ok sc ->
  exists r, value_of (_analyze_vader text self) = Ok r /\ lexicon_rule sc r.
Proof.
  intros Hv Hs. unfold _analyze_vader. unfold_monad. rewrite Hv, Hs. simpl.
  destruct (Qge_bool (compound sc) (5 # 100)) eqn:Ep;
    [|destruct (Qle_bool (compound sc) (- 5 # 100)) eqn:En]; simpl;
    eexists; (split; [reflexivity|]); q_facts;
    unfold lexicon_rule; simpl;
    repeat apply conj; intros; repeat split;
      try reflexivity; exfalso; lra.
Qed.

(** The lexicon tier does emit Neutral. *)
Lemma lexicon_tier_rule_witness :
  exists r, value_of (_analyze_vader (of_string "fine") (vader_only mild)) = Ok r
            /\ lexicon_rule mild r.
Proof.
  apply (@lexicon_tier_rule (vader_only mild) (of_string "fine")
           {| polarity_scores := fun _ => Ok mild |} mild);
    reflexivity.
Defined.

Example lexicon_emits_neutral :
  value_of (_analyze_vader (of_string "fine") (vader_only mild))
  = Ok {| sentiment := Neutral; confidence := 8 # 10;
          scores := {| negative := 1 # 10; neutral := 8 # 10; positive := 1 # 10 |};
          model_used := TagVADER |}.
Proof. reflexivity. Qed.

(** ** C9: the language bridge *)

Lemma strip_nil_iff (s : str) : strip s = [] <-> forallb is_space s = true.
Proof.
  unfold strip. induction s as [|c t IH]; simpl.
  - tauto.
  - destruct (is_space c) eqn:E; simpl.
    + exact IH.
    + split; [|discriminate].
      destruct (rstrip t); [rewrite E|]; discriminate.
Qed.

Lemma is_blank_str (s : str) : is_blank (PyStr s) = Ok (forallb is_space s).
Proof.
  unfold is_blank; simpl. destruct s as [|c t]; [reflexivity|].
  simpl negb. cbv iota. simpl py_strip.
  destruct (strip (c :: t)) eqn:E.
  - apply strip_nil_iff in E. now rewrite E.
  - destruct (forallb is_space (c :: t)) eqn:F; [|reflexivity].
    apply strip_nil_iff in F. congruence.
Qed.

(** C9. [translate_if_needed] returns its input unchanged, calling
    nothing, when the input is empty or whitespace-only and when it is
    pure ASCII; on any other string a translation call that fails yields
    the original text; and no string makes it raise. *)
Theorem translate_if_needed_safe (self : SentimentAnalyzer) (s : str) :
  (forallb is_space s = true \/ isascii s = true ->
   translate_if_needed (PyStr s) self = ([], self, Ok (PyStr s)))
  /\ (forall e, forallb is_space s = false -> isascii s = false ->
      translate (translator self) s = Raise e ->
      value_of (translate_if_needed (PyStr s) self) = Ok (PyStr s)
      /\ trace_of (translate_if_needed (PyStr s) self) = [EvTranslate s; EvLog WARNING])
  /\ (exists v, value_of (translate_if_needed (PyStr s) self) = Ok v).
Proof.
  unfold translate_if_needed, translator_translate. unfold_monad.
  rewrite is_blank_str. simpl.
  repeat split.
  - intros [H|H]; rewrite H; [reflexivity|].
    destruct (forallb is_space s); reflexivity.
  - rewrite H, H0, H1. reflexivity.
  - rewrite H, H0, H1. reflexivity.
  - destruct (forallb is_space s); [eexists; reflexivity|].
    destruct (isascii s); [eexists; reflexivity|].
    destruct (translate (translator self) s); eexists; reflexivity.
Qed.

Lemma translate_if_needed_safe_witness :
  translate_if_needed (PyStr (of_string "  ")) offline_analyzer
    = ([], offline_analyzer, Ok (PyStr (of_string "  ")))
  /\ translate_if_needed (PyStr (of_string "good")) offline_analyzer
    = ([], offline_analyzer, Ok (PyStr (of_string "good")))
  /\ value_of (translate_if_needed (PyStr tres_bien) offline_analyzer)
    = Ok (PyStr tres_bien).
Proof.
  split; [|split].
  - apply (translate_if_needed_safe offline_analyzer (of_string "  ")).
    left; reflexivity.
  - apply (translate_if_needed_safe offline_analyzer (of_string "good")).
    right; reflexivity.
  - apply (proj1 (proj2 (translate_if_needed_safe offline_analyzer tres_bien)) OSError);
      reflexivity.
Defined.

(** ** Methods that only read the analyzer *)

Lemma readonly_ret {A : Type} (a : A) : readonly (ret a).
Proof. intro; reflexivity. Qed.

Lemma readonly_raise {A : Type} (e : exn) : readonly (@raise A e).
Proof. intro; reflexivity. Qed.

Lemma readonly_get {A : Type} (f : SentimentAnalyzer -> A) : readonly (get f).
Proof. intro; reflexivity. Qed.

Lemma readonly_call {A : Type} (ev : event) (r : result A) : readonly (call ev r).
Proof. intro; reflexivity. Qed.

Lemma readonly_lift {A : Type} (r : result A) : readonly (lift r).
Proof. intro; reflexivity. Qed.

Lemma readonly_log (lvl : level) : readonly (log lvl).
Proof. intro; reflexivity. Qed.

Lemma readonly_bind {A B : Type} (m : M A) (f : A -> M B) :
  readonly m -> (forall a, readonly (f a)) -> readonly (bind m f).
Proof.
  unfold readonly, bind, self_of. intros Hm Hf self.
  specialize (Hm self).
  destruct (m self) as [[t s'] [a|e]]; simpl in *; subst; [|reflexivity].
  specialize (Hf a self).
  destruct (f a self) as [[t' s''] r]; simpl in *; assumption.
Qed.

Lemma readonly_try_except {A : Type} (m : M A) (h : exn -> M A) :
  readonly m -> (forall e, readonly (h e)) -> readonly (try_except m h).
Proof.
  unfold readonly, try_except, self_of. intros Hm Hh self.
  specialize (Hm self).
  destruct (m self) as [[t s'] [a|e]]; simpl in *; subst; [reflexivity|].
  specialize (Hh e self).
  destruct (h e self) as [[t' s''] r]; simpl in *; assumption.
Qed.

Create HintDb readonly.
#[export] Hint Resolve readonly_ret readonly_raise readonly_get readonly_call
  readonly_lift readonly_log : readonly.

Ltac readonly_tac :=
  repeat first
    [ progress auto with readonly
    | apply readonly_bind; [|intros]
    | apply readonly_try_except; [|intros]
    | match goal with
      | |- readonly (match ?x with _ => _ end) => destruct x
      | |- readonly (if ?x then _ else _) => destruct x
      | |- readonly (let '(_, _) := ?x in _) => destruct x
      end ].

Lemma readonly_translate_if_needed (text : pyval) : readonly (translate_if_needed text).
Proof. unfold translate_if_needed, translator_translate. readonly_tac. Qed.

Lemma readonly_analyze_transformer (text : str) : readonly (_analyze_transformer text).
Proof. unfold _analyze_transformer. readonly_tac. Qed.

Lemma readonly_analyze_baseline (text : str) : readonly (_analyze_baseline text).
Proof. unfold _analyze_baseline. readonly_tac. Qed.

Lemma readonly_analyze_vader (text : str) : readonly (_analyze_vader text).
Proof. unfold _analyze_vader. readonly_tac. Qed.

#[export] Hint Resolve readonly_translate_if_needed readonly_analyze_transformer
  readonly_analyze_baseline readonly_analyze_vader : readonly.

Lemma readonly_analyze (U : Unicode) (text : pyval) (use_transformer : bool) :
  readonly (analyze U text use_transformer).
Proof. unfold analyze, attempt. readonly_tac. Qed.

(** A read-only method, run: the analyzer comes back unchanged. *)
Lemma run_readonly {A : Type} (m : M A) (self : SentimentAnalyzer) :
  readonly m -> exists t r, m self = (t, self, r).
Proof.
  unfold readonly, self_of. intros H. specialize (H self).
  destruct (m self) as [[t s] r]; simpl in H; subst. eauto.
Qed.

(** The language bridge calls no classifier tier and, on a string, does
    not raise. *)
Lemma translate_if_needed_str (self : SentimentAnalyzer) (s : str) :
  exists t v, translate_if_needed (PyStr s) self = (t, self, Ok v)
              /\ forallb (fun e => negb (is_tier_call e)) t = true.
Proof.
  unfold translate_if_needed, translator_translate. unfold_monad.
  rewrite is_blank_str. simpl.
  destruct (forallb is_space s); [do 2 eexists; split; reflexivity|].
  destruct (isascii s); [do 2 eexists; split; reflexivity|].
  destruct (translate (translator self) s); do 2 eexists; split; reflexivity.
Qed.

(** ** C2 and C3: the short-circuit and the cascade of [analyze] *)

Lemma clean_text_blank (U : Unicode) (s : str) :
  forallb is_space s = true -> clean_text U (PyStr s) = [].
Proof.
  intro H. apply strip_nil_iff in H. simpl. now rewrite H.
Qed.

Lemma is_empty_true (s : str) : is_empty s = true <-> s = [].
Proof. destruct s; simpl; split; congruence. Qed.

Lemma analyze_empty_is_default_aux (U : Unicode) (self : SentimentAnalyzer)
    (s : str) (use_transformer : bool) :
  forallb is_space s = true \/ normalized U self (PyStr s) = [] ->
  value_of (analyze U (PyStr s) use_transformer self) = Ok default_result.
Proof.
  intros H. unfold analyze, normalized in *. unfold_monad.
  rewrite is_blank_str. simpl.
  destruct (forallb is_space s) eqn:Eb; [reflexivity|].
  destruct (translate_if_needed_str self s) as (t & v & E & Ht).
  rewrite E in *. simpl in H.
  destruct H as [H|H]; [discriminate|].
  rewrite H. reflexivity.
Qed.

(** C2. For every string that is empty or whitespace-only, and for every
    string whose normalised form is empty, [analyze] returns exactly the
    neutral default (Neutral, 0.33, scores 0.33/0.34/0.33, model_used
    None) and calls no classifier tier, whatever tiers are loaded. *)
Theorem analyze_empty_is_default (U : Unicode) (self : SentimentAnalyzer)
    (s : str) (use_transformer : bool) :
  forallb is_space s = true \/ normalized U self (PyStr s) = [] ->
  value_of (analyze U (PyStr s) use_transformer self) = Ok default_result
  /\ no_tier_call (trace_of (analyze U (PyStr s) use_transformer self)) = true.
Proof.
  intros H. split; [now apply analyze_empty_is_default_aux|].
  unfold analyze, normalized in *. unfold_monad.
  rewrite is_blank_str. simpl.
  destruct (forallb is_space s) eqn:Eb; [reflexivity|].
  destruct (translate_if_needed_str self s) as (t & v & E & Ht).
  rewrite E in *. simpl in H.
  destruct H as [H|H]; [discriminate|].
  rewrite H. simpl. rewrite app_nil_r. exact Ht.
Qed.

(** Every tier loaded, none of them called: blank input, and an input
    that normalises to nothing ("@bob http://x"). *)
Lemma analyze_empty_is_default_witness :
  (value_of (analyze ascii_only (PyStr (of_string "   ")) true sample_analyzer)
     = Ok default_result
   /\ no_tier_call (trace_of (analyze ascii_only (PyStr (of_string "   ")) true
                                sample_analyzer)) = true)
  /\ (value_of (analyze ascii_only (PyStr (of_string "@bob http://x")) true sample_analyzer)
        = Ok default_result
      /\ no_tier_call (trace_of (analyze ascii_only (PyStr (of_string "@bob http://x")) true
                                   sample_analyzer)) = true).
Proof.
  split.
  - apply analyze_empty_is_default. left. reflexivity.
  - apply analyze_empty_is_default. right. reflexivity.
Defined.



Lemma analyze_runs_cascade (U : Unicode) (self : SentimentAnalyzer) (s : str)
    (use_transformer : bool) (t0 : list event) (v : pyval) :
  forallb is_space s = false ->
  translate_if_needed (PyStr s) self = (t0, self, Ok v) ->
  clean_text U v <> [] ->
  let c := clean_text U v in
  let k := cascade
             (stage (neural_available self use_transformer)
                    (_analyze_transformer c self) WARNING)
             (stage (classical_available self) (_analyze_baseline c self) WARNING)
             (stage (lexicon_available self) (_analyze_vader c self) ERROR) in
  analyze U (PyStr s) use_transformer self = (t0 ++ fst k, self, Ok (snd k)).
Proof.
  intros Hb Ht Hc. cbv zeta.
  unfold analyze, stage, cascade, neural_available, classical_available,
    lexicon_available.
  unfold_monad. rewrite is_blank_str, Hb. simpl. rewrite Ht.
  destruct (clean_text U v) as [|c0 c'] eqn:Ec; [congruence|]. simpl is_empty. cbv iota.
  destruct (run_readonly self (readonly_analyze_transformer (c0 :: c'))) as (t1 & r1 & E1).
  destruct (run_readonly self (readonly_analyze_baseline (c0 :: c'))) as (t2 & r2 & E2).
  destruct (run_readonly self (readonly_analyze_vader (c0 :: c'))) as (t3 & r3 & E3).
  rewrite E2, E3. simpl.
  destruct (use_transformer && is_some (model self) && is_some (tokenizer self));
    [rewrite E1; destruct r1|]; simpl;
    try (rewrite ?app_nil_r; reflexivity).
  all: destruct (is_some (baseline_model self) && is_some (baseline_vectorizer self));
    [rewrite ?E2; destruct r2|]; simpl;
    try (rewrite ?app_nil_r, <- ?app_assoc; reflexivity).
  all: destruct (is_some (vader_analyzer self));
    [rewrite ?E3; destruct r3|]; simpl;
    rewrite ?app_nil_r, <- ?app_assoc; simpl; rewrite ?app_nil_r, <- ?app_assoc; try reflexivity.
Qed.

Lemma translate_if_needed_blank (self : SentimentAnalyzer) (s : str) :
  forallb is_space s = true ->
  translate_if_needed (PyStr s) self = ([], self, Ok (PyStr s)).
Proof.
  intro H. unfold translate_if_needed. unfold_monad.
  rewrite is_blank_str, H. reflexivity.
Qed.

Lemma normalized_blank (U : Unicode) (self : SentimentAnalyzer) (s : str) :
  forallb is_space s = true -> normalized U self (PyStr s) = [].
Proof.
  intro H. unfold normalized.
  rewrite (translate_if_needed_blank self s H). unfold value_of; simpl snd.
  now apply clean_text_blank.
Qed.

Lemma analyze_str_returns (U : Unicode) (self : SentimentAnalyzer) (s : str)
    (use_transformer : bool) :
  exists r, value_of (analyze U (PyStr s) use_transformer self) = Ok r.
Proof.
  destruct (forallb is_space s) eqn:Hb.
  - exists default_result.
    apply (analyze_empty_is_default_aux U self s use_transformer). now left.
  - destruct (translate_if_needed_str self s) as (t0 & v & Ht & _).
    destruct (clean_text U v) as [|c0 c'] eqn:Ec.
    + exists default_result.
      apply (analyze_empty_is_default_aux U self s use_transformer). right.
      unfold normalized. rewrite Ht. exact Ec.
    + eexists.
      rewrite (@analyze_runs_cascade U self s use_transformer t0 v Hb Ht);
        [reflexivity|congruence].
Qed.



(** The run of the flaky analyzer: tokenizer, model (raises), warning,
    vectorizer (raises), warning, lexicon. *)
Example flaky_trace :
  analyze ascii_only (PyStr (of_string "Good!")) true flaky_analyzer
  = ([EvTokenizer (of_string "good!"); EvModel [101%N]; EvLog WARNING;
      EvTransform [of_string "good!"]; EvLog WARNING;
      EvPolarityScores (of_string "good!")],
     flaky_analyzer,
     Ok {| sentiment := Neutral; confidence := 8 # 10;
           scores := {| negative := 1 # 10; neutral := 8 # 10; positive := 1 # 10 |};
           model_used := TagVADER |}).
Proof. reflexivity. Qed.

(** ** C10: inputs that are not strings *)

(** C10, as stated, fails: [clean_text] maps [None] to the empty string
    and [analyze] answers the neutral default for it; no error is
    signalled. *)
Lemma clean_text_coerces_none :
  is_str PyNone = false
  /\ clean_text ascii_only PyNone = []
  /\ clean_text ascii_only PyNone = clean_text ascii_only (PyStr [])
  /\ analyze ascii_only PyNone true sample_analyzer
     = ([], sample_analyzer, Ok default_result).
Proof. repeat split. Qed.

(** C10, amended. An input that is not a string meets no dedicated
    check: [clean_text] returns the empty string for it, without error.
    [analyze] returns the neutral default, calling and logging nothing,
    for a false one (None, 0, the empty list, empty bytes) and for a
    [bytes] or [bytearray] value that is blank or pure ASCII, which has
    the methods [strip] and [isascii] of a string and passes both tests;
    it fails with the [AttributeError] of the missing [strip] for a true
    value without the method (a number other than 0, a list that is not
    empty). *)
Theorem non_string_input (U : Unicode) (self : SentimentAnalyzer) (v : pyval)
    (use_transformer : bool) :
  is_str v = false ->
  clean_text U v = []
  /\ (truthy v = false ->
      analyze U v use_transformer self = ([], self, Ok default_result))
  /\ (forall b, v = PyBytes b ->
      bstrip b = [] \/ forallb is_ascii_char b = true ->
      analyze U v use_transformer self = ([], self, Ok default_result))
  /\ (truthy v = true -> has_strip v = false ->
      analyze U v use_transformer self = ([], self, Raise AttributeError)).
Proof.
  intros H. destruct v as [|z|s|l|b]; try discriminate; simpl.
  - repeat split; try congruence; intros; discriminate.
  - repeat split; try (intros b Hb; discriminate);
      unfold analyze, is_blank; unfold_monad; simpl;
      destruct (z =? 0)%Z; simpl; congruence.
  - repeat split; try (intros b Hb; discriminate);
      unfold analyze, is_blank; unfold_monad; simpl;
      destruct l; simpl; congruence.
  - split; [reflexivity|]. split; [|split]; [| |discriminate].
    + destruct b; [reflexivity|discriminate].
    + intros b' Hb' Hc. inversion Hb'; subst b'. clear Hb'.
      unfold analyze, translate_if_needed, is_blank. unfold_monad. simpl.
      destruct b as [|x b]; [reflexivity|]. simpl negb. cbv iota.
      destruct (bstrip (x :: b)) as [|y r] eqn:Es; simpl; [reflexivity|].
      destruct Hc as [Hc|Hc]; [discriminate|]. simpl in Hc. rewrite Hc. reflexivity.
Qed.

Lemma non_string_input_witness :
  clean_text ascii_only (PyInt 7) = []
  /\ analyze ascii_only (PyInt 0) true sample_analyzer
     = ([], sample_analyzer, Ok default_result)
  /\ analyze ascii_only (PyBytes (of_string "hi")) true sample_analyzer
     = ([], sample_analyzer, Ok default_result)
  /\ analyze ascii_only (PyList [PyStr (of_string "good")]) true sample_analyzer
     = ([], sample_analyzer, Raise AttributeError).
Proof.
  split; [|split; [|split]].
  - apply (@non_string_input ascii_only sample_analyzer (PyInt 7) true). reflexivity.
  - apply (@non_string_input ascii_only sample_analyzer (PyInt 0) true); reflexivity.
  - apply (proj1 (proj2 (proj2
             (@non_string_input ascii_only sample_analyzer
                (PyBytes (of_string "hi")) true eq_refl)))
             (of_string "hi") eq_refl).
    right. reflexivity.
  - apply (@non_string_input ascii_only sample_analyzer
             (PyList [PyStr (of_string "good")]) true); reflexivity.
Defined.

(** ** C6: what [_load_models] loads *)

Ltac run_init :=
  unfold loaded, __init__, _load_models, load_transformer, load_baseline,
    load_vader, subscript;
  unfold_monad; simpl.

Lemma loaded_model (E : Environment) :
  model (loaded E) =
  if MODEL_DIR_exists E && transformer_path_exists E then
    match tokenizer_from_pretrained E, model_from_pretrained E with
    | Ok _, Ok m =>
        match model_to_device E m with
        | Ok m' => Some m'
        | Raise _ => Some m
        end
    | _, _ => None
    end
  else None.
Proof. run_init. repeat (step; simpl; try reflexivity). Qed.

Lemma loaded_tokenizer (E : Environment) :
  tokenizer (loaded E) =
  if MODEL_DIR_exists E && transformer_path_exists E then
    match tokenizer_from_pretrained E with
    | Ok t => Some t
    | Raise _ => None
    end
  else None.
Proof. run_init. repeat (step; simpl; try reflexivity). Qed.

Lemma loaded_baseline_vectorizer (E : Environment) :
  baseline_vectorizer (loaded E) =
  if MODEL_DIR_exists E && baseline_path_exists E then
    match pickle_load E with
    | Ok data => data_vectorizer data
    | Raise _ => None
    end
  else None.
Proof. run_init. repeat (step; simpl; try reflexivity). Qed.

Lemma loaded_baseline_model (E : Environment) :
  baseline_model (loaded E) =
  if MODEL_DIR_exists E && baseline_path_exists E then
    match pickle_load E with
    | Ok data =>
        match data_vectorizer data with
        | Some _ => data_model data
        | None => None
        end
    | Raise _ => None
    end
  else None.
Proof. run_init. repeat (step; simpl; try reflexivity). Qed.

Lemma loaded_vader_analyzer (E : Environment) :
  vader_analyzer (loaded E) =
  if negb (is_some (model (loaded E))) && negb (is_some (baseline_model (loaded E))) then
    match VaderAnalyzer E with
    | Ok (Some (Ok v)) => Some v
    | _ => None
    end
  else None.
Proof. run_init. repeat (step; simpl; try reflexivity). Qed.


(** C6, as stated, fails: with the lexicon package installed in both
    environments, the lexicon analyzer is initialised when no model file
    exists and is not when the classical model loads. *)
Lemma lexicon_depends_on_classical :
  VaderAnalyzer bare_environment = VaderAnalyzer baseline_environment
  /\ is_some (vader_analyzer (loaded bare_environment)) = true
  /\ is_some (baseline_model (loaded baseline_environment)) = true
  /\ is_some (vader_analyzer (loaded baseline_environment)) = false.
Proof. repeat split. Qed.

(** C6, amended. At startup the neural tier and the classical tier are
    loaded independently of each other (what one block assigns is a
    function of what that block reads); the lexicon analyzer is
    initialised exactly when neither the neural nor the classical model
    loaded and the lexicon package is there; and [analyze] and
    [translate_if_needed] leave the loaded tiers as they are. *)
Theorem tier_loading (E : Environment) :
  (is_some (vader_analyzer (loaded E)) = true <->
   model (loaded E) = None /\ baseline_model (loaded E) = None
   /\ exists v, VaderAnalyzer E = Ok (Some (Ok v)))
  /\ (forall E', neural_inputs E' = neural_inputs E ->
      model (loaded E') = model (loaded E)
      /\ tokenizer (loaded E') = tokenizer (loaded E))
  /\ (forall E', classical_inputs E' = classical_inputs E ->
      baseline_model (loaded E') = baseline_model (loaded E)
      /\ baseline_vectorizer (loaded E') = baseline_vectorizer (loaded E))
  /\ (forall U text use_transformer, readonly (analyze U text use_transformer))
  /\ (forall text, readonly (translate_if_needed text)).
Proof.
  split; [|split; [|split; [|split]]].
  - rewrite loaded_vader_analyzer.
    destruct (model (loaded E)); simpl.
    { split; [discriminate|]. intros (H & _); discriminate. }
    destruct (baseline_model (loaded E)); simpl.
    { split; [discriminate|]. intros (_ & H & _); discriminate. }
    destruct (VaderAnalyzer E) as [[[v|e]|]|e]; simpl; split; intro H;
      try discriminate; try reflexivity;
      try (destruct H as (_ & _ & v' & Hv); discriminate).
    repeat split. now exists v.
  - intros E' H. unfold neural_inputs in H. inversion H as [[H1 H2 H3 H4 H5]].
    rewrite !loaded_model, !loaded_tokenizer, H1, H2, H3, H4, H5. split; reflexivity.
  - intros E' H. unfold classical_inputs in H. inversion H as [[H1 H2 H3]].
    rewrite !loaded_baseline_model, !loaded_baseline_vectorizer, H1, H2, H3.
    split; reflexivity.
  - intros. apply readonly_analyze.
  - intros. apply readonly_translate_if_needed.
Qed.

Lemma tier_loading_witness :
  model (loaded baseline_environment) = model (loaded bare_environment)
  /\ tokenizer (loaded baseline_environment) = tokenizer (loaded bare_environment).
Proof.
  apply (proj1 (proj2 (tier_loading bare_environment)) baseline_environment).
  reflexivity.
Defined.

(** ** C5: URL and mention patterns in the normalised text *)

Close Scope Q_scope.

Lemma char_eqb_eq (a b : char) : char_eqb a b = true <-> a = b.
Proof. apply N.eqb_eq. Qed.

Lemma starts_with_app (p s : str) :
  starts_with p s = true <-> exists r, s = p ++ r.
Proof.
  revert s. induction p as [|x p IH]; intros s; simpl.
  - split; eauto.
  - destruct s as [|y s]; [split; [discriminate|intros (r & H); discriminate]|].
    rewrite andb_true_iff, char_eqb_eq, IH. split.
    + intros (-> & r & ->). eauto.
    + intros (r & H). inversion H; subst. eauto.
Qed.







Arguments starts_mention : simpl never.
Arguments starts_url : simpl never.

Lemma is_word_at (U : Unicode) : is_word U AT = false.
Proof. reflexivity. Qed.





(** The last steps keep only letters, digits, spaces and [!?.,]. *)
Lemma In_lstrip (c : char) (s : str) : In c (lstrip s) -> In c s.
Proof.
  induction s as [|d t IH]; simpl; [tauto|].
  destruct (is_space d); simpl; tauto.
Qed.

Lemma In_rstrip (c : char) (s : str) : In c (rstrip s) -> In c s.
Proof.
  induction s as [|d t IH]; simpl; [tauto|].
  destruct (rstrip t) as [|e r].
  - destruct (is_space d); simpl; tauto.
  - simpl in *. tauto.
Qed.

Lemma In_strip (c : char) (s : str) : In c (strip s) -> In c s.
Proof. intro H. apply In_lstrip, In_rstrip, H. Qed.

Lemma In_collapse_ws (c : char) (inrun : bool) (s : str) :
  In c (collapse_ws inrun s) -> c = SPACE \/ (In c s /\ is_space c = false).
Proof.
  revert inrun. induction s as [|d t IH]; intros inrun; simpl; [tauto|].
  destruct (is_space d) eqn:E.
  - destruct inrun; simpl; intros H.
    + destruct (IH _ H) as [?|[? ?]]; auto.
    + destruct H as [H|H]; [auto|]. destruct (IH _ H) as [?|[? ?]]; auto.
  - simpl. intros [H|H]; [subst; auto|].
    destruct (IH _ H) as [?|[? ?]]; auto.
Qed.

Lemma clean_str_plain (U : Unicode) (s : str) (c : char) :
  In c (clean_str U s) -> plain c = true.
Proof.
  unfold clean_str. intro H. apply In_strip, In_collapse_ws in H.
  destruct H as [->|[H Hs]]; [reflexivity|].
  apply filter_In in H. destruct H as [_ H].
  unfold kept in H. unfold plain. rewrite Hs in H. simpl in H.
  rewrite orb_false_r in H. rewrite !orb_true_iff in *. tauto.
Qed.

Lemma clean_text_plain (U : Unicode) (v : pyval) (c : char) :
  In c (clean_text U v) -> plain c = true.
Proof.
  destruct v as [| |s| |]; simpl; try tauto.
  destruct (strip s); simpl; [tauto|]. apply clean_str_plain.
Qed.




Example normalize_strips :
  clean_text ascii_only
    (PyStr (of_string "See http://x.com/a?b=1 and WWW.foo.org, thanks @bob_1!"))
  = of_string "see and thanks !".
Proof. reflexivity. Qed.

(** ** C8: normalising twice *)

Lemma collapse_ws_loose (inrun : bool) (s : str) :
  loose (collapse_ws inrun s) = true
  /\ (inrun = true ->
      is_empty (collapse_ws inrun s) || head_nonspace (collapse_ws inrun s) = true).
Proof.
  revert inrun. induction s as [|c t IH]; intros inrun; simpl; [auto|].
  destruct (is_space c) eqn:Ec.
  - destruct inrun.
    + apply IH.
    + destruct (IH true) as [H1 H2]. split; [|discriminate].
      simpl. rewrite H1, (H2 eq_refl). reflexivity.
  - destruct (IH false) as [H1 _]. simpl. rewrite Ec, H1. simpl.
    split; [reflexivity|]. intros _. reflexivity.
Qed.

Lemma lstrip_loose (s : str) :
  loose s = true ->
  loose (lstrip s) = true /\ is_empty (lstrip s) || head_nonspace (lstrip s) = true.
Proof.
  induction s as [|c t IH]; simpl; [auto|].
  destruct (is_space c) eqn:Ec.
  - intro H. apply andb_true_iff in H. destruct H as [_ H]. now apply IH.
  - intro H. simpl. rewrite Ec, H. auto.
Qed.

Lemma rstrip_head (s : str) :
  head_nonspace s = true -> head_nonspace (rstrip s) = true.
Proof.
  destruct s as [|c t]; simpl; [discriminate|].
  intro H. destruct (rstrip t); simpl.
  - apply negb_true_iff in H. rewrite H. simpl. now rewrite H.
  - exact H.
Qed.

Lemma rstrip_tidy_tail (s : str) :
  loose s = true -> tidy_tail (rstrip s) = true.
Proof.
  induction s as [|c t IH]; simpl; [reflexivity|].
  intro H. apply andb_true_iff in H. destruct H as [Hc Ht].
  specialize (IH Ht).
  destruct (rstrip t) as [|d r] eqn:Er.
  - destruct (is_space c) eqn:Ec; [reflexivity|]. simpl. now rewrite Ec.
  - change (tidy_tail (c :: d :: r))
      with ((if is_space c then char_eqb c SPACE && head_nonspace (d :: r) else true)
            && tidy_tail (d :: r)).
    rewrite IH, andb_true_r.
    destruct (is_space c) eqn:Ec; [|reflexivity].
    apply andb_true_iff in Hc. destruct Hc as [Hc Hh]. rewrite Hc. simpl.
    destruct t as [|e t']; [discriminate|]. simpl in Hh.
    pose proof (rstrip_head (e :: t') Hh) as Hr. rewrite Er in Hr. exact Hr.
Qed.

Lemma strip_tidy (s : str) : loose s = true -> tidy (strip s) = true.
Proof.
  intro H. unfold tidy, strip.
  destruct (lstrip_loose s H) as [H1 H2].
  rewrite (rstrip_tidy_tail _ H1). simpl.
  destruct (lstrip s) as [|c t] eqn:E; [reflexivity|].
  simpl in H2. rewrite (rstrip_head (c :: t) H2). apply orb_true_r.
Qed.

Lemma clean_str_tidy (U : Unicode) (s : str) : tidy (clean_str U s) = true.
Proof. unfold clean_str. apply strip_tidy, collapse_ws_loose. Qed.

Lemma clean_text_tidy (U : Unicode) (v : pyval) : tidy (clean_text U v) = true.
Proof.
  destruct v as [| |s| |]; try reflexivity. simpl.
  destruct (strip s); [reflexivity|apply clean_str_tidy].
Qed.

(** On a tidy text the last steps change nothing. *)
Lemma collapse_ws_tidy (inrun : bool) (s : str) :
  tidy_tail s = true ->
  (inrun = true -> is_empty s || head_nonspace s = true) ->
  collapse_ws inrun s = s.
Proof.
  revert inrun. induction s as [|c t IH]; intros inrun Ht Hh; [reflexivity|].
  simpl in *. apply andb_true_iff in Ht. destruct Ht as [Hc Ht].
  destruct (is_space c) eqn:Ec.
  - apply andb_true_iff in Hc. destruct Hc as [Hc Hn].
    apply char_eqb_eq in Hc. subst c.
    destruct inrun; [specialize (Hh eq_refl); discriminate|].
    rewrite (IH true Ht); [reflexivity|]. intros _. rewrite Hn. apply orb_true_r.
  - rewrite (IH false Ht); [reflexivity|discriminate].
Qed.

Lemma rstrip_tidy (s : str) : tidy_tail s = true -> rstrip s = s.
Proof.
  induction s as [|c t IH]; [reflexivity|]. simpl.
  intro H. apply andb_true_iff in H. destruct H as [Hc Ht].
  rewrite (IH Ht). destruct t as [|d r]; [|reflexivity].
  destruct (is_space c); [|reflexivity].
  apply andb_true_iff in Hc. destruct Hc as [_ Hc]. discriminate.
Qed.

Lemma lstrip_head (s : str) :
  is_empty s || head_nonspace s = true -> lstrip s = s.
Proof.
  destruct s as [|c t]; simpl; [reflexivity|].
  intro H. apply negb_true_iff in H. now rewrite H.
Qed.

Lemma strip_tidy_id (s : str) : tidy s = true -> strip s = s.
Proof.
  unfold tidy, strip. intro H. apply andb_true_iff in H. destruct H as [H1 H2].
  rewrite (lstrip_head s H2). now apply rstrip_tidy.
Qed.

Lemma split_head (s : str) : head_nonspace s = true -> split s <> [].
Proof.
  destruct s as [|c t]; simpl; [discriminate|].
  intro H. apply negb_true_iff in H. rewrite H.
  destruct t as [|d r]; [discriminate|].
  destruct (is_space d); [discriminate|].
  destruct (split (d :: r)); discriminate.
Qed.

Lemma join_cons_char (c : char) (w : str) (ws : list str) :
  join [SPACE] ((c :: w) :: ws) = c :: join [SPACE] (w :: ws).
Proof. destruct ws; reflexivity. Qed.

Lemma join_split_tidy (s : str) :
  tidy_tail s = true -> join [SPACE] (split s) = lstrip s.
Proof.
  induction s as [|c t IH]; [reflexivity|].
  intro H. simpl in H. apply andb_true_iff in H. destruct H as [Hc Ht].
  specialize (IH Ht). simpl split. simpl lstrip.
  destruct (is_space c) eqn:Ec; [exact IH|].
  destruct t as [|d r]; [reflexivity|].
  destruct (is_space d) eqn:Ed.
  - simpl in Ht. rewrite Ed in Ht.
    apply andb_true_iff in Ht. destruct Ht as [Hd _].
    apply andb_true_iff in Hd. destruct Hd as [Hd Hr].
    apply char_eqb_eq in Hd. subst d.
    simpl lstrip in IH. rewrite ?Ed in IH.
    rewrite (lstrip_head r) in IH by (rewrite Hr; apply orb_true_r).
    pose proof (split_head r Hr) as Hne.
    assert (Es : split (SPACE :: r) = split r) by (simpl; reflexivity).
    rewrite Es in *.
    destruct (split r) as [|w ws]; [congruence|].
    change (join [SPACE] ([c] :: w :: ws)) with (c :: SPACE :: join [SPACE] (w :: ws)).
    now rewrite IH.
  - assert (Hh : head_nonspace (d :: r) = true) by (simpl; now rewrite Ed).
    pose proof (split_head (d :: r) Hh) as Hne.
    simpl lstrip in IH. rewrite Ed in IH.
    destruct (split (d :: r)) as [|w ws]; [congruence|].
    rewrite join_cons_char. now rewrite IH.
Qed.

Lemma url_sub_id (s : str) : has_url_match s = false -> url_sub false s = s.
Proof.
  induction s as [|c t IH]; [reflexivity|]. simpl.
  intro H. apply orb_false_iff in H. destruct H as [Hu Ht].
  rewrite Hu, (IH Ht). now destruct (is_space c).
Qed.

Lemma mention_sub_id (U : Unicode) (s : str) :
  ~ In AT s -> mention_sub U false s = s.
Proof.
  induction s as [|c t IH]; [reflexivity|]. simpl. intro H.
  assert (Hm : starts_mention U (c :: t) = false).
  { unfold starts_mention. destruct t as [|d r]; [reflexivity|].
    destruct (char_eqb c AT) eqn:E; [|reflexivity].
    apply char_eqb_eq in E. subst c. exfalso. apply H. now left. }
  rewrite Hm, IH; [reflexivity|]. intro Hi. apply H. now right.
Qed.

Lemma plain_kept (c : char) : plain c = true -> kept c = true.
Proof.
  unfold plain, kept. rewrite !orb_true_iff.
  intros [[[[[H|H]|H]|H]|H]|H]; auto 10.
  apply N.eqb_eq in H. subst c. auto 10.
Qed.

Lemma plain_ascii (c : char) : plain c = true -> is_ascii_char c = true.
Proof.
  unfold plain, is_alnum_ascii, is_lower_ascii, is_upper_ascii, is_digit_ascii,
    in_range, is_ascii_char.
  rewrite !orb_true_iff, !andb_true_iff, !N.leb_le, !N.eqb_eq, N.ltb_lt. lia.
Qed.

Lemma filter_all {A : Type} (f : A -> bool) (l : list A) :
  (forall x, In x l -> f x = true) -> filter f l = l.
Proof.
  induction l as [|a l IH]; intro H; [reflexivity|]. simpl.
  rewrite (H a (or_introl eq_refl)), IH; [reflexivity|].
  intros x Hx. apply H. now right.
Qed.

Lemma map_lower_id (s : str) : no_upper s = true -> map lower_ascii s = s.
Proof.
  induction s as [|c t IH]; [reflexivity|].
  intro H. simpl in H. apply andb_true_iff in H. destruct H as [Hc Ht].
  apply negb_true_iff in Hc.
  change (map lower_ascii (c :: t)) with (lower_ascii c :: map lower_ascii t).
  rewrite (IH Ht). unfold lower_ascii. now rewrite Hc.
Qed.

Lemma map_flip_id (s : str) : slang_free s = true -> map flip (split s) = split s.
Proof.
  unfold slang_free. induction (split s) as [|w ws IH]; [reflexivity|].
  cbn [forallb map].
  intro H. apply andb_true_iff in H. destruct H as [Hw Hws].
  rewrite (IH Hws). unfold flip. revert Hw.
  destruct (dict_get SENTIMENT_FLIPS w); [discriminate|reflexivity].
Qed.

(** A text that has the shape and the characters of a normalised text,
    no capital, no match of the URL pattern and no slang token is left
    as it is. *)
Lemma clean_text_fixpoint (U : Unicode) (y : str) :
  tidy y = true -> (forall c, In c y -> plain c = true) ->
  no_upper y = true -> has_url_match y = false -> slang_free y = true ->
  clean_text U (PyStr y) = y.
Proof.
  intros Ht Hp Hu Hn Hs. simpl.
  rewrite (strip_tidy_id y Ht).
  destruct y as [|c0 y0] eqn:Ey; [reflexivity|]. rewrite <- Ey in *.
  assert (Ha : isascii y = true).
  { unfold isascii. apply forallb_forall. intros c Hc. apply plain_ascii, Hp, Hc. }
  assert (Hat : ~ In AT y) by (intro Hc; apply Hp in Hc; discriminate).
  pose proof Ht as Ht'. unfold tidy in Ht'. apply andb_true_iff in Ht'.
  destruct Ht' as [Htt Hh].
  unfold clean_str, lower, demojize.
  rewrite Ha, (map_lower_id y Hu), (url_sub_id y Hn), (mention_sub_id U y Hat), Ha.
  rewrite (map_flip_id y Hs), (join_split_tidy y Htt), (lstrip_head y Hh).
  rewrite (filter_all kept y) by (intros c Hc; apply plain_kept, Hp, Hc).
  rewrite (@collapse_ws_tidy false y Htt) by discriminate.
  apply strip_tidy_id, Ht.
Qed.

(** C8, as stated, fails, with no slang involved: "ht-tp://a.com"
    normalises to "httpa.com", which the second pass removes as a URL. *)
Lemma normalize_twice_differs :
  slang_free (of_string "ht-tp://a.com") = true
  /\ slang_free (of_string "httpa.com") = true
  /\ (forall U, clean_text U (PyStr (of_string "ht-tp://a.com")) = of_string "httpa.com")
  /\ (forall U, clean_text U (PyStr (of_string "httpa.com")) = [])
  /\ is_empty (of_string "httpa.com") = false.
Proof. repeat split. Qed.

(** C8, amended. [clean_text (clean_text x) = clean_text x] for every
    string [x] whose normalised form has no slang token, no match of the
    URL pattern and no capital letter (which the tag of an emoji can
    bring). *)
Theorem normalize_idempotent (U : Unicode) (x : str) :
  slang_free (clean_text U (PyStr x)) = true ->
  has_url_match (clean_text U (PyStr x)) = false ->
  no_upper (clean_text U (PyStr x)) = true ->
  clean_text U (PyStr (clean_text U (PyStr x))) = clean_text U (PyStr x).
Proof.
  intros Hs Hn Hu. apply clean_text_fixpoint; try assumption.
  - apply clean_text_tidy.
  - intros c. apply clean_text_plain.
Qed.

Lemma normalize_idempotent_witness :
  clean_text ascii_only
    (PyStr (clean_text ascii_only
              (PyStr (of_string "  Check THIS out http://x.com @bob it's   great!! "))))
  = clean_text ascii_only
      (PyStr (of_string "  Check THIS out http://x.com @bob it's   great!! ")).
Proof.
  apply (@normalize_idempotent ascii_only
           (of_string "  Check THIS out http://x.com @bob it's   great!! "));
    reflexivity.
Defined.

(** ** C7: word frequencies *)

Lemma str_eqb_eq (a b : str) : str_eqb a b = true <-> a = b.
Proof.
  revert b. induction a as [|x a IH]; intros [|y b]; simpl;
    try (split; [discriminate|discriminate]); [tauto|].
  rewrite andb_true_iff, char_eqb_eq, IH. split.
  - intros [-> ->]. reflexivity.
  - intro H. inversion H. auto.
Qed.

Lemma str_eqb_refl (a : str) : str_eqb a a = true.
Proof. now apply str_eqb_eq. Qed.

Lemma str_eqb_sym (a b : str) : str_eqb a b = str_eqb b a.
Proof.
  destruct (str_eqb a b) eqn:E.
  - apply str_eqb_eq in E. subst. symmetry. apply str_eqb_refl.
  - destruct (str_eqb b a) eqn:E'; [|reflexivity].
    apply str_eqb_eq in E'. subst. rewrite str_eqb_refl in E. discriminate.
Qed.

Lemma without_add_same (w : str) (c : list (str * nat)) :
  without w (counter_add w c) = without w c.
Proof.
  induction c as [|[k n] c IH]; simpl.
  - now rewrite str_eqb_refl.
  - destruct (str_eqb k w) eqn:E; simpl.
    + rewrite (str_eqb_sym w k), E. reflexivity.
    + rewrite (str_eqb_sym w k), E. simpl. now rewrite IH.
Qed.

Lemma without_add_other (w x : str) (c : list (str * nat)) :
  str_eqb w x = false ->
  without w (counter_add x c) = counter_add x (without w c).
Proof.
  intro H. induction c as [|[k n] c IH]; simpl.
  - now rewrite H.
  - destruct (str_eqb k x) eqn:E; simpl.
    + apply str_eqb_eq in E. subst k. rewrite H. simpl. now rewrite str_eqb_refl.
    + destruct (str_eqb w k) eqn:Ek; simpl.
      * exact IH.
      * now rewrite E, IH.
Qed.

Lemma Counter_without (w : str) (ws : list str) (c1 c2 : list (str * nat)) :
  without w c1 = without w c2 ->
  without w (fold_left (fun c x => counter_add x c) ws c1)
  = without w (fold_left (fun c x => counter_add x c) ws c2).
Proof.
  revert c1 c2. induction ws as [|x t IH]; intros c1 c2 H; [exact H|].
  simpl. apply IH.
  destruct (str_eqb w x) eqn:E.
  - apply str_eqb_eq in E. subst x. now rewrite !without_add_same.
  - now rewrite !without_add_other, H.
Qed.

Lemma count_cons (w x : str) (t : list str) :
  count w (x :: t) = if str_eqb w x then S (count w t) else count w t.
Proof. unfold count. simpl. now destruct (str_eqb w x). Qed.

Lemma Counter_head (w : str) (n : nat) (ws : list str) (c : list (str * nat)) :
  without w c = c ->
  fold_left (fun c x => counter_add x c) ws ((w, n) :: c)
  = (w, n + count w ws)
      :: without w (fold_left (fun c x => counter_add x c) ws c).
Proof.
  revert n c. induction ws as [|x t IH]; intros n c Hc.
  - simpl. unfold count. simpl. now rewrite Nat.add_0_r, Hc.
  - simpl fold_left. rewrite count_cons. simpl counter_add.
    destruct (str_eqb w x) eqn:E.
    + apply str_eqb_eq in E. subst x.
      rewrite (IH (S n) c Hc). f_equal; [f_equal; lia|].
      apply Counter_without. now rewrite without_add_same.
    + rewrite IH; [reflexivity|].
      now rewrite without_add_other, Hc.
Qed.

Lemma Counter_cons (w : str) (t : list str) :
  Counter (w :: t) = (w, S (count w t)) :: without w (Counter t).
Proof.
  unfold Counter. simpl. rewrite Counter_head; reflexivity.
Qed.

Lemma Counter_spec (ws : list str) :
  Counter ws = map (fun w => (w, count w ws)) (firsts ws).
Proof.
  induction ws as [|w t IH]; [reflexivity|].
  rewrite Counter_cons, IH. simpl.
  rewrite count_cons, str_eqb_refl. f_equal.
  unfold without. clear IH.
  induction (firsts t) as [|k ks IHk]; [reflexivity|]. simpl.
  destruct (str_eqb w k) eqn:E; simpl; [exact IHk|].
  rewrite count_cons, (str_eqb_sym k w), E. now rewrite IHk.
Qed.

Lemma insert_desc_perm (x : str * nat) (l : list (str * nat)) :
  Permutation (insert_desc x l) (x :: l).
Proof.
  induction l as [|y l IH]; simpl; [reflexivity|].
  destruct (snd x <? snd y); [|reflexivity].
  rewrite IH. apply perm_swap.
Qed.

Lemma sorted_desc_perm (l : list (str * nat)) : Permutation (sorted_desc l) l.
Proof.
  induction l as [|x l IH]; simpl; [reflexivity|].
  rewrite insert_desc_perm. now constructor.
Qed.

Lemma insert_desc_sorted (x : str * nat) (l : list (str * nat)) :
  StronglySorted count_ge l -> StronglySorted count_ge (insert_desc x l).
Proof.
  induction l as [|y l IH]; intro H; simpl.
  - constructor; constructor.
  - inversion H as [|? ? Hl Hy]; subst.
    destruct (snd x <? snd y) eqn:E.
    + apply Nat.ltb_lt in E. constructor; [now apply IH|].
      apply Forall_forall. intros z Hz.
      apply (Permutation_in _ (insert_desc_perm x l)) in Hz.
      destruct Hz as [<-|Hz]; [unfold count_ge; lia|].
      rewrite Forall_forall in Hy. now apply Hy.
    + apply Nat.ltb_ge in E. constructor; [exact H|].
      constructor; [exact E|].
      rewrite Forall_forall in *. intros z Hz. specialize (Hy z Hz).
      unfold count_ge in *. lia.
Qed.

Lemma sorted_desc_sorted (l : list (str * nat)) :
  StronglySorted count_ge (sorted_desc l).
Proof.
  induction l as [|x l IH]; simpl; [constructor|].
  now apply insert_desc_sorted.
Qed.

(** The sort is stable: items of equal count keep their order. *)
Lemma insert_desc_stable (n : nat) (x : str * nat) (l : list (str * nat)) :
  filter (has_count n) (insert_desc x l) = filter (has_count n) (x :: l).
Proof.
  induction l as [|y l IH]; [reflexivity|]. simpl insert_desc.
  destruct (snd x <? snd y) eqn:E; [|reflexivity].
  apply Nat.ltb_lt in E.
  change (filter (has_count n) (y :: insert_desc x l))
    with (if has_count n y then y :: filter (has_count n) (insert_desc x l)
          else filter (has_count n) (insert_desc x l)).
  rewrite IH. simpl. unfold has_count.
  destruct (snd x =? n) eqn:Ex; destruct (snd y =? n) eqn:Ey; try reflexivity.
  apply Nat.eqb_eq in Ex, Ey. lia.
Qed.

Lemma sorted_desc_stable (n : nat) (l : list (str * nat)) :
  filter (has_count n) (sorted_desc l) = filter (has_count n) l.
Proof.
  induction l as [|x l IH]; [reflexivity|].
  simpl sorted_desc. rewrite insert_desc_stable. simpl. now rewrite IH.
Qed.

Lemma StronglySorted_firstn {A : Type} (R : A -> A -> Prop) (k : nat) (l : list A) :
  StronglySorted R l -> StronglySorted R (firstn k l).
Proof.
  revert k. induction l as [|a l IH]; intros [|k] H; simpl; try constructor.
  - inversion H; subst. now apply IH.
  - inversion H as [|? ? _ Ha]; subst.
    rewrite Forall_forall in *. intros x Hx. apply Ha.
    rewrite <- (firstn_skipn k l). apply in_or_app. now left.
Qed.

Lemma StronglySorted_split {A : Type} (R : A -> A -> Prop) (l1 l2 : list A) :
  StronglySorted R (l1 ++ l2) ->
  forall a b, In a l1 -> In b l2 -> R a b.
Proof.
  induction l1 as [|x l1 IH]; simpl; intros H a b Ha Hb; [contradiction|].
  inversion H as [|? ? Hs Hx]; subst.
  destruct Ha as [<-|Ha].
  - rewrite Forall_forall in Hx. apply Hx, in_or_app. now right.
  - now apply IH.
Qed.

Lemma in_firsts (w : str) (ws : list str) : In w (firsts ws) <-> In w ws.
Proof.
  induction ws as [|x t IH]; simpl; [tauto|].
  rewrite filter_In, IH. split.
  - intros [H|[H _]]; auto.
  - intros [H|H]; [auto|].
    destruct (str_eqb x w) eqn:E; [apply str_eqb_eq in E; auto|auto].
Qed.

Lemma split_cons2 (c d : char) (t : str) :
  is_space c = false ->
  split (c :: d :: t) =
  if is_space d then [c] :: split (d :: t)
  else match split (d :: t) with
       | w :: ws => (c :: w) :: ws
       | [] => [[c]]
       end.
Proof.
  intro H.
  change (split (c :: d :: t))
    with (if is_space c then split (d :: t)
          else if is_space d then [c] :: split (d :: t)
               else match split (d :: t) with
                    | w :: ws => (c :: w) :: ws
                    | [] => [[c]]
                    end).
  now rewrite H.
Qed.

(** A whitespace character separates tokens. *)
Lemma split_app_space (a b : str) :
  split (a ++ SPACE :: b) = split a ++ split b.
Proof.
  induction a as [|c a IH]; [reflexivity|].
  change ((c :: a) ++ SPACE :: b) with (c :: (a ++ SPACE :: b)).
  destruct (is_space c) eqn:Ec.
  { simpl split. rewrite Ec. exact IH. }
  destruct a as [|d a'].
  - simpl. now rewrite Ec.
  - change ((d :: a') ++ SPACE :: b) with (d :: (a' ++ SPACE :: b)) in *.
    rewrite !split_cons2 by assumption. rewrite IH.
    destruct (is_space d) eqn:Ed; [reflexivity|].
    assert (Hh : head_nonspace (d :: a') = true) by (simpl; now rewrite Ed).
    pose proof (split_head (d :: a') Hh) as Hne.
    destruct (split (d :: a')) as [|w ws]; [congruence|]. reflexivity.
Qed.

Lemma split_join (l : list str) :
  split (join [SPACE] l) = flat_map split l.
Proof.
  induction l as [|w ws IH]; [reflexivity|].
  destruct ws as [|w' ws'].
  - simpl. now rewrite app_nil_r.
  - change (join [SPACE] (w :: w' :: ws'))
      with (w ++ SPACE :: join [SPACE] (w' :: ws')).
    rewrite split_app_space, IH. reflexivity.
Qed.

Lemma before_cons {A : Type} (x a b : A) (l : list A) :
  before a b l -> before a b (x :: l).
Proof. intros (l1 & l2 & l3 & ->). now exists (x :: l1), l2, l3. Qed.

Lemma before_head {A : Type} (a b : A) (l : list A) :
  In b l -> before a b (a :: l).
Proof.
  intro H. apply in_split in H. destruct H as (l2 & l3 & ->).
  now exists [], l2, l3.
Qed.

Lemma before_app {A : Type} (a b : A) (l rest : list A) :
  before a b l -> before a b (l ++ rest).
Proof.
  intros (l1 & l2 & l3 & ->). exists l1, l2, (l3 ++ rest).
  now rewrite <- !app_assoc, <- !app_comm_cons, <- app_assoc.
Qed.

Lemma before_unfilter {A : Type} (p : A -> bool) (a b : A) (l : list A) :
  before a b (filter p l) -> before a b l.
Proof.
  induction l as [|x l IH]; simpl.
  - intros (l1 & l2 & l3 & H). destruct l1; discriminate.
  - destruct (p x) eqn:E; [|intro H; apply before_cons; auto].
    intros (l1 & l2 & l3 & H). destruct l1 as [|y l1]; simpl in H.
    + inversion H as [[Hx Hl]]. apply before_head.
      assert (Hb : In b (filter p l)) by (rewrite Hl; apply in_or_app; right; now left).
      apply filter_In in Hb. tauto.
    + inversion H as [[Hx Hl]]. apply before_cons, IH. now exists l1, l2, l3.
Qed.

Lemma before_filter {A : Type} (p : A -> bool) (a b : A) (l : list A) :
  p a = true -> p b = true -> before a b l -> before a b (filter p l).
Proof.
  intros Ha Hb (l1 & l2 & l3 & ->).
  exists (filter p l1), (filter p l2), (filter p l3).
  rewrite filter_app. simpl. rewrite Ha, filter_app. simpl. now rewrite Hb.
Qed.

Lemma before_unmap {A B : Type} (g : A -> B) (a b : B) (l : list A) :
  before a b (map g l) ->
  exists a' b', a = g a' /\ b = g b' /\ before a' b' l.
Proof.
  intros (l1 & l2 & l3 & H).
  apply map_eq_app in H. destruct H as (m1 & m2 & -> & <- & H).
  apply map_eq_cons in H. destruct H as (a' & m3 & -> & <- & H).
  apply map_eq_app in H. destruct H as (m4 & m5 & -> & <- & H).
  apply map_eq_cons in H. destruct H as (b' & m6 & -> & <- & <-).
  exists a', b'. repeat split. now exists m1, m4, m6.
Qed.

(** The order of [firsts] is the order of first occurrence. *)
Lemma firsts_order (w1 w2 : str) (ws : list str) :
  before w1 w2 (firsts ws) -> first_before w1 w2 ws.
Proof.
  induction ws as [|x t IH]; simpl.
  - intros (l1 & l2 & l3 & H). destruct l1; discriminate.
  - intros (l1 & l2 & l3 & H). destruct l1 as [|y l1]; simpl in H.
    + inversion H as [[Hx Hl]]. subst x.
      assert (Hb : In w2 (filter (fun x => negb (str_eqb w1 x)) (firsts t)))
        by (rewrite Hl; apply in_or_app; right; now left).
      apply filter_In in Hb. destruct Hb as [Hb _]. rewrite in_firsts in Hb.
      exists [], t. simpl. repeat split; auto.
    + inversion H as [[Hx Hl]]. subst y.
      assert (B : before w1 w2 (filter (fun y => negb (str_eqb x y)) (firsts t)))
        by now exists l1, l2, l3.
      assert (N1 : x <> w1).
      { intro E. subst w1.
        assert (Hi : In x (filter (fun y => negb (str_eqb x y)) (firsts t)))
          by (rewrite Hl; apply in_or_app; right; now left).
        apply filter_In in Hi. destruct Hi as [_ Hi].
        rewrite str_eqb_refl in Hi. discriminate. }
      assert (N2 : x <> w2).
      { intro E. subst w2.
        assert (Hi : In x (filter (fun y => negb (str_eqb x y)) (firsts t))).
        { rewrite Hl. apply in_or_app. right. right. apply in_or_app. right. now left. }
        apply filter_In in Hi. destruct Hi as [_ Hi].
        rewrite str_eqb_refl in Hi. discriminate. }
      apply before_unfilter in B. destruct (IH B) as (p & q & -> & H1 & H2 & H3).
      exists (x :: p), q. simpl. repeat split; auto.
      * intros [E|E]; [now apply N1|now apply H1].
      * intros [E|E]; [now apply N2|now apply H2].
Qed.

(** Entries of equal count stand in the order of first occurrence. *)
Lemma ranking_ties (toks : list str) (k : nat) (a b : str * nat) :
  before a b (firstn k (sorted_desc (tally toks))) -> snd a = snd b ->
  first_before (fst a) (fst b) toks.
Proof.
  intros B E.
  apply (before_filter (has_count (snd a))) in B;
    [|unfold has_count; apply Nat.eqb_refl|unfold has_count; rewrite E; apply Nat.eqb_refl].
  apply before_app with (rest := filter (has_count (snd a))
                                   (skipn k (sorted_desc (tally toks)))) in B.
  rewrite <- filter_app, firstn_skipn, sorted_desc_stable in B.
  apply before_unfilter in B. unfold tally in B.
  apply before_unmap in B. destruct B as (a' & b' & -> & -> & B).
  simpl. now apply firsts_order.
Qed.

Lemma flat_map_map {A B C : Type} (f : A -> B) (g : B -> list C) (l : list A) :
  flat_map g (map f l) = flat_map (fun x => g (f x)) l.
Proof. induction l as [|a l IH]; simpl; [reflexivity|now rewrite IH]. Qed.

Lemma get_word_frequencies_spec (U : Unicode) (texts : list pyval) :
  get_word_frequencies U texts = firstn 50 (sorted_desc (tally (tokens U texts))).
Proof.
  unfold get_word_frequencies, most_common, tally, tokens.
  now rewrite split_join, flat_map_map, Counter_spec.
Qed.

Lemma qualifies_spec (w : str) :
  qualifies w = true <-> in_set w stop_words = false /\ 3 <= length w.
Proof.
  unfold qualifies. rewrite andb_true_iff, negb_true_iff, Nat.ltb_lt.
  split; intros [H1 H2]; split; auto; lia.
Qed.

(** C7. [get_word_frequencies] passes each text through [clean_text],
    cuts it at whitespace, drops the stopwords and the tokens under three
    characters, counts the rest, and returns at most 50 (word, count)
    entries: the head of the ranking by descending count in which words
    of equal count stand in the order of their first occurrence (of two
    entries with the same count, the one that stands first is the word
    that occurred first). The
    empty sequence gives the empty table, and 60 distinct qualifying
    words give exactly 50 entries. *)
Theorem word_frequencies_top50 (U : Unicode) (texts : list pyval) :
  let toks := tokens U texts in
  let ranked := sorted_desc (tally toks) in
  let r := get_word_frequencies U texts in
  r = firstn 50 ranked
  /\ (forall w, In w toks <->
        exists t, In t texts /\ In w (split (clean_text U t))
                  /\ in_set w stop_words = false /\ 3 <= length w)
  /\ (forall w n, In (w, n) r -> In w toks /\ n = count w toks)
  /\ length r = Nat.min 50 (length (firsts toks))
  /\ length r <= 50
  /\ StronglySorted count_ge r
  /\ (forall a b, In a r -> In b (skipn 50 ranked) -> snd b <= snd a)
  /\ (forall n, exists rest,
        filter (has_count n) (tally toks) = filter (has_count n) r ++ rest)
  /\ (forall a b, before a b r -> snd a = snd b ->
      first_before (fst a) (fst b) toks)
  /\ (texts = [] -> r = [])
  /\ (length (firsts toks) = 60 -> length r = 50).
Proof.
  cbv zeta. rewrite get_word_frequencies_spec.
  set (toks := tokens U texts). set (ranked := sorted_desc (tally toks)).
  assert (Hlen : length ranked = length (firsts toks)).
  { unfold ranked. rewrite (Permutation_length (sorted_desc_perm _)).
    unfold tally. apply length_map. }
  assert (Hs : StronglySorted count_ge ranked) by apply sorted_desc_sorted.
  repeat apply conj.
  - reflexivity.
  - intro w. unfold toks, tokens. rewrite filter_In, in_flat_map, qualifies_spec.
    split.
    + intros [(t & Ht & Hw) Hq]. exists t. tauto.
    + intros (t & Ht & Hw & Hq). split; [exists t; tauto|tauto].
  - intros w n H.
    assert (Hr : In (w, n) ranked).
    { rewrite <- (firstn_skipn 50 ranked). apply in_or_app. now left. }
    apply (Permutation_in _ (sorted_desc_perm _)) in Hr.
    unfold tally in Hr. apply in_map_iff in Hr. destruct Hr as (w' & E & Hw).
    inversion E; subst. split; [now apply in_firsts|reflexivity].
  - rewrite length_firstn, Hlen. reflexivity.
  - rewrite length_firstn. lia.
  - now apply StronglySorted_firstn.
  - intros a b Ha Hb. rewrite <- (firstn_skipn 50 ranked) in Hs.
    exact (@StronglySorted_split _ _ _ _ Hs a b Ha Hb).
  - intro n. exists (filter (has_count n) (skipn 50 ranked)).
    rewrite <- filter_app, firstn_skipn. unfold ranked.
    now rewrite sorted_desc_stable.
  - intros a b. apply ranking_ties.
  - intros ->. reflexivity.
  - intro H. rewrite length_firstn, Hlen, H. reflexivity.
Qed.

Lemma word_frequencies_top50_witness :
  length (get_word_frequencies ascii_only sixty_texts) = 50.
Proof.
  apply (word_frequencies_top50 ascii_only sixty_texts).
  vm_compute. reflexivity.
Defined.

(** The example of the specification: "cat" has count 2 and stands
    before the words of count 1; the stopword "the" is dropped. *)
Example word_frequencies_cat :
  get_word_frequencies ascii_only
    [PyStr (of_string "the cat sat"); PyStr (of_string "the cat ran fast")]
  = [(of_string "cat", 2); (of_string "sat", 1); (of_string "ran", 1);
     (of_string "fast", 1)].
Proof. reflexivity. Qed.

(** * Further properties *)

(** ** The normal form of [clean_text] *)

(** X1. Whatever the argument, the text [clean_text] returns is made of
    ASCII letters, digits, spaces and [!?.,] only, and it is its own
    words joined by single spaces: it neither begins nor ends with a
    space and has no two spaces in a row, so stripping it or collapsing
    its whitespace again changes nothing. *)
Theorem clean_text_normal_form (U : Unicode) (v : pyval) :
  (forall c, In c (clean_text U v) -> plain c = true)
  /\ join [SPACE] (split (clean_text U v)) = clean_text U v
  /\ strip (clean_text U v) = clean_text U v
  /\ collapse_ws false (clean_text U v) = clean_text U v.
Proof.
  pose proof (clean_text_tidy U v) as Ht.
  pose proof Ht as Ht'. unfold tidy in Ht'. apply andb_true_iff in Ht'.
  destruct Ht' as [Htt Hh].
  repeat split.
  - intro c. apply clean_text_plain.
  - rewrite (join_split_tidy _ Htt). now apply lstrip_head.
  - now apply strip_tidy_id.
  - apply collapse_ws_tidy; [exact Htt|discriminate].
Qed.

(** ** ASCII input *)

Lemma In_url_sub (c : char) (skip : bool) (s : str) :
  In c (url_sub skip s) -> In c s.
Proof.
  revert skip. induction s as [|d t IH]; intros skip; simpl; [tauto|].
  destruct (is_space d); simpl.
  - intros [H|H]; [auto|right; eapply IH; eauto].
  - destruct (skip || starts_url (d :: t)); simpl.
    + intro H. right. eapply IH; eauto.
    + intros [H|H]; [auto|right; eapply IH; eauto].
Qed.

Lemma In_mention_sub (U : Unicode) (c : char) (skip : bool) (s : str) :
  In c (mention_sub U skip s) -> In c s.
Proof.
  revert skip. induction s as [|d t IH]; intros skip; simpl; [tauto|].
  destruct (skip && is_word U d); simpl.
  - intro H. right. eapply IH; eauto.
  - destruct (starts_mention U (d :: t)); simpl.
    + intro H. right. eapply IH; eauto.
    + intros [H|H]; [auto|right; eapply IH; eauto].
Qed.

Lemma forallb_sub {A : Type} (p : A -> bool) (l l' : list A) :
  (forall x, In x l' -> In x l) -> forallb p l = true -> forallb p l' = true.
Proof.
  intros Hs H. rewrite forallb_forall in *. auto.
Qed.

Lemma is_word_ascii (U : Unicode) (c : char) :
  is_ascii_char c = true -> is_word U c = is_word ascii_only c.
Proof. intro H. unfold is_word. now rewrite H. Qed.

Lemma mention_sub_ascii (U : Unicode) (skip : bool) (s : str) :
  isascii s = true -> mention_sub U skip s = mention_sub ascii_only skip s.
Proof.
  revert skip. induction s as [|c t IH]; intros skip H; [reflexivity|].
  simpl in H. apply andb_true_iff in H. destruct H as [Hc Ht].
  assert (Hm : starts_mention U (c :: t) = starts_mention ascii_only (c :: t)).
  { unfold starts_mention. destruct t as [|d r]; [reflexivity|].
    simpl in Ht. apply andb_true_iff in Ht. destruct Ht as [Hd _].
    now rewrite (is_word_ascii U d Hd). }
  simpl. rewrite (is_word_ascii U c Hc), Hm, !(IH _ Ht). reflexivity.
Qed.

Lemma lower_ascii_ascii (c : char) :
  is_ascii_char c = true -> is_ascii_char (lower_ascii c) = true.
Proof.
  unfold lower_ascii, is_upper_ascii, in_range, is_ascii_char.
  destruct ((65 <=? c)%N && (c <=? 90)%N) eqn:E; [|auto].
  apply andb_true_iff in E. rewrite !N.leb_le in E. rewrite !N.ltb_lt. lia.
Qed.

Lemma lower_ascii_not_upper (c : char) : is_upper_ascii (lower_ascii c) = false.
Proof.
  unfold lower_ascii. destruct (is_upper_ascii c) eqn:E; [|exact E].
  unfold is_upper_ascii, in_range in *.
  apply andb_true_iff in E. rewrite !N.leb_le in E.
  apply andb_false_iff. right. apply N.leb_gt. lia.
Qed.

Lemma In_split (w : str) (s : str) (c : char) :
  In w (split s) -> In c w -> In c s.
Proof.
  revert w. induction s as [|d t IH]; intros w; [simpl; tauto|].
  destruct (is_space d) eqn:Ed.
  - simpl split. rewrite Ed. intros Hw Hc. right. eapply IH; eauto.
  - destruct t as [|e r].
    + simpl. rewrite Ed. intros [<-|[]] Hc. exact Hc.
    + rewrite split_cons2 by assumption.
      destruct (is_space e) eqn:Ee.
      * intros [<-|Hw] Hc; [destruct Hc as [<-|[]]; now left|].
        right. eapply IH; eauto.
      * destruct (split (e :: r)) as [|w0 ws] eqn:Es.
        { intros [<-|[]] Hc. destruct Hc as [<-|[]]. now left. }
        intros [<-|Hw] Hc.
        -- destruct Hc as [<-|Hc]; [now left|].
           right. apply (IH w0); [now left|exact Hc].
        -- right. apply (IH w); [now right|exact Hc].
Qed.

Lemma In_join (c : char) (l : list str) :
  In c (join [SPACE] l) -> c = SPACE \/ exists w, In w l /\ In c w.
Proof.
  induction l as [|w ws IH]; [simpl; tauto|].
  destruct ws as [|w' ws'].
  - simpl. intro H. right. exists w. auto.
  - change (join [SPACE] (w :: w' :: ws'))
      with (w ++ SPACE :: join [SPACE] (w' :: ws')).
    intro H. apply in_app_or in H. destruct H as [H|[H|H]].
    + right. exists w. split; [now left|exact H].
    + now left.
    + destruct (IH H) as [E|(w0 & Hw & Hc)]; [now left|].
      right. exists w0. split; [now right|exact Hc].
Qed.

Lemma flip_no_upper (w : str) : no_upper w = true -> no_upper (flip w) = true.
Proof.
  intro H. unfold flip.
  destruct (dict_get SENTIMENT_FLIPS w) as [v|] eqn:E; [|exact H].
  assert (A : forallb (fun kv => no_upper (snd kv)) SENTIMENT_FLIPS = true)
    by reflexivity.
  revert E. generalize SENTIMENT_FLIPS A. clear.
  intros d. induction d as [|[k x] d IH]; simpl; [discriminate|].
  intros A E. apply andb_true_iff in A. destruct A as [A1 A2].
  destruct (str_eqb k w); [now inversion E; subst|auto].
Qed.

(** The normaliser on a pure-ASCII string. *)
Lemma clean_text_on_ascii (U : Unicode) (s : str) :
  isascii s = true ->
  clean_text U (PyStr s) = clean_text ascii_only (PyStr s)
  /\ no_upper (clean_text U (PyStr s)) = true.
Proof.
  intro Ha.
  assert (H1 : lower U s = map lower_ascii s) by (unfold lower; now rewrite Ha).
  assert (H1' : lower ascii_only s = map lower_ascii s) by (unfold lower; now rewrite Ha).
  assert (A1 : isascii (map lower_ascii s) = true).
  { unfold isascii in *. rewrite forallb_forall in *. intros c Hc.
    apply in_map_iff in Hc. destruct Hc as (d & <- & Hd).
    apply lower_ascii_ascii. auto. }
  assert (L1 : no_upper (map lower_ascii s) = true).
  { unfold no_upper. apply forallb_forall. intros c Hc.
    apply in_map_iff in Hc. destruct Hc as (d & <- & Hd).
    now rewrite lower_ascii_not_upper. }
  set (t1 := url_sub false (map lower_ascii s)) in *.
  assert (A2 : isascii t1 = true)
    by (apply (forallb_sub _ (map lower_ascii s)); [intro; apply In_url_sub|exact A1]).
  assert (L2 : no_upper t1 = true)
    by (apply (forallb_sub _ (map lower_ascii s)); [intro; apply In_url_sub|exact L1]).
  assert (E3 : mention_sub U false t1 = mention_sub ascii_only false t1)
    by now apply mention_sub_ascii.
  set (t2 := mention_sub ascii_only false t1) in *.
  assert (A3 : isascii t2 = true)
    by (apply (forallb_sub _ t1); [intro; apply In_mention_sub|exact A2]).
  assert (L3 : no_upper t2 = true)
    by (apply (forallb_sub _ t1); [intro; apply In_mention_sub|exact L2]).
  assert (E : clean_str U s = clean_str ascii_only s).
  { unfold clean_str. rewrite H1, H1'. fold t1. rewrite E3. fold t2.
    unfold demojize. now rewrite A3. }
  split.
  - simpl. destruct (strip s); [reflexivity|exact E].
  - simpl. destruct (strip s); [reflexivity|]. rewrite E.
    unfold clean_str. rewrite H1'. fold t1. fold t2.
    unfold demojize. rewrite A3.
    unfold no_upper. apply forallb_forall. intros x Hc.
    apply In_strip, In_collapse_ws in Hc. destruct Hc as [->|[Hc _]]; [reflexivity|].
    apply filter_In in Hc. destruct Hc as [Hc _].
    apply In_join in Hc. destruct Hc as [->|(w & Hw & Hc)]; [reflexivity|].
    apply in_map_iff in Hw. destruct Hw as (w0 & <- & Hw0).
    assert (Lw : no_upper w0 = true).
    { unfold no_upper in *. rewrite forallb_forall in *. intros d Hd.
      apply L3. eapply In_split; eauto. }
    apply flip_no_upper in Lw. unfold no_upper in Lw.
    rewrite forallb_forall in Lw. auto.
Qed.

(** X2. On a pure-ASCII string the normaliser consults neither the
    Unicode database nor the emoji table, and what it returns has no
    capital letter. *)
Theorem clean_text_ascii (U : Unicode) (s : str) :
  isascii s = true ->
  clean_text U (PyStr s) = clean_text ascii_only (PyStr s)
  /\ no_upper (clean_text U (PyStr s)) = true.
Proof. apply clean_text_on_ascii. Qed.

Lemma clean_text_ascii_witness :
  clean_text ascii_only (PyStr (of_string "GREAT Movie, watch http://t.co/x @Bob"))
  = of_string "great movie, watch"
  /\ no_upper (clean_text ascii_only
                 (PyStr (of_string "GREAT Movie, watch http://t.co/x @Bob"))) = true.
Proof.
  split; [reflexivity|].
  apply (clean_text_ascii ascii_only (of_string "GREAT Movie, watch http://t.co/x @Bob")).
  reflexivity.
Defined.

(** X3. On a pure-ASCII string whose normalised form has no slang token
    and no match of the URL pattern, normalising twice is normalising
    once. *)
Theorem clean_text_idempotent_ascii (U : Unicode) (x : str) :
  isascii x = true ->
  slang_free (clean_text U (PyStr x)) = true ->
  has_url_match (clean_text U (PyStr x)) = false ->
  clean_text U (PyStr (clean_text U (PyStr x))) = clean_text U (PyStr x).
Proof.
  intros Ha Hs Hu. apply clean_text_fixpoint; try assumption.
  - apply clean_text_tidy.
  - intro c. apply clean_text_plain.
  - now apply clean_text_on_ascii.
Qed.

Lemma clean_text_idempotent_ascii_witness :
  clean_text ascii_only
    (PyStr (clean_text ascii_only (PyStr (of_string "LOVED it!! see www.x.org @you"))))
  = clean_text ascii_only (PyStr (of_string "LOVED it!! see www.x.org @you")).
Proof.
  apply (clean_text_idempotent_ascii ascii_only
           (of_string "LOVED it!! see www.x.org @you")); reflexivity.
Defined.

(** ** The cascade of [analyze]: who answers *)

Open Scope Q_scope.

Lemma transformer_trace (self : SentimentAnalyzer) (c : str) :
  forallb is_neural_call (trace_of (_analyze_transformer c self)) = true.
Proof.
  unfold _analyze_transformer, getitem. unfold_monad.
  repeat (step; simpl; try reflexivity).
Qed.

Lemma baseline_trace (self : SentimentAnalyzer) (c : str) :
  forallb is_classical_call (trace_of (_analyze_baseline c self)) = true.
Proof.
  unfold _analyze_baseline, getitem. unfold_monad.
  repeat (step; simpl; try reflexivity).
Qed.

Lemma vader_trace (self : SentimentAnalyzer) (c : str) :
  forallb is_lexicon_call (trace_of (_analyze_vader c self)) = true.
Proof.
  unfold _analyze_vader. unfold_monad.
  repeat (step; simpl; try reflexivity).
Qed.

Lemma transformer_tag (self : SentimentAnalyzer) (c : str) (r : SentimentResult) :
  value_of (_analyze_transformer c self) = Ok r -> model_used r = TagTransformer.
Proof.
  unfold _analyze_transformer, getitem. unfold_monad.
  repeat (step; simpl; try discriminate).
  all: intro H; inversion H; reflexivity.
Qed.

Lemma baseline_tag (self : SentimentAnalyzer) (c : str) (r : SentimentResult) :
  value_of (_analyze_baseline c self) = Ok r -> model_used r = TagBaseline.
Proof.
  unfold _analyze_baseline, getitem. unfold_monad.
  repeat (step; simpl; try discriminate).
  all: intro H; inversion H; reflexivity.
Qed.

Lemma vader_tag (self : SentimentAnalyzer) (c : str) (r : SentimentResult) :
  value_of (_analyze_vader c self) = Ok r -> model_used r = TagVADER.
Proof.
  unfold _analyze_vader. unfold_monad.
  repeat (step; simpl; try discriminate).
  all: intro H; inversion H; reflexivity.
Qed.

Lemma none_of_app (p : event -> bool) (t t' : list event) :
  none_of p (t ++ t') = none_of p t && none_of p t'.
Proof. unfold none_of. apply forallb_app. Qed.

Lemma none_of_other (p q : event -> bool) (t : list event) :
  (forall e, p e = true -> q e = false) ->
  forallb p t = true -> none_of q t = true.
Proof.
  intros Hpq H. unfold none_of. rewrite forallb_forall in *.
  intros e He. now rewrite (Hpq e (H e He)).
Qed.

Lemma no_tier_call_none (p : event -> bool) (t : list event) :
  (forall e, p e = true -> is_tier_call e = true) ->
  no_tier_call t = true -> none_of p t = true.
Proof.
  intros Hp H. unfold none_of, no_tier_call in *. rewrite forallb_forall in *.
  intros e He. specialize (H e He).
  destruct (p e) eqn:E; [|reflexivity].
  rewrite (Hp e E) in H. discriminate.
Qed.

(** What [analyze] does on a string: the short-circuit, or the cascade
    on the normalised text. *)
Lemma analyze_outcome (U : Unicode) (self : SentimentAnalyzer) (s : str)
    (use_transformer : bool) :
  let c := normalized U self (PyStr s) in
  (c = []
   /\ value_of (analyze U (PyStr s) use_transformer self) = Ok default_result
   /\ no_tier_call (trace_of (analyze U (PyStr s) use_transformer self)) = true)
  \/ (c <> []
      /\ exists t0,
          no_tier_call t0 = true
          /\ analyze U (PyStr s) use_transformer self
             = (t0 ++ fst (cascade
                             (stage (neural_available self use_transformer)
                                    (_analyze_transformer c self) WARNING)
                             (stage (classical_available self)
                                    (_analyze_baseline c self) WARNING)
                             (stage (lexicon_available self)
                                    (_analyze_vader c self) ERROR)),
                self,
                Ok (snd (cascade
                           (stage (neural_available self use_transformer)
                                  (_analyze_transformer c self) WARNING)
                           (stage (classical_available self)
                                  (_analyze_baseline c self) WARNING)
                           (stage (lexicon_available self)
                                  (_analyze_vader c self) ERROR))))).
Proof.
  cbv zeta.
  destruct (forallb is_space s) eqn:Hb.
  - left. split; [now apply normalized_blank|].
    split; [apply analyze_empty_is_default_aux; now left|].
    unfold analyze. unfold_monad. rewrite is_blank_str, Hb. reflexivity.
  - destruct (translate_if_needed_str self s) as (t0 & v & Ht & Hn).
    assert (En : normalized U self (PyStr s) = clean_text U v)
      by (unfold normalized; rewrite Ht; reflexivity).
    rewrite En.
    destruct (clean_text U v) as [|c0 c'] eqn:Ec.
    + left. split; [reflexivity|].
      split; [apply analyze_empty_is_default_aux; right; now rewrite En|].
      unfold analyze. unfold_monad. rewrite is_blank_str, Hb. simpl.
      rewrite Ht, Ec. simpl. rewrite app_nil_r. exact Hn.
    + right. split; [discriminate|]. exists t0. split; [exact Hn|].
      rewrite <- Ec.
      apply (@analyze_runs_cascade U self s use_transformer t0 v Hb Ht).
      rewrite Ec. discriminate.
Qed.

(** The facts on the traces of the three tiers, for the text [c]. *)
Ltac tier_traces self c :=
  pose proof (none_of_other is_neural_call is_classical_call
                (trace_of (_analyze_transformer c self))
                ltac:(intros [] ?; (reflexivity || discriminate))
                (transformer_trace self c));
  pose proof (none_of_other is_neural_call is_lexicon_call
                (trace_of (_analyze_transformer c self))
                ltac:(intros [] ?; (reflexivity || discriminate))
                (transformer_trace self c));
  pose proof (none_of_other is_classical_call is_neural_call
                (trace_of (_analyze_baseline c self))
                ltac:(intros [] ?; (reflexivity || discriminate))
                (baseline_trace self c));
  pose proof (none_of_other is_classical_call is_lexicon_call
                (trace_of (_analyze_baseline c self))
                ltac:(intros [] ?; (reflexivity || discriminate))
                (baseline_trace self c));
  pose proof (none_of_other is_lexicon_call is_neural_call
                (trace_of (_analyze_vader c self))
                ltac:(intros [] ?; (reflexivity || discriminate))
                (vader_trace self c));
  pose proof (none_of_other is_lexicon_call is_classical_call
                (trace_of (_analyze_vader c self))
                ltac:(intros [] ?; (reflexivity || discriminate))
                (vader_trace self c)).

Ltac bridge_trace t0 H :=
  pose proof (no_tier_call_none is_neural_call t0
                ltac:(intros [] ?; (reflexivity || discriminate)) H);
  pose proof (no_tier_call_none is_classical_call t0
                ltac:(intros [] ?; (reflexivity || discriminate)) H);
  pose proof (no_tier_call_none is_lexicon_call t0
                ltac:(intros [] ?; (reflexivity || discriminate)) H).

Ltac solve_none :=
  rewrite ?none_of_app; simpl;
  repeat match goal with
  | H : none_of _ _ = true |- _ => rewrite H
  end; try reflexivity.

(** ** C3: the cascade of [analyze], on the analyzer that startup builds *)





(** X4. A tier that is unloaded, or the neural tier when
    [use_transformer] is false, is never called by [analyze]. *)
Theorem analyze_skips_unavailable (U : Unicode) (self : SentimentAnalyzer) (s : str)
    (use_transformer : bool) :
  let t := trace_of (analyze U (PyStr s) use_transformer self) in
  (neural_available self use_transformer = false -> none_of is_neural_call t = true)
  /\ (classical_available self = false -> none_of is_classical_call t = true)
  /\ (lexicon_available self = false -> none_of is_lexicon_call t = true).
Proof.
  cbv zeta.
  destruct (analyze_outcome U self s use_transformer)
    as [(Hc & Hv & Ht)|(Hc & t0 & Ht0 & E)].
  - bridge_trace (trace_of (analyze U (PyStr s) use_transformer self)) Ht.
    repeat split; intros _; assumption.
  - rewrite E. set (c := normalized U self (PyStr s)) in *.
    tier_traces self c. bridge_trace t0 Ht0.
    unfold stage, cascade, trace_of, value_of in *. simpl fst. simpl snd.
    destruct (_analyze_transformer c self) as [[t1 s1] r1].
    destruct (_analyze_baseline c self) as [[t2 s2] r2].
    destruct (_analyze_vader c self) as [[t3 s3] r3].
    simpl in *.
    repeat split; intros ->;
      destruct (neural_available self use_transformer);
      destruct (classical_available self);
      destruct (lexicon_available self);
      destruct r1; destruct r2; destruct r3; simpl; solve_none.
Qed.

Lemma analyze_skips_unavailable_witness :
  none_of is_neural_call
    (trace_of (analyze ascii_only (PyStr (of_string "Good!")) false flaky_analyzer)) = true.
Proof.
  apply (analyze_skips_unavailable ascii_only flaky_analyzer (of_string "Good!") false).
  reflexivity.
Defined.

(** X5. The first tier that is available and returns decides: when the
    neural tier answers, [analyze] returns its result and calls neither
    the classical nor the lexicon tier; when the neural tier is out and
    the classical tier answers, the result is the classical one and the
    lexicon tier is not called; the lexicon tier decides only when both
    are out. *)
Theorem analyze_first_answer (U : Unicode) (self : SentimentAnalyzer) (s : str)
    (use_transformer : bool) (r : SentimentResult) :
  let c := normalized U self (PyStr s) in
  let out := analyze U (PyStr s) use_transformer self in
  c <> [] ->
  (neural_available self use_transformer = true ->
   value_of (_analyze_transformer c self) = Ok r ->
   value_of out = Ok r
   /\ none_of is_classical_call (trace_of out) = true
   /\ none_of is_lexicon_call (trace_of out) = true)
  /\ (unavailable_or_fails (neural_available self use_transformer)
        (_analyze_transformer c) self ->
      classical_available self = true ->
      value_of (_analyze_baseline c self) = Ok r ->
      value_of out = Ok r /\ none_of is_lexicon_call (trace_of out) = true)
  /\ (unavailable_or_fails (neural_available self use_transformer)
        (_analyze_transformer c) self ->
      unavailable_or_fails (classical_available self) (_analyze_baseline c) self ->
      lexicon_available self = true ->
      value_of (_analyze_vader c self) = Ok r ->
      value_of out = Ok r).
Proof.
  cbv zeta. intro Hc.
  destruct (analyze_outcome U self s use_transformer)
    as [(Hc' & _)|(_ & t0 & Ht0 & E)]; [congruence|].
  rewrite E. set (c := normalized U self (PyStr s)) in *.
  tier_traces self c. bridge_trace t0 Ht0.
  unfold unavailable_or_fails, fails, stage, cascade, trace_of, value_of in *.
  simpl fst. simpl snd.
  destruct (_analyze_transformer c self) as [[t1 s1] r1].
  destruct (_analyze_baseline c self) as [[t2 s2] r2].
  destruct (_analyze_vader c self) as [[t3 s3] r3].
  simpl in *.
  split; [|split].
  - intros -> ->. simpl. repeat split; solve_none.
  - intros Hn1 -> ->.
    destruct Hn1 as [->|(e & ->)]; [|destruct (neural_available self use_transformer)];
      simpl; split; solve_none.
  - intros Hn1 Hn2 -> ->.
    destruct Hn1 as [->|(e & ->)]; [|destruct (neural_available self use_transformer)];
      (destruct Hn2 as [->|(e' & ->)]; [|destruct (classical_available self)]);
      reflexivity.
Qed.

Lemma analyze_first_answer_witness :
  value_of (analyze ascii_only (PyStr (of_string "Good!")) true sample_analyzer)
  = Ok {| sentiment := Positive; confidence := 7 # 10;
          scores := {| negative := 3 # 10; neutral := 0; positive := 7 # 10 |};
          model_used := TagTransformer |}
  /\ none_of is_classical_call
       (trace_of (analyze ascii_only (PyStr (of_string "Good!")) true sample_analyzer)) = true
  /\ none_of is_lexicon_call
       (trace_of (analyze ascii_only (PyStr (of_string "Good!")) true sample_analyzer)) = true.
Proof.
  apply (analyze_first_answer ascii_only sample_analyzer (of_string "Good!") true);
    [discriminate|reflexivity|reflexivity].
Defined.

(** X6. Where a result of [analyze] comes from can be read off it: a
    result tagged Transformer, Baseline or VADER-fallback is the result
    of that tier on the normalised text, and a result tagged None is the
    neutral default. So the label Neutral comes from the lexicon tier or
    is the default, never from the neural or the classical tier. *)
Theorem analyze_provenance (U : Unicode) (self : SentimentAnalyzer) (s : str)
    (use_transformer : bool) (r : SentimentResult) :
  let c := normalized U self (PyStr s) in
  value_of (analyze U (PyStr s) use_transformer self) = Ok r ->
  (model_used r = TagTransformer ->
   neural_available self use_transformer = true
   /\ value_of (_analyze_transformer c self) = Ok r)
  /\ (model_used r = TagBaseline ->
      classical_available self = true /\ value_of (_analyze_baseline c self) = Ok r)
  /\ (model_used r = TagVADER ->
      lexicon_available self = true /\ value_of (_analyze_vader c self) = Ok r)
  /\ (model_used r = TagNone -> r = default_result)
  /\ (sentiment r = Neutral -> model_used r = TagVADER \/ r = default_result).
Proof.
  cbv zeta.
  destruct (analyze_outcome U self s use_transformer)
    as [(Hc & Hv & _)|(Hc & t0 & _ & E)].
  - rewrite Hv. intro H. inversion H; subst r.
    repeat split; try discriminate; auto.
  - rewrite E. set (c := normalized U self (PyStr s)) in *.
    pose proof (transformer_tag self c) as T1.
    pose proof (baseline_tag self c) as T2.
    pose proof (vader_tag self c) as T3.
    pose proof (@transformer_never_neutral self c) as N1.
    pose proof (@baseline_never_neutral self c) as N2.
    unfold stage, cascade, trace_of, value_of in *. simpl fst. simpl snd.
    destruct (_analyze_transformer c self) as [[t1 s1] r1].
    destruct (_analyze_baseline c self) as [[t2 s2] r2].
    destruct (_analyze_vader c self) as [[t3 s3] r3].
    simpl in *.
    destruct (neural_available self use_transformer);
      destruct (classical_available self);
      destruct (lexicon_available self);
      destruct r1 as [a1|]; destruct r2 as [a2|]; destruct r3 as [a3|]; simpl;
      intro H; inversion H; subst r;
      try (specialize (T1 _ eq_refl)); try (specialize (T2 _ eq_refl));
      try (specialize (T3 _ eq_refl));
      try (specialize (N1 _ eq_refl)); try (specialize (N2 _ eq_refl));
      repeat split; intros; auto; try congruence; try discriminate;
      try (exfalso; tauto); try (left; assumption).
Qed.

Lemma analyze_provenance_witness :
  lexicon_available flaky_analyzer = true
  /\ value_of (_analyze_vader
                 (normalized ascii_only flaky_analyzer (PyStr (of_string "Good!")))
                 flaky_analyzer)
     = Ok {| sentiment := Neutral; confidence := 8 # 10;
             scores := {| negative := 1 # 10; neutral := 8 # 10; positive := 1 # 10 |};
             model_used := TagVADER |}.
Proof.
  apply (@analyze_provenance ascii_only flaky_analyzer (of_string "Good!") true
           {| sentiment := Neutral; confidence := 8 # 10;
              scores := {| negative := 1 # 10; neutral := 8 # 10; positive := 1 # 10 |};
              model_used := TagVADER |});
    reflexivity.
Defined.

Lemma transformer_called_on (self : SentimentAnalyzer) (c : str) :
  forallb (fun e => match called_on e with
                    | Some x => str_eqb x c
                    | None => true
                    end)
          (trace_of (_analyze_transformer c self)) = true.
Proof.
  unfold _analyze_transformer, getitem. unfold_monad.
  repeat (step; simpl; rewrite ?str_eqb_refl; try reflexivity).
Qed.

Lemma baseline_called_on (self : SentimentAnalyzer) (c : str) :
  forallb (fun e => match called_on e with
                    | Some x => str_eqb x c
                    | None => true
                    end)
          (trace_of (_analyze_baseline c self)) = true.
Proof.
  unfold _analyze_baseline, getitem. unfold_monad.
  repeat (step; simpl; rewrite ?str_eqb_refl; try reflexivity).
Qed.

Lemma vader_called_on (self : SentimentAnalyzer) (c : str) :
  forallb (fun e => match called_on e with
                    | Some x => str_eqb x c
                    | None => true
                    end)
          (trace_of (_analyze_vader c self)) = true.
Proof.
  unfold _analyze_vader. unfold_monad.
  repeat (step; simpl; rewrite ?str_eqb_refl; try reflexivity).
Qed.

Lemma no_tier_call_called_on (c : str) (t : list event) :
  no_tier_call t = true ->
  forallb (fun e => match called_on e with
                    | Some x => str_eqb x c
                    | None => true
                    end) t = true.
Proof.
  unfold no_tier_call. rewrite !forallb_forall. intros H e He.
  specialize (H e He). destruct e as [| |?|[|? [|? ?]]|?|?|?|?]; simpl in *;
    try reflexivity; discriminate.
Qed.

(** X7. Every call [analyze] makes into a tokenizer, a vectorizer or the
    lexicon analyzer is made on the normalised text, never on the raw or
    the translated one. *)
Theorem analyze_calls_on_normalized (U : Unicode) (self : SentimentAnalyzer) (s : str)
    (use_transformer : bool) (e : event) (x : str) :
  In e (trace_of (analyze U (PyStr s) use_transformer self)) ->
  called_on e = Some x ->
  x = normalized U self (PyStr s).
Proof.
  intros He Hx.
  assert (A : forallb (fun e => match called_on e with
                                | Some x => str_eqb x (normalized U self (PyStr s))
                                | None => true
                                end)
                (trace_of (analyze U (PyStr s) use_transformer self)) = true).
  { destruct (analyze_outcome U self s use_transformer)
      as [(Hc & Hv & Ht)|(Hc & t0 & Ht0 & E)].
    - now apply no_tier_call_called_on.
    - rewrite E. set (c := normalized U self (PyStr s)) in *.
      pose proof (transformer_called_on self c) as C1.
      pose proof (baseline_called_on self c) as C2.
      pose proof (vader_called_on self c) as C3.
      pose proof (no_tier_call_called_on c t0 Ht0) as C0.
      unfold stage, cascade, trace_of, value_of in *. simpl fst.
      destruct (_analyze_transformer c self) as [[t1 s1] r1].
      destruct (_analyze_baseline c self) as [[t2 s2] r2].
      destruct (_analyze_vader c self) as [[t3 s3] r3].
      simpl in *.
      destruct (neural_available self use_transformer);
        destruct (classical_available self);
        destruct (lexicon_available self);
        destruct r1; destruct r2; destruct r3; simpl;
        rewrite ?forallb_app, ?C0, ?C1, ?C2, ?C3; reflexivity. }
  rewrite forallb_forall in A. specialize (A e He). rewrite Hx in A.
  now apply str_eqb_eq in A.
Qed.

Lemma analyze_calls_on_normalized_witness :
  of_string "good!" = normalized ascii_only flaky_analyzer (PyStr (of_string "  GOOD! @bob "))
  /\ In (EvPolarityScores (of_string "good!"))
        (trace_of (analyze ascii_only (PyStr (of_string "  GOOD! @bob ")) true flaky_analyzer)).
Proof.
  assert (H : In (EvPolarityScores (of_string "good!"))
                (trace_of (analyze ascii_only (PyStr (of_string "  GOOD! @bob ")) true
                             flaky_analyzer)))
    by (vm_compute; tauto).
  split; [|exact H].
  exact (@analyze_calls_on_normalized ascii_only flaky_analyzer
           (of_string "  GOOD! @bob ") true _ _ H eq_refl).
Defined.

(** ** Bounds of the probability vectors *)

(** X8. A model that yields fewer than three class probabilities makes
    its tier fail with [IndexError] (which [analyze] catches, falling
    through to the next tier): so for the neural tier, and for the
    classical tier when the first row of [predict_proba] is short or
    when [predict] returns an empty array, though the prediction itself
    is not used. *)
Theorem short_probabilities_raise (self : SentimentAnalyzer) (c : str) :
  (forall tok mdl ids probs,
      tokenizer self = Some tok -> model self = Some mdl ->
      tokenizer_call tok c = Ok ids -> model_call mdl ids = Ok probs ->
      (length probs < 3)%nat ->
      value_of (_analyze_transformer c self) = Raise IndexError)
  /\ (forall vec clf X p preds row rows,
         baseline_vectorizer self = Some vec -> baseline_model self = Some clf ->
         transform vec [c] = Ok X -> predict clf X = Ok (p :: preds) ->
         predict_proba clf X = Ok (row :: rows) ->
         (length row < 3)%nat ->
         value_of (_analyze_baseline c self) = Raise IndexError)
  /\ (forall vec clf X,
         baseline_vectorizer self = Some vec -> baseline_model self = Some clf ->
         transform vec [c] = Ok X -> predict clf X = Ok [] ->
         value_of (_analyze_baseline c self) = Raise IndexError).
Proof.
  split; [|split].
  - intros tok mdl ids probs Ht Hm Hc Hp Hl.
    unfold _analyze_transformer, getitem. unfold_monad.
    rewrite Ht, Hc, Hm, Hp. simpl.
    destruct probs as [|a [|b [|d rest]]]; simpl in *; try reflexivity; lia.
  - intros vec clf X p preds row rows Hv Hm Ht Hp Hpp Hl.
    unfold _analyze_baseline, getitem. unfold_monad.
    rewrite Hv, Ht, Hm, Hp. simpl. rewrite Hpp. simpl.
    destruct row as [|a [|b [|d rest]]]; simpl in *; try reflexivity; lia.
  - intros vec clf X Hv Hm Ht Hp.
    unfold _analyze_baseline, getitem. unfold_monad.
    rewrite Hv, Ht, Hm, Hp. reflexivity.
Qed.

Lemma short_probabilities_raise_witness :
  value_of (_analyze_transformer (of_string "good")
              {| model := Some {| model_call := fun _ => Ok [4 # 10; 6 # 10] |};
                 tokenizer := Some {| tokenizer_call := fun _ => Ok [101%N] |};
                 baseline_model := None; baseline_vectorizer := None;
                 vader_analyzer := None; translator := sample_translator |})
  = Raise IndexError.
Proof.
  apply (proj1 (short_probabilities_raise
                  {| model := Some {| model_call := fun _ => Ok [4 # 10; 6 # 10] |};
                     tokenizer := Some {| tokenizer_call := fun _ => Ok [101%N] |};
                     baseline_model := None; baseline_vectorizer := None;
                     vader_analyzer := None; translator := sample_translator |}
                  (of_string "good"))
         {| tokenizer_call := fun _ => Ok [101%N] |}
         {| model_call := fun _ => Ok [4 # 10; 6 # 10] |}
         [101%N] [4 # 10; 6 # 10]); try reflexivity.
  simpl. lia.
Defined.

(** ** Startup *)





(** X11. [get_analyzer] constructs the analyzer at most once: after a
    call that returned an analyzer, every later call returns that same
    analyzer and loads nothing, whatever the environment has become; a
    call whose construction raised leaves the global unset, so the next
    call constructs again. *)
Theorem get_analyzer_once (E E' : Environment) (g : option SentimentAnalyzer) :
  (forall a, snd (get_analyzer E g) = Ok a ->
             snd (fst (get_analyzer E g)) = Some a
             /\ get_analyzer E' (snd (fst (get_analyzer E g))) = ([], Some a, Ok a))
  /\ (forall e, snd (get_analyzer E g) = Raise e ->
                g = None /\ snd (fst (get_analyzer E g)) = None
                /\ get_analyzer E' (snd (fst (get_analyzer E g))) = get_analyzer E' None).
Proof.
  unfold get_analyzer. destruct g as [a0|]; simpl.
  - split; [intros a H; inversion H; subst; auto|discriminate].
  - destruct (__init__ E) as [[t self] [[]|e0]]; simpl.
    + split; [intros a H; inversion H; subst; auto|discriminate].
    + split; [discriminate|intros e H; auto].
Qed.

Lemma get_analyzer_once_witness :
  snd (fst (get_analyzer bare_environment None)) = Some (loaded bare_environment)
  /\ get_analyzer unbound_environment (snd (fst (get_analyzer bare_environment None)))
     = ([], Some (loaded bare_environment), Ok (loaded bare_environment)).
Proof.
  apply (proj1 (get_analyzer_once bare_environment unbound_environment None)).
  reflexivity.
Defined.

(** ** A translation that is not a text *)

Open Scope Q_scope.

(** X12. When the translator answers with something that is not a string
    (or with a string that normalises to nothing), [analyze] returns the
    neutral default and calls no classifier tier. *)
Theorem analyze_untranslatable (U : Unicode) (self : SentimentAnalyzer) (s : str)
    (use_transformer : bool) (v : pyval) :
  forallb is_space s = false -> isascii s = false ->
  translate (translator self) s = Ok v ->
  clean_text U v = [] ->
  analyze U (PyStr s) use_transformer self = ([EvTranslate s], self, Ok default_result).
Proof.
  intros Hb Ha Ht Hc.
  unfold analyze, translate_if_needed, translator_translate. unfold_monad.
  rewrite !is_blank_str, Hb. simpl. rewrite ?is_blank_str, ?Hb. simpl.
  rewrite Ha, Ht. simpl. rewrite Hc. reflexivity.
Qed.

Lemma analyze_untranslatable_witness :
  analyze ascii_only (PyStr tres_bien) true
    {| model := model sample_analyzer; tokenizer := tokenizer sample_analyzer;
       baseline_model := baseline_model sample_analyzer;
       baseline_vectorizer := baseline_vectorizer sample_analyzer;
       vader_analyzer := None;
       translator := {| translate := fun _ => Ok PyNone |} |}
  = ([EvTranslate tres_bien],
     {| model := model sample_analyzer; tokenizer := tokenizer sample_analyzer;
        baseline_model := baseline_model sample_analyzer;
        baseline_vectorizer := baseline_vectorizer sample_analyzer;
        vader_analyzer := None;
        translator := {| translate := fun _ => Ok PyNone |} |},
     Ok default_result).
Proof.
  apply (@analyze_untranslatable ascii_only _ tres_bien true PyNone); reflexivity.
Defined.

Close Scope Q_scope.

(** ** The word-frequency table as a dictionary *)

Lemma NoDup_filter {A : Type} (p : A -> bool) (l : list A) :
  NoDup l -> NoDup (filter p l).
Proof.
  induction 1 as [|x l Hx Hl IH]; simpl; [constructor|].
  destruct (p x); [|exact IH].
  constructor; [|exact IH]. intro H. apply filter_In in H. tauto.
Qed.

Lemma NoDup_firsts (ws : list str) : NoDup (firsts ws).
Proof.
  induction ws as [|w t IH]; simpl; constructor.
  - intro H. apply filter_In in H. destruct H as [_ H].
    rewrite str_eqb_refl in H. discriminate.
  - now apply NoDup_filter.
Qed.

Lemma NoDup_firstn {A : Type} (k : nat) (l : list A) : NoDup l -> NoDup (firstn k l).
Proof.
  intro H. rewrite <- (firstn_skipn k l) in H. now apply NoDup_app_remove_r in H.
Qed.

Lemma count_pos (w : str) (ws : list str) : In w ws -> 1 <= count w ws.
Proof.
  induction ws as [|x t IH]; simpl; [tauto|].
  rewrite count_cons. intros [->|H].
  - rewrite str_eqb_refl. lia.
  - specialize (IH H). destruct (str_eqb w x); lia.
Qed.

Lemma tokens_strings (U : Unicode) (texts : list pyval) :
  tokens U (filter is_str texts) = tokens U texts.
Proof.
  unfold tokens. f_equal.
  induction texts as [|v l IH]; [reflexivity|].
  destruct v; simpl; now rewrite IH.
Qed.

Lemma ranked_entry (toks : list str) (k : nat) (w : str) (n : nat) :
  In (w, n) (firstn k (sorted_desc (tally toks))) ->
  n = count w toks /\ In w toks.
Proof.
  intro H.
  assert (Hr : In (w, n) (sorted_desc (tally toks))).
  { rewrite <- (firstn_skipn k (sorted_desc (tally toks))).
    apply in_or_app. now left. }
  apply (Permutation_in _ (sorted_desc_perm _)) in Hr.
  unfold tally in Hr. apply in_map_iff in Hr. destruct Hr as (w' & E & Hw).
  inversion E; subst. split; [reflexivity|now apply in_firsts].
Qed.

(** X13. The table [get_word_frequencies] returns is a dictionary: its
    words are pairwise distinct, each has a count of at least one, is
    longer than two characters and is no stopword. Entries of the input
    that are not strings contribute nothing. *)
Theorem word_frequencies_dict (U : Unicode) (texts : list pyval) :
  NoDup (map fst (get_word_frequencies U texts))
  /\ (forall w n, In (w, n) (get_word_frequencies U texts) ->
                  1 <= n /\ 3 <= length w /\ in_set w stop_words = false)
  /\ get_word_frequencies U (filter is_str texts) = get_word_frequencies U texts.
Proof.
  rewrite !get_word_frequencies_spec, tokens_strings.
  set (toks := tokens U texts).
  split; [|split; [|reflexivity]].
  - rewrite <- firstn_map. apply NoDup_firstn.
    apply (Permutation_NoDup (l := map fst (tally toks))).
    + apply Permutation_map, Permutation_sym, sorted_desc_perm.
    + unfold tally. rewrite map_map. simpl. rewrite map_id. apply NoDup_firsts.
  - intros w n H. apply ranked_entry in H. destruct H as [-> Hw].
    split; [now apply count_pos|].
    unfold toks, tokens in Hw. apply filter_In in Hw. destruct Hw as [_ Hq].
    apply qualifies_spec in Hq. tauto.
Qed.

Lemma count_absent (w : str) (ws : list str) : in_set w ws = false -> count w ws = 0.
Proof.
  unfold in_set. induction ws as [|x t IH]; [reflexivity|]. simpl.
  intro H. apply orb_false_iff in H. destruct H as [Hx Ht].
  rewrite count_cons, Hx. auto.
Qed.

Lemma in_set_In (w : str) (l : list str) : in_set w l = true <-> In w l.
Proof.
  unfold in_set. rewrite existsb_exists. split.
  - intros (x & Hx & E). apply str_eqb_eq in E. now subst.
  - intro H. exists w. split; [exact H|apply str_eqb_refl].
Qed.

Lemma sum_split (g : str -> nat) (w : str) (l : list str) :
  NoDup l ->
  list_sum (map g l)
  = (if in_set w l then g w else 0)
    + list_sum (map g (filter (fun x => negb (str_eqb w x)) l)).
Proof.
  induction 1 as [|x l Hx Hl IH]; [reflexivity|].
  simpl. destruct (str_eqb w x) eqn:E; simpl.
  - apply str_eqb_eq in E. subst x.
    assert (Hn : in_set w l = false).
    { destruct (in_set w l) eqn:Hi; [|reflexivity].
      apply in_set_In in Hi. contradiction. }
    unfold in_set in *. simpl. rewrite IH, Hn. reflexivity.
  - unfold in_set in *. simpl. rewrite ?E. simpl. rewrite IH. lia.
Qed.

Lemma sum_counts_firsts (ws : list str) :
  list_sum (map (fun w => count w ws) (firsts ws)) = length ws.
Proof.
  induction ws as [|w t IH]; [reflexivity|].
  simpl firsts. simpl map. simpl list_sum at 1.
  rewrite count_cons, str_eqb_refl.
  rewrite (sum_split (fun k => count k t) w (NoDup_firsts t)) in IH.
  assert (E : map (fun k => count k (w :: t))
                (filter (fun x => negb (str_eqb w x)) (firsts t))
              = map (fun k => count k t)
                  (filter (fun x => negb (str_eqb w x)) (firsts t))).
  { apply map_ext_in. intros k Hk. apply filter_In in Hk. destruct Hk as [_ Hk].
    apply negb_true_iff in Hk. now rewrite count_cons, (str_eqb_sym k w), Hk. }
  rewrite E. simpl length.
  destruct (in_set w (firsts t)) eqn:Hi.
  - lia.
  - assert (Hc : count w t = 0).
    { apply count_absent. destruct (in_set w t) eqn:Ht; [|reflexivity].
      apply in_set_In, in_firsts, in_set_In in Ht. congruence. }
    lia.
Qed.

Lemma list_sum_perm (l l' : list nat) : Permutation l l' -> list_sum l = list_sum l'.
Proof. induction 1; simpl; lia. Qed.

Lemma list_sum_firstn (k : nat) (l : list nat) : list_sum (firstn k l) <= list_sum l.
Proof.
  rewrite <- (firstn_skipn k l) at 2. rewrite list_sum_app. lia.
Qed.

(** X14. The counts of the table add up to no more than the number of
    counted tokens, and to exactly that number when at most 50 distinct
    words qualify: then no occurrence is lost. *)
Theorem word_frequencies_total (U : Unicode) (texts : list pyval) :
  list_sum (map snd (get_word_frequencies U texts)) <= length (tokens U texts)
  /\ (length (firsts (tokens U texts)) <= 50 ->
      list_sum (map snd (get_word_frequencies U texts)) = length (tokens U texts)).
Proof.
  rewrite get_word_frequencies_spec. set (toks := tokens U texts).
  assert (S : list_sum (map snd (sorted_desc (tally toks))) = length toks).
  { rewrite (list_sum_perm (Permutation_map snd (sorted_desc_perm (tally toks)))).
    unfold tally. rewrite map_map. simpl. apply sum_counts_firsts. }
  split.
  - rewrite <- S, <- firstn_map. apply list_sum_firstn.
  - intro H. rewrite firstn_all2; [exact S|].
    rewrite (Permutation_length (sorted_desc_perm _)). unfold tally.
    now rewrite length_map.
Qed.

Lemma word_frequencies_total_witness :
  list_sum (map snd (get_word_frequencies ascii_only
                       [PyStr (of_string "the cat sat"); PyNone;
                        PyStr (of_string "the cat ran fast")]))
  = length (tokens ascii_only
              [PyStr (of_string "the cat sat"); PyNone;
               PyStr (of_string "the cat ran fast")]).
Proof.
  apply (word_frequencies_total ascii_only
           [PyStr (of_string "the cat sat"); PyNone;
            PyStr (of_string "the cat ran fast")]).
  vm_compute. lia.
Defined.

(** * Properties of the HTTP layer *)

Open Scope Q_scope.

Ltac unfold_server :=
  unfold Server.try_except, Server.bind, Server.ret, Server.raise, Server.call,
    Server.log, Server.internal_error in *.

(** X15. [autocorrect_text] never raises: it returns what TextBlob
    proposes and, when TextBlob fails, the text as it came. *)
Theorem autocorrect_text_safe (W : Server.World) (text : str) :
  returns (Server.autocorrect_text W text)
  /\ (forall s, Server.textblob_correct W text = Ok s ->
                Server.autocorrect_text W text = ([Server.Correct text], Server.Return s))
  /\ (forall e, Server.textblob_correct W text = Raise e ->
                snd (Server.autocorrect_text W text) = Server.Return text).
Proof.
  unfold returns, Server.autocorrect_text. unfold_server.
  destruct (Server.textblob_correct W text) as [s|e]; simpl.
  - repeat split; eauto; intros; congruence.
  - repeat split; eauto; intros; congruence.
Qed.

Lemma starts_with_refl_app (p r : str) : starts_with p (p ++ r) = true.
Proof. apply starts_with_app. now exists r. Qed.

(** X16. The text [format_comment_with_translation] returns always
    begins with the original text; an empty or pure-ASCII text comes
    back unchanged without a call to the translator, and a failing
    translator is not an error. *)
Theorem format_comment_keeps_original (W : Server.World) (text : str) :
  (exists shown, snd (Server.format_comment_with_translation W text) = Server.Return shown
                 /\ prefix_of text shown)
  /\ (is_empty text = true \/ isascii text = true ->
      Server.format_comment_with_translation W text = ([], Server.Return text))
  /\ (forall e, isascii text = false -> Server.display_translate W text = Raise e ->
      snd (Server.format_comment_with_translation W text) = Server.Return text).
Proof.
  assert (P : prefix_of text text) by (exists []; now rewrite app_nil_r).
  unfold Server.format_comment_with_translation. unfold_server.
  split; [|split].
  - destruct (is_empty text); simpl; [eauto|].
    destruct (isascii text); simpl; [eauto|].
    destruct (Server.display_translate W text) as [tr|e]; simpl; [|eauto].
    eexists. split; [reflexivity|]. eexists. reflexivity.
  - intros [H|H]; rewrite H; [reflexivity|].
    destruct (is_empty text); reflexivity.
  - intros e Ha Ht. rewrite Ha, Ht.
    destruct (is_empty text); reflexivity.
Qed.

(** X17. How [fetch_content_from_url] routes a URL. A URL with none of
    the site markers is never scraped and yields the canned reel
    comments. What the scraper returns is returned as it is. For a video
    URL the answer is the scraped content or the 503 error, never canned
    data. For any other marked URL whose scrape gives nothing or raises,
    the canned data stands in: the reviews for a shop URL, the reel
    comments otherwise. *)
Theorem fetch_content_routing (W : Server.World) (url : str) :
  (Server.is_scraped_url url = false ->
   Server.fetch_content_from_url W url = ([Server.Log INFO], Server.Return Server.mock_comments))
  /\ (forall c, Server.is_scraped_url url = true ->
                Server.scrape_youtube_sync W url = Ok (Some c) ->
                snd (Server.fetch_content_from_url W url) = Server.Return c)
  /\ (Server.is_video_url url = true ->
      (forall c, Server.scrape_youtube_sync W url <> Ok (Some c)) ->
      snd (Server.fetch_content_from_url W url)
      = Server.Raised (Server.HTTPException 503 Server.scrape_unavailable))
  /\ (forall c, Server.is_video_url url = true ->
                snd (Server.fetch_content_from_url W url) = Server.Return c ->
                Server.scrape_youtube_sync W url = Ok (Some c))
  /\ (Server.is_video_url url = false ->
      (forall c, Server.scrape_youtube_sync W url <> Ok (Some c)) ->
      snd (Server.fetch_content_from_url W url)
      = Server.Return (if Server.is_shop_url url then Server.mock_reviews
                       else Server.mock_comments)).
Proof.
  assert (V : Server.is_video_url url = true -> Server.is_scraped_url url = true).
  { unfold Server.is_video_url, Server.is_scraped_url.
    intro H. apply orb_true_iff in H. destruct H as [H|H]; rewrite H;
      rewrite ?orb_true_r; reflexivity. }
  assert (N : Server.is_scraped_url url = false ->
              Server.is_video_url url = false /\ Server.is_shop_url url = false).
  { unfold Server.is_video_url, Server.is_shop_url, Server.is_scraped_url.
    rewrite !orb_false_iff. tauto. }
  unfold Server.fetch_content_from_url, Server.try_scrape. unfold_server.
  split; [|split; [|split; [|split]]].
  - intro H. destruct (N H) as [-> ->]. rewrite H. reflexivity.
  - intros c -> ->. reflexivity.
  - intros Hv Hn. rewrite (V Hv), Hv. simpl.
    destruct (Server.scrape_youtube_sync W url) as [[c|]|e]; simpl;
      [exfalso; now apply (Hn c)|reflexivity|reflexivity].
  - intros c Hv. rewrite (V Hv), Hv. simpl.
    destruct (Server.scrape_youtube_sync W url) as [[c'|]|e]; simpl;
      intro H; inversion H; reflexivity.
  - intros Hv Hn. rewrite Hv.
    destruct (Server.is_scraped_url url); simpl.
    + destruct (Server.scrape_youtube_sync W url) as [[c|]|e]; simpl;
        [exfalso; now apply (Hn c)| |];
        destruct (Server.is_shop_url url); reflexivity.
    + destruct (Server.is_shop_url url); reflexivity.
Qed.

Lemma fetch_content_routing_witness :
  Server.fetch_content_from_url sample_world (of_string "https://example.org/post/1")
  = ([Server.Log INFO], Server.Return Server.mock_comments)
  /\ snd (Server.fetch_content_from_url sample_world
            (of_string "https://www.youtube.com/watch?v=abc"))
     = Server.Raised (Server.HTTPException 503 Server.scrape_unavailable)
  /\ snd (Server.fetch_content_from_url sample_world
            (of_string "https://www.instagram.com/p/abc/"))
     = Server.Return Server.mock_comments.
Proof.
  split; [|split].
  - apply (fetch_content_routing sample_world (of_string "https://example.org/post/1")).
    reflexivity.
  - apply (fetch_content_routing sample_world
             (of_string "https://www.youtube.com/watch?v=abc"));
      [reflexivity|discriminate].
  - apply (proj2 (proj2 (proj2 (proj2
             (fetch_content_routing sample_world
                (of_string "https://www.instagram.com/p/abc/"))))));
      [reflexivity|discriminate].
Defined.

(** X18. [generate_llm_summary] never raises; without a client it
    answers the fixed notice and calls nothing; and only the first twenty
    texts reach the prompt. *)
Theorem llm_summary_safe (W : Server.World) (title description : str) (texts : list str) :
  returns (Server.generate_llm_summary W title description texts)
  /\ (Server.llm_client W = None ->
      Server.generate_llm_summary W title description texts
      = ([], Server.Return
               (of_string "Summary unavailable: OpenRouter API Key not configured.")))
  /\ Server.generate_llm_summary W title description texts
     = Server.generate_llm_summary W title description (firstn 20 texts).
Proof.
  unfold returns, Server.generate_llm_summary. unfold_server.
  split; [|split].
  - destruct (Server.llm_client W) as [create|]; [|eexists; reflexivity]. cbv zeta.
    match goal with |- context [create ?p] => destruct (create p) end;
      simpl; eexists; reflexivity.
  - intros ->. reflexivity.
  - now rewrite firstn_firstn, Nat.min_id.
Qed.

(** ** The loops of the endpoints *)

Close Scope Q_scope.

Lemma how_many_app (p : Server.effect -> bool) (t t' : list Server.effect) :
  how_many p (t ++ t') = how_many p t + how_many p t'.
Proof. unfold how_many. now rewrite filter_app, length_app. Qed.

Lemma how_many_cons (p : Server.effect -> bool) (e : Server.effect)
    (t : list Server.effect) :
  how_many p (e :: t) = (if p e then 1 else 0) + how_many p t.
Proof. unfold how_many. cbn [filter]. now destruct (p e). Qed.

Lemma how_many_nil (p : Server.effect -> bool) : how_many p [] = 0.
Proof. reflexivity. Qed.

Ltac count_effects :=
  rewrite ?how_many_app, ?how_many_cons, ?how_many_nil in *;
  cbn [is_analyze is_insert is_scrape is_translate is_complete] in *.

(** A loop whose rounds all return, returns: one value per element, the
    effects of the rounds in order. *)
Lemma for_each_returns {A B : Type} (f : A -> Server.S B) (l : list A) :
  (forall x, In x l -> returns (f x)) ->
  exists ys,
    Server.for_each f l = (concat (map (fun x => fst (f x)) l), Server.Return ys)
    /\ Forall2 (fun x y => snd (f x) = Server.Return y) l ys.
Proof.
  induction l as [|x l IH]; intro H.
  - exists []. split; [reflexivity|constructor].
  - destruct (H x (or_introl eq_refl)) as (y & Hy).
    destruct IH as (ys & E & F); [intros; apply H; now right|].
    exists (y :: ys). split; [|constructor; assumption].
    simpl. unfold Server.bind. destruct (f x) as [t r]. simpl in Hy. subst r.
    rewrite E. simpl. now rewrite app_nil_r.
Qed.

(** A loop that stops at a round that raises: its effects are those of
    the rounds run. *)
Lemma for_each_how_many {A B : Type} (p : Server.effect -> bool)
    (f : A -> Server.S B) (l : list A) (k : nat) :
  (forall x, In x l -> how_many p (fst (f x)) <= k) ->
  how_many p (fst (Server.for_each f l)) <= k * length l.
Proof.
  induction l as [|x l IH]; intro H; [simpl; unfold how_many; simpl; lia|].
  pose proof (H x (or_introl eq_refl)) as Hx.
  specialize (IH (fun z Hz => H z (or_intror Hz))).
  cbn [Server.for_each length]. rewrite Nat.mul_succ_r. unfold Server.bind.
  destruct (f x) as [t [y|e]]; cbn [fst] in *; [|lia].
  destruct (Server.for_each f l) as [t' [ys|e]]; cbn [fst Server.ret] in *;
    rewrite ?how_many_app; try (unfold how_many at 3; cbn [filter length]); lia.
Qed.

Lemma Forall2_length_eq {A B : Type} (R : A -> B -> Prop) (l : list A) (l' : list B) :
  Forall2 R l l' -> length l = length l'.
Proof. induction 1; simpl; congruence. Qed.

(** One round of analysis: it always returns (the analyzer raises on no
    string), makes one call to the analyzer and stores nothing. *)
Lemma analysis_round (W : Server.World) (a : SentimentAnalyzer) (text : str) :
  exists t corrected r,
    Server.bulk_step W a text
    = (t, Server.Return
            ({| Server.res_text := firstn 200 text;
                Server.res_sentiment := Server.label_str (sentiment r);
                Server.res_confidence := confidence r;
                Server.res_scores := scores r;
                Server.res_model_used := Server.tag_str (model_used r) |},
             Server.label_str (sentiment r)))
    /\ value_of (analyze (Server.unicode W) (PyStr corrected) true a) = Ok r
    /\ snd (Server.autocorrect_text W text) = Server.Return corrected
    /\ how_many is_analyze t = 1
    /\ how_many is_insert t = 0.
Proof.
  unfold Server.bulk_step, Server.autocorrect_text, Server.analyzer_analyze.
  unfold_server.
  destruct (Server.textblob_correct W text) as [s|e]; simpl.
  - destruct (analyze_str_returns (Server.unicode W) a s true) as (r & Hr).
    rewrite Hr. simpl. do 3 eexists. repeat split; eauto.
  - destruct (analyze_str_returns (Server.unicode W) a text true) as (r & Hr).
    rewrite Hr. simpl. do 3 eexists. repeat split; eauto.
Qed.

Lemma autocorrect_text_quiet (W : Server.World) (text : str) :
  exists t c, Server.autocorrect_text W text = (t, Server.Return c)
              /\ how_many is_analyze t = 0 /\ how_many is_insert t = 0.
Proof.
  unfold Server.autocorrect_text. unfold_server.
  destruct (Server.textblob_correct W text) as [s|e]; simpl;
    do 2 eexists; repeat split; reflexivity.
Qed.

Lemma format_comment_quiet (W : Server.World) (text : str) :
  exists t shown, Server.format_comment_with_translation W text = (t, Server.Return shown)
                  /\ how_many is_analyze t = 0 /\ how_many is_insert t = 0.
Proof.
  unfold Server.format_comment_with_translation. unfold_server.
  destruct (is_empty text); simpl; [do 2 eexists; repeat split; reflexivity|].
  destruct (isascii text); simpl; [do 2 eexists; repeat split; reflexivity|].
  destruct (Server.display_translate W text) as [tr|e]; simpl;
    do 2 eexists; repeat split; reflexivity.
Qed.

Lemma llm_summary_quiet (W : Server.World) (title description : str) (texts : list str) :
  exists t s, Server.generate_llm_summary W title description texts = (t, Server.Return s)
              /\ how_many is_analyze t = 0 /\ how_many is_insert t = 0.
Proof.
  unfold Server.generate_llm_summary. unfold_server.
  destruct (Server.llm_client W) as [create|];
    [|do 2 eexists; repeat split; reflexivity]. cbv zeta.
  match goal with |- context [create ?p] => destruct (create p) end;
    simpl; do 2 eexists; repeat split; reflexivity.
Qed.

(** One round of the URL loop. *)
Lemma url_round (W : Server.World) (a : SentimentAnalyzer) (text : str) :
  exists t shown r,
    Server.url_step W a text
    = (t, Server.Return
            ({| Server.res_text := shown;
                Server.res_sentiment := Server.label_str (sentiment r);
                Server.res_confidence := confidence r;
                Server.res_scores := scores r;
                Server.res_model_used := Server.tag_str (model_used r) |},
             Server.label_str (sentiment r)))
    /\ snd (Server.format_comment_with_translation W text) = Server.Return shown
    /\ how_many is_analyze t = 1
    /\ how_many is_insert t = 0.
Proof.
  unfold Server.url_step, Server.analyzer_analyze.
  destruct (autocorrect_text_quiet W text) as (t1 & c & E1 & A1 & I1).
  destruct (format_comment_quiet W text) as (t3 & shown & E3 & A3 & I3).
  destruct (analyze_str_returns (Server.unicode W) a c true) as (r & Hr).
  rewrite E1, E3. unfold Server.bind, Server.call, Server.ret. rewrite Hr.
  do 3 eexists. split; [reflexivity|]. split; [reflexivity|].
  rewrite !how_many_app, A1, I1, A3, I3. split; reflexivity.
Qed.

(** The labels of a list of analysis results. *)
Lemma count_labels (ls : list label) :
  Server.list_count (of_string "Positive") (map Server.label_str ls)
  + Server.list_count (of_string "Negative") (map Server.label_str ls)
  + Server.list_count (of_string "Neutral") (map Server.label_str ls)
  = length ls.
Proof.
  unfold Server.list_count.
  induction ls as [|l ls IH]; [reflexivity|].
  destruct l; cbn [map length];
    match goal with |- context [filter ?f (?x :: ?r)] =>
      change (filter f (x :: r)) with (if f x then x :: filter f r else filter f r)
    end.
  all: repeat match goal with |- context [filter ?f (?x :: ?r)] =>
      change (filter f (x :: r)) with (if f x then x :: filter f r else filter f r)
    end.
  all: repeat match goal with |- context [str_eqb ?a ?b] =>
      let v := eval vm_compute in (str_eqb a b) in
      change (str_eqb a b) with v
    end; cbn [length]; lia.
Qed.

Lemma count_lowercase (ls : list label) :
  Server.list_count (of_string "positive") (map Server.label_str ls) = 0
  /\ Server.list_count (of_string "negative") (map Server.label_str ls) = 0.
Proof.
  unfold Server.list_count.
  induction ls as [|l ls [IH1 IH2]]; [split; reflexivity|].
  destruct l; cbn [map];
    repeat match goal with |- context [filter ?f (?x :: ?r)] =>
      change (filter f (x :: r)) with (if f x then x :: filter f r else filter f r)
    end;
    repeat match goal with |- context [str_eqb ?a ?b] =>
      let v := eval vm_compute in (str_eqb a b) in
      change (str_eqb a b) with v
    end; split; assumption.
Qed.

(** A loop of analysis rounds returns one entry per text, calls the
    analyzer once per text and stores nothing. *)
Lemma analysis_loop (f : str -> Server.S (Server.SentimentResultModel * str))
    (l : list str) :
  (forall x, exists t r lbl,
      f x = (t, Server.Return (r, Server.label_str lbl))
      /\ Server.res_sentiment r = Server.label_str lbl
      /\ how_many is_analyze t = 1 /\ how_many is_insert t = 0) ->
  exists t ys ls,
    Server.for_each f l = (t, Server.Return ys)
    /\ Forall2 (fun x y => snd (f x) = Server.Return y) l ys
    /\ how_many is_analyze t = length l
    /\ how_many is_insert t = 0
    /\ map snd ys = map Server.label_str ls
    /\ map Server.res_sentiment (map fst ys) = map Server.label_str ls.
Proof.
  intro H. induction l as [|x l IH].
  - exists [], [], []. repeat split; constructor.
  - destruct IH as (t' & ys & ls & E & F & A & I & L1 & L2).
    destruct (H x) as (t & r & lbl & Ex & Rs & Ax & Ix).
    exists (t ++ t' ++ []), ((r, Server.label_str lbl) :: ys), (lbl :: ls).
    split; [|split; [|split; [|split; [|split]]]].
    + cbn [Server.for_each]. unfold Server.bind. rewrite Ex, E. reflexivity.
    + constructor; [now rewrite Ex|assumption].
    + rewrite !how_many_app, Ax, A. unfold how_many. cbn [filter length]. lia.
    + rewrite !how_many_app, Ix, I. reflexivity.
    + cbn [map snd]. now rewrite L1.
    + cbn [map fst]. now rewrite L2, Rs.
Qed.

Lemma bulk_rounds (W : Server.World) (a : SentimentAnalyzer) (x : str) :
  exists t r lbl,
    Server.bulk_step W a x = (t, Server.Return (r, Server.label_str lbl))
    /\ Server.res_sentiment r = Server.label_str lbl
    /\ how_many is_analyze t = 1 /\ how_many is_insert t = 0.
Proof.
  destruct (analysis_round W a x) as (t & c & r & E & _ & _ & A & I).
  do 3 eexists. split; [exact E|]. repeat split; assumption.
Qed.

Lemma url_rounds (W : Server.World) (a : SentimentAnalyzer) (x : str) :
  exists t r lbl,
    Server.url_step W a x = (t, Server.Return (r, Server.label_str lbl))
    /\ Server.res_sentiment r = Server.label_str lbl
    /\ how_many is_analyze t = 1 /\ how_many is_insert t = 0.
Proof.
  destruct (url_round W a x) as (t & c & r & E & _ & A & I).
  do 3 eexists. split; [exact E|]. repeat split; assumption.
Qed.

(** The loop that stores history documents: it calls nothing but the
    database, at most once per document, and stops at the first insert
    that raises. *)
Lemma insert_loop (W : Server.World) (docs : list Server.HistoryDoc) :
  let m := Server.for_each (fun d => Server.call (Server.Insert d) (Server.insert_one W d))
                           docs in
  how_many is_analyze (fst m) = 0
  /\ how_many is_insert (fst m) <= length docs
  /\ match snd m with
     | Server.Return _ =>
         how_many is_insert (fst m) = length docs
         /\ Forall (fun d => exists u, Server.insert_one W d = Ok u) docs
     | Server.Raised e =>
         exists d e', In d docs /\ Server.insert_one W d = Raise e' /\ e = Server.Py e'
     end.
Proof.
  induction docs as [|d docs IH]; cbn zeta in *.
  - repeat split; try reflexivity; constructor.
  - cbn [Server.for_each length]. unfold Server.bind, Server.call.
    destruct (Server.insert_one W d) as [u|e'] eqn:Ed.
    + destruct (Server.for_each _ docs) as [t' [ys|e]]; cbn [fst snd] in *;
        destruct IH as (A & I & R); unfold Server.ret; cbn [fst snd];
        count_effects.
      * destruct R as (R1 & R2).
        repeat split; try lia. constructor; eauto.
      * repeat split; try lia.
        destruct R as (d0 & e0 & In0 & E0 & ->).
        exists d0, e0. repeat split; auto. now right.
    + cbn [fst snd]. count_effects.
      repeat split; try lia.
      exists d, e'. repeat split; auto. now left.
Qed.

Lemma filter_inserts (docs : list Server.HistoryDoc) :
  filter is_insert (map Server.Insert docs) = map Server.Insert docs.
Proof.
  induction docs as [|d docs IH]; [reflexivity|].
  cbn [map filter is_insert]. now rewrite IH.
Qed.

Lemma insert_loop_ok (W : Server.World) (docs : list Server.HistoryDoc) :
  (forall d, In d docs -> exists u, Server.insert_one W d = Ok u) ->
  exists us,
    Server.for_each (fun d => Server.call (Server.Insert d) (Server.insert_one W d)) docs
    = (map Server.Insert docs, Server.Return us).
Proof.
  induction docs as [|d docs IH]; intro H.
  - exists []. reflexivity.
  - destruct (H d (or_introl eq_refl)) as (u & Eu).
    destruct IH as (us & E); [intros; apply H; now right|].
    exists (u :: us). cbn [Server.for_each]. unfold Server.bind. rewrite E.
    unfold Server.call. rewrite Eu. unfold Server.ret. cbn [map].
    now rewrite app_nil_r.
Qed.

Lemma for_each_map {A B C : Type} (h : A -> B) (g : B -> Server.S C) (l : list A) :
  Server.for_each (fun x => g (h x)) l = Server.for_each g (map h l).
Proof.
  induction l as [|x l IH]; [reflexivity|].
  cbn [Server.for_each map]. now rewrite IH.
Qed.

Lemma le_ltb_false (n m : nat) : n <= m -> (m <? n) = false.
Proof. intro H. apply Nat.ltb_ge. exact H. Qed.

(** The run of [analyze_bulk] on at most a hundred texts: the analysis
    loop, then the history loop, whose outcome decides. *)
Lemma analyze_bulk_run (W : Server.World) (a : SentimentAnalyzer) (texts : list str) :
  Server.analyzer W = Some a -> length texts <= 100 ->
  exists t ys ls,
    Forall2 (fun x y => snd (Server.bulk_step W a x) = Server.Return y) texts ys
    /\ how_many is_analyze t = length texts
    /\ how_many is_insert t = 0
    /\ map snd ys = map Server.label_str ls
    /\ map Server.res_sentiment (map fst ys) = map Server.label_str ls
    /\ Server.analyze_bulk W texts
       = match Server.for_each
                 (fun d => Server.call (Server.Insert d) (Server.insert_one W d))
                 (map Server.bulk_doc (firstn 10 (map fst ys))) with
         | (t2, Server.Return _) =>
             (t ++ t2,
              Server.Return
                {| Server.results := map fst ys;
                   Server.summary :=
                     {| Server.total_analyzed := length (map fst ys);
                        Server.sentiment_counts :=
                          [ (of_string "positive",
                             Server.list_count (of_string "Positive") (map snd ys));
                            (of_string "negative",
                             Server.list_count (of_string "Negative") (map snd ys));
                            (of_string "neutral", 0) ];
                        Server.sentiment_percentages :=
                          Server.percentages W (length (map snd ys))
                            [ (of_string "positive",
                               Server.list_count (of_string "Positive") (map snd ys));
                              (of_string "negative",
                               Server.list_count (of_string "Negative") (map snd ys));
                              (of_string "neutral", 0) ] |};
                   Server.word_frequencies :=
                     get_word_frequencies (Server.unicode W) (map PyStr texts) |})
         | (t2, Server.Raised e) =>
             (t ++ t2 ++ [Server.Log ERROR],
              Server.Raised (Server.HTTPException 500 (Server.StrOf e)))
         end.
Proof.
  intros Ha Hl.
  destruct (analysis_loop (Server.bulk_step W a) texts (bulk_rounds W a))
    as (t & ys & ls & E & F & A & I & L1 & L2).
  exists t, ys, ls. repeat (split; [assumption|]).
  unfold Server.analyze_bulk. rewrite Ha, (le_ltb_false Hl).
  unfold Server.bind at 1. rewrite E. cbv zeta.
  pose proof (for_each_map Server.bulk_doc
                (fun d => Server.call (Server.Insert d) (Server.insert_one W d))
                (firstn 10 (map fst ys))) as M.
  cbv beta in M. rewrite M.
  destruct (Server.for_each _ (map Server.bulk_doc _)) as [t2 [us|e]];
    unfold_server; cbn; rewrite ?app_nil_r, <- ?app_assoc; reflexivity.
Qed.

(** The run of [analyze_text]: the correction, the analysis, then the
    insert, whose outcome decides. *)
Lemma analyze_text_run (W : Server.World) (a : SentimentAnalyzer) (text : str) :
  Server.analyzer W = Some a ->
  exists t c r,
    Server.autocorrect_text W text = (t, Server.Return c)
    /\ how_many is_analyze t = 0 /\ how_many is_insert t = 0
    /\ value_of (analyze (Server.unicode W) (PyStr c) true a) = Ok r
    /\ Server.analyze_text W text
       = match Server.insert_one W (text_doc c r) with
         | Ok _ =>
             (t ++ [Server.Analyze c; Server.Insert (text_doc c r)],
              Server.Return (text_response text r))
         | Raise e =>
             (t ++ [Server.Analyze c; Server.Insert (text_doc c r); Server.Log ERROR],
              Server.Raised (internal (Server.Py e)))
         end.
Proof.
  intro Ha.
  destruct (autocorrect_text_quiet W text) as (t & c & E & A & I).
  destruct (analyze_str_returns (Server.unicode W) a c true) as (r & Hr).
  exists t, c, r. repeat (split; [assumption|]).
  unfold Server.analyze_text, Server.analyzer_analyze. rewrite Ha.
  unfold Server.bind at 1. rewrite E.
  unfold Server.bind at 1, Server.call at 1. rewrite Hr. cbv zeta.
  fold (text_doc c r). fold (text_response text r).
  unfold_server. destruct (Server.insert_one W (text_doc c r)); cbn;
    rewrite ?app_nil_r, <- ?app_assoc; reflexivity.
Qed.

Lemma head_1000 {A : Type} (rows : list A) :
  (if 1000 <? length rows then firstn 1000 rows else rows) = firstn 1000 rows.
Proof.
  destruct (1000 <? length rows) eqn:E; [reflexivity|].
  apply Nat.ltb_ge in E. symmetry. now apply firstn_all2.
Qed.

(** The run of [analyze_csv] on a frame with a column [text]. *)
Lemma analyze_csv_run (W : Server.World) (a : SentimentAnalyzer) (rows : list str) :
  Server.analyzer W = Some a ->
  exists t ys ls,
    Forall2 (fun x y => snd (Server.csv_step W a x) = Server.Return y)
            (filter Server.csv_row_kept (firstn 1000 rows)) ys
    /\ how_many is_analyze t = length (filter Server.csv_row_kept (firstn 1000 rows))
    /\ how_many is_insert t = 0
    /\ map snd ys = map Server.label_str ls
    /\ Server.analyze_csv W (Server.Return (Some rows))
       = (t,
          Server.Return
            {| Server.results := map fst ys;
               Server.summary :=
                 {| Server.total_analyzed := length (map snd ys);
                    Server.sentiment_counts :=
                      [ (of_string "positive",
                         Server.list_count (of_string "positive") (map snd ys));
                        (of_string "negative",
                         Server.list_count (of_string "negative") (map snd ys));
                        (of_string "neutral", 0) ];
                    Server.sentiment_percentages :=
                      Server.percentages W (length (map snd ys))
                        [ (of_string "positive",
                           Server.list_count (of_string "positive") (map snd ys));
                          (of_string "negative",
                           Server.list_count (of_string "negative") (map snd ys));
                          (of_string "neutral", 0) ] |};
               Server.word_frequencies :=
                 get_word_frequencies (Server.unicode W)
                   (map PyStr (filter Server.csv_row_kept (firstn 1000 rows))) |}).
Proof.
  intro Ha.
  destruct (analysis_loop (Server.csv_step W a)
              (filter Server.csv_row_kept (firstn 1000 rows)) (bulk_rounds W a))
    as (t & ys & ls & E & F & A & I & L1 & L2).
  exists t, ys, ls. repeat (split; [assumption|]).
  unfold Server.analyze_csv. rewrite Ha.
  unfold Server.bind at 1. cbv zeta. rewrite head_1000.
  unfold Server.bind at 1. rewrite E.
  unfold_server. cbn. rewrite ?app_nil_r. reflexivity.
Qed.

(** What [fetch_content_from_url] can do: it returns a content or
    raises the 503 error, and calls neither analyzer nor database. *)
Lemma fetch_content_outcome (W : Server.World) (url : str) :
  exists t,
    how_many is_analyze t = 0 /\ how_many is_insert t = 0
    /\ ((exists c, Server.fetch_content_from_url W url = (t, Server.Return c))
        \/ Server.fetch_content_from_url W url
           = (t, Server.Raised (Server.HTTPException 503 Server.scrape_unavailable))).
Proof.
  unfold Server.fetch_content_from_url, Server.try_scrape. unfold_server.
  destruct (Server.is_scraped_url url); cbn.
  - destruct (Server.scrape_youtube_sync W url) as [[c|]|e]; cbn.
    + eexists. repeat split; [| |left; eexists; reflexivity]; reflexivity.
    + destruct (Server.is_video_url url); [|destruct (Server.is_shop_url url)];
        eexists; repeat split;
        try (right; reflexivity); try (left; eexists; reflexivity); reflexivity.
    + destruct (Server.is_video_url url); [|destruct (Server.is_shop_url url)];
        eexists; repeat split;
        try (right; reflexivity); try (left; eexists; reflexivity); reflexivity.
  - destruct (Server.is_video_url url); [|destruct (Server.is_shop_url url)];
      eexists; repeat split;
      try (right; reflexivity); try (left; eexists; reflexivity); reflexivity.
Qed.

(** The runs of [analyze_url]: the fetch raises, or finds no text, or
    the texts are analysed, summarised and one document is stored. *)
Lemma analyze_url_refused (W : Server.World) (a : SentimentAnalyzer) (url : str)
    (t0 : list Server.effect) (code : nat) (m : Server.message) :
  Server.analyzer W = Some a ->
  Server.fetch_content_from_url W url = (t0, Server.Raised (Server.HTTPException code m)) ->
  Server.analyze_url W url = (t0, Server.Raised (Server.HTTPException code m)).
Proof.
  intros Ha E. unfold Server.analyze_url. rewrite Ha.
  unfold Server.bind at 1. rewrite E. unfold_server. cbn.
  now rewrite app_nil_r.
Qed.

Lemma analyze_url_empty (W : Server.World) (a : SentimentAnalyzer) (url : str)
    (t0 : list Server.effect) (c : Server.Content) :
  Server.analyzer W = Some a ->
  Server.fetch_content_from_url W url = (t0, Server.Return c) ->
  texts_of c = [] ->
  Server.analyze_url W url = (t0, Server.Return (Server.no_comments c)).
Proof.
  intros Ha E Ht. unfold Server.analyze_url. rewrite Ha.
  unfold Server.bind at 1. rewrite E. cbv zeta. fold (texts_of c). rewrite Ht.
  unfold_server. cbn. now rewrite app_nil_r.
Qed.

Lemma analyze_url_run (W : Server.World) (a : SentimentAnalyzer) (url : str)
    (t0 : list Server.effect) (c : Server.Content) :
  Server.analyzer W = Some a ->
  Server.fetch_content_from_url W url = (t0, Server.Return c) ->
  texts_of c <> [] ->
  exists t ys ls t3 ai,
    Forall2 (fun x y => snd (Server.url_step W a x) = Server.Return y) (texts_of c) ys
    /\ how_many is_analyze t = length (texts_of c)
    /\ how_many is_insert t = 0
    /\ map snd ys = map Server.label_str ls
    /\ Server.generate_llm_summary W
         (Server.get_default (Server.title c) (of_string "Unknown"))
         (Server.get_default (Server.description c) []) (texts_of c)
       = (t3, Server.Return ai)
    /\ how_many is_analyze t3 = 0
    /\ how_many is_insert t3 = 0
    /\ Server.analyze_url W url
       = match Server.insert_one W
                 (url_doc url (Server.list_count (of_string "Positive") (map snd ys))
                          (Server.list_count (of_string "Negative") (map snd ys))) with
         | Ok _ =>
             (t0 ++ t ++ t3
              ++ [Server.Insert
                    (url_doc url (Server.list_count (of_string "Positive") (map snd ys))
                             (Server.list_count (of_string "Negative") (map snd ys)))],
              Server.Return
                {| Server.url_results := map fst ys;
                   Server.url_summary :=
                     {| Server.total_analyzed := length (map fst ys);
                        Server.sentiment_counts :=
                          [ (of_string "positive",
                             Server.list_count (of_string "Positive") (map snd ys));
                            (of_string "negative",
                             Server.list_count (of_string "Negative") (map snd ys));
                            (of_string "neutral", 0) ];
                        Server.sentiment_percentages :=
                          Server.percentages W (length (map snd ys))
                            [ (of_string "positive",
                               Server.list_count (of_string "Positive") (map snd ys));
                              (of_string "negative",
                               Server.list_count (of_string "Negative") (map snd ys));
                              (of_string "neutral", 0) ] |};
                   Server.url_word_frequencies :=
                     get_word_frequencies (Server.unicode W) (map PyStr (texts_of c));
                   Server.ai_summary := ai;
                   Server.metadata_title := Server.title c;
                   Server.metadata_description :=
                     Server.get_default (Server.description c) [] |})
         | Raise e =>
             (t0 ++ t ++ t3
              ++ [Server.Insert
                    (url_doc url (Server.list_count (of_string "Positive") (map snd ys))
                             (Server.list_count (of_string "Negative") (map snd ys)));
                  Server.Log ERROR],
              Server.Raised (internal (Server.Py e)))
         end.
Proof.
  intros Ha E Ht.
  destruct (analysis_loop (Server.url_step W a) (texts_of c) (url_rounds W a))
    as (t & ys & ls & El & F & A & I & L1 & L2).
  destruct (llm_summary_quiet W
              (Server.get_default (Server.title c) (of_string "Unknown"))
              (Server.get_default (Server.description c) []) (texts_of c))
    as (t3 & ai & E3 & A3 & I3).
  exists t, ys, ls, t3, ai. repeat (split; [assumption|]).
  unfold Server.analyze_url. rewrite Ha.
  unfold Server.bind at 1. rewrite E. cbv zeta. fold (texts_of c).
  destruct (texts_of c) as [|x l] eqn:Et; [congruence|]. rewrite <- Et in *.
  unfold Server.bind at 1. rewrite El.
  unfold Server.bind at 1. rewrite E3.
  fold (url_doc url (Server.list_count (of_string "Positive") (map snd ys))
                (Server.list_count (of_string "Negative") (map snd ys))).
  unfold_server.
  destruct (Server.insert_one W _); cbn; rewrite ?app_nil_r, <- ?app_assoc; reflexivity.
Qed.

Lemma count_types (l : list str) :
  Server.list_count (of_string "single") l + Server.list_count (of_string "bulk") l
  + Server.list_count (of_string "csv") l + Server.list_count (of_string "url") l
  <= length l.
Proof.
  unfold Server.list_count.
  induction l as [|s l IH]; [reflexivity|]. cbn [filter length].
  destruct (str_eqb (of_string "single") s) eqn:E1;
    destruct (str_eqb (of_string "bulk") s) eqn:E2;
    destruct (str_eqb (of_string "csv") s) eqn:E3;
    destruct (str_eqb (of_string "url") s) eqn:E4;
    rewrite ?str_eqb_eq in *; subst; try discriminate; cbn [length]; lia.
Qed.

Lemma count_two (l : list str) :
  Server.list_count (of_string "Positive") l + Server.list_count (of_string "Negative") l
  <= length l.
Proof.
  unfold Server.list_count.
  induction l as [|s l IH]; [reflexivity|]. cbn [filter length].
  destruct (str_eqb (of_string "Positive") s) eqn:E1;
    destruct (str_eqb (of_string "Negative") s) eqn:E2;
    rewrite ?str_eqb_eq in *; subst; try discriminate; cbn [length]; lia.
Qed.

Lemma sentiments_cases (docs : list Server.StoredDoc) :
  Forall (fun d => Server.stored_sentiment d <> None) docs
  \/ Exists (fun d => Server.stored_sentiment d = None) docs.
Proof.
  induction docs as [|d docs [IH|IH]].
  - left. constructor.
  - destruct (Server.stored_sentiment d) eqn:E.
    + left. constructor; [congruence|assumption].
    + right. now left.
  - right. now right.
Qed.

(** The loop of [get_stats] over the stored documents. *)
Lemma sentiments_loop (docs : list Server.StoredDoc) :
  (Forall (fun d => Server.stored_sentiment d <> None) docs ->
   exists ss, Server.for_each Server.stored_sentiment_of docs = ([], Server.Return ss)
              /\ map Some ss = map Server.stored_sentiment docs)
  /\ (Exists (fun d => Server.stored_sentiment d = None) docs ->
      Server.for_each Server.stored_sentiment_of docs
      = ([], Server.Raised (Server.Py KeyError))).
Proof.
  induction docs as [|d docs [IH1 IH2]].
  - split; [exists []; split; reflexivity|]. intro H. inversion H.
  - cbn [Server.for_each]. unfold Server.stored_sentiment_of at 1 3.
    destruct (Server.stored_sentiment d) as [s|] eqn:Ed; split.
    + intro H. inversion H; subst. destruct (IH1 H3) as (ss & E & M).
      exists (s :: ss). unfold Server.bind, Server.ret. rewrite E. cbn.
      split; [reflexivity|]. now rewrite M, Ed.
    + intro H. inversion H; subst; [congruence|].
      unfold Server.bind, Server.ret. now rewrite (IH2 H1).
    + intro H. inversion H; subst. congruence.
    + intros _. reflexivity.
Qed.

Lemma fetch_unmarked (W : Server.World) (url : str) :
  Server.is_scraped_url url = false ->
  Server.fetch_content_from_url W url
  = ([Server.Log INFO], Server.Return Server.mock_comments).
Proof.
  intro H.
  assert (N : Server.is_video_url url = false /\ Server.is_shop_url url = false).
  { revert H. unfold Server.is_video_url, Server.is_shop_url, Server.is_scraped_url.
    rewrite !orb_false_iff. tauto. }
  destruct N as (N1 & N2).
  unfold Server.fetch_content_from_url, Server.try_scrape.
  rewrite H, N1, N2. reflexivity.
Qed.

(** ** Properties of the endpoints *)

(** X19. A request is refused before any work is done: without an
    analyzer the four analysing endpoints raise the 503 error, and with
    one [analyze_bulk] raises the 400 error for more than a hundred
    texts. Nothing is corrected, analysed, scraped or stored. *)
Theorem requests_refused (W : Server.World) :
  (Server.analyzer W = None ->
   forall text texts df url,
     Server.analyze_text W text = ([], Server.Raised Server.unavailable)
     /\ Server.analyze_bulk W texts = ([], Server.Raised Server.unavailable)
     /\ Server.analyze_csv W df = ([], Server.Raised Server.unavailable)
     /\ Server.analyze_url W url = ([], Server.Raised Server.unavailable))
  /\ (forall texts, Server.analyzer W <> None -> 100 < length texts ->
      Server.analyze_bulk W texts
      = ([], Server.Raised
               (Server.HTTPException 400 (Server.Text (of_string "Maximum 100 texts allowed"))))).
Proof.
  split.
  - intros H text texts df url.
    unfold Server.analyze_text, Server.analyze_bulk, Server.analyze_csv,
      Server.analyze_url. rewrite H. repeat split; reflexivity.
  - intros texts H L. unfold Server.analyze_bulk.
    destruct (Server.analyzer W); [|congruence].
    apply Nat.ltb_lt in L. rewrite L. reflexivity.
Qed.

(** X20. The response of [analyze_bulk]. For at most a hundred texts
    and a database that accepts the documents, the endpoint returns one
    result per text, in order: the first 200 characters of the text as
    sent, with the label and the model of the analysis of the corrected
    text. The total is the number of texts, the neutral count is 0
    whatever the labels, so the positive and negative counts fall short
    of the total by the number of neutral results; the word frequencies
    are those of the texts as sent. *)
Theorem analyze_bulk_response (W : Server.World) (a : SentimentAnalyzer)
    (texts : list str) :
  Server.analyzer W = Some a -> length texts <= 100 ->
  (forall d, Server.insert_one W d = Ok tt) ->
  exists resp,
    snd (Server.analyze_bulk W texts) = Server.Return resp
    /\ Forall2 (fun x r =>
                  Server.res_text r = firstn 200 x
                  /\ exists c res,
                       snd (Server.autocorrect_text W x) = Server.Return c
                       /\ value_of (analyze (Server.unicode W) (PyStr c) true a) = Ok res
                       /\ Server.res_sentiment r = Server.label_str (sentiment res)
                       /\ Server.res_model_used r = Server.tag_str (model_used res))
               texts (Server.results resp)
    /\ Server.total_analyzed (Server.summary resp) = length texts
    /\ Server.sentiment_counts (Server.summary resp)
       = [ (of_string "positive",
            Server.list_count (of_string "Positive")
              (map Server.res_sentiment (Server.results resp)));
           (of_string "negative",
            Server.list_count (of_string "Negative")
              (map Server.res_sentiment (Server.results resp)));
           (of_string "neutral", 0) ]
    /\ Server.list_count (of_string "Positive")
         (map Server.res_sentiment (Server.results resp))
       + Server.list_count (of_string "Negative")
           (map Server.res_sentiment (Server.results resp))
       + Server.list_count (of_string "Neutral")
           (map Server.res_sentiment (Server.results resp))
       = length texts
    /\ Server.word_frequencies resp
       = get_word_frequencies (Server.unicode W) (map PyStr texts).
Proof.
  intros Ha Hl Hi.
  destruct (analyze_bulk_run W texts Ha Hl) as (t & ys & ls & F & A & I & L1 & L2 & E).
  destruct (@insert_loop_ok W (map Server.bulk_doc (firstn 10 (map fst ys))))
    as (us & Eu); [intros d _; exists tt; apply Hi|].
  rewrite Eu in E. rewrite E. cbn [snd].
  eexists. split; [reflexivity|]. cbn [Server.results Server.summary
    Server.total_analyzed Server.sentiment_counts Server.word_frequencies].
  assert (Len : length ys = length texts)
    by (symmetry; apply (Forall2_length_eq F)).
  split; [|split; [|split; [|split]]].
  - clear - F. induction F as [|x y l l' Hxy F IH]; cbn [map]; constructor; auto.
    destruct (analysis_round W a x) as (t & c & r & E & Hr & Hc & _).
    rewrite E in Hxy. cbn [snd] in Hxy. inversion Hxy; subst y. cbn.
    split; [reflexivity|]. exists c, r. repeat split; assumption.
  - now rewrite length_map.
  - now rewrite L1, L2.
  - rewrite L2, count_labels. rewrite <- Len, <- (length_map snd ys), L1.
    now rewrite length_map.
  - reflexivity.
Qed.

Lemma analyze_bulk_response_witness :
  exists resp,
    snd (Server.analyze_bulk sample_world [of_string "good"; of_string "bad day"])
    = Server.Return resp
    /\ map Server.res_text (Server.results resp) = [of_string "good"; of_string "bad day"]
    /\ Server.total_analyzed (Server.summary resp) = 2.
Proof.
  destruct (@analyze_bulk_response sample_world sample_analyzer
              [of_string "good"; of_string "bad day"])
    as (resp & E & F & T & _); [reflexivity|cbn; lia|reflexivity|].
  exists resp. split; [exact E|]. split; [|exact T].
  inversion F as [|x r l l' [Hx _] F' Ex Er]; subst.
  inversion F' as [|x2 r2 l2 l2' [Hx2 _] F'' Ex2 Er2]; subst.
  inversion F''; subst. cbn [map]. now rewrite Hx, Hx2.
Defined.

(** X21. The work of [analyze_bulk] on at most a hundred texts: every
    text is analysed once, whatever the database does; at most ten
    documents are stored, exactly the first ten results (or all of them
    when there are fewer) when the endpoint returns; and the only error
    is the 500 error of an insert that raised. *)
Theorem analyze_bulk_effects (W : Server.World) (a : SentimentAnalyzer)
    (texts : list str) :
  Server.analyzer W = Some a -> length texts <= 100 ->
  how_many is_analyze (fst (Server.analyze_bulk W texts)) = length texts
  /\ how_many is_insert (fst (Server.analyze_bulk W texts)) <= 10
  /\ match snd (Server.analyze_bulk W texts) with
     | Server.Return resp =>
         filter is_insert (fst (Server.analyze_bulk W texts))
         = map (fun r => Server.Insert (Server.bulk_doc r))
               (firstn 10 (Server.results resp))
     | Server.Raised e =>
         exists d e', Server.insert_one W d = Raise e' /\ e = internal (Server.Py e')
     end.
Proof.
  intros Ha Hl.
  destruct (analyze_bulk_run W texts Ha Hl) as (t & ys & ls & F & A & I & L1 & L2 & E).
  pose proof (insert_loop W (map Server.bulk_doc (firstn 10 (map fst ys)))) as L.
  cbv zeta in L. rewrite E.
  assert (T : length (map Server.bulk_doc (firstn 10 (map fst ys))) <= 10)
    by (rewrite length_map, length_firstn; lia).
  destruct (Server.for_each _ (map Server.bulk_doc _)) as [t2 [us|e]] eqn:E2;
    cbn [fst snd] in *; destruct L as (A2 & I2 & R); count_effects.
  - split; [lia|]. split; [lia|]. cbn [Server.results].
    destruct R as (_ & R).
    destruct (@insert_loop_ok W (map Server.bulk_doc (firstn 10 (map fst ys))))
      as (us' & Eu); [intros d Hd; rewrite Forall_forall in R; now apply R|].
    assert (T2 : t2 = map Server.Insert (map Server.bulk_doc (firstn 10 (map fst ys))))
      by congruence.
    rewrite T2, filter_app.
    assert (Z : filter is_insert t = []).
    { unfold how_many in I. now apply length_zero_iff_nil. }
    rewrite Z, filter_inserts, map_map. reflexivity.
  - split; [lia|]. split; [lia|].
    destruct R as (d & e' & _ & Ed & ->). exists d, e'. split; [exact Ed|reflexivity].
Qed.

Lemma analyze_bulk_effects_witness :
  how_many is_analyze
    (fst (Server.analyze_bulk sample_world (repeat (of_string "good") 12))) = 12
  /\ how_many is_insert
       (fst (Server.analyze_bulk sample_world (repeat (of_string "good") 12))) <= 10.
Proof.
  destruct (@analyze_bulk_effects sample_world sample_analyzer
              (repeat (of_string "good") 12)) as (A & I & _);
    [reflexivity|cbn; lia|].
  split; [exact A|exact I].
Defined.

(** X22. With a database whose inserts raise [e], the endpoints that
    store history lose their answer after the analysis is done:
    [analyze_text] and, for at least one text, [analyze_bulk] raise the
    500 error of [e], and so does [analyze_url] for a URL with none of
    the site markers. [analyze_bulk] on no text and [analyze_csv], which
    store nothing, still return. *)
Theorem database_down (W : Server.World) (a : SentimentAnalyzer) (e : exn) :
  Server.analyzer W = Some a ->
  (forall d, Server.insert_one W d = Raise e) ->
  (forall text,
      snd (Server.analyze_text W text) = Server.Raised (internal (Server.Py e))
      /\ how_many is_analyze (fst (Server.analyze_text W text)) = 1)
  /\ (forall texts, texts <> [] -> length texts <= 100 ->
      snd (Server.analyze_bulk W texts) = Server.Raised (internal (Server.Py e))
      /\ how_many is_analyze (fst (Server.analyze_bulk W texts)) = length texts
      /\ how_many is_insert (fst (Server.analyze_bulk W texts)) = 1)
  /\ (forall url, Server.is_scraped_url url = false ->
      snd (Server.analyze_url W url) = Server.Raised (internal (Server.Py e))
      /\ how_many is_analyze (fst (Server.analyze_url W url)) = 6)
  /\ returns (Server.analyze_bulk W [])
  /\ (forall rows, returns (Server.analyze_csv W (Server.Return (Some rows)))).
Proof.
  intros Ha Hi. split; [|split; [|split; [|split]]].
  - intro text.
    destruct (analyze_text_run W text Ha) as (t & c & r & E & A & I & Hr & Et).
    rewrite Et, Hi. cbn [fst snd]. split; [reflexivity|]. count_effects. lia.
  - intros texts Hn Hl.
    destruct (analyze_bulk_run W texts Ha Hl) as (t & ys & ls & F & A & I & L1 & L2 & E).
    destruct ys as [|y ys];
      [apply Forall2_length_eq in F; destruct texts; [congruence|discriminate]|].
    assert (X : Server.for_each
                  (fun d => Server.call (Server.Insert d) (Server.insert_one W d))
                  (map Server.bulk_doc (firstn 10 (map fst (y :: ys))))
                = ([Server.Insert (Server.bulk_doc (fst y))],
                   Server.Raised (Server.Py e))).
    { cbn [map firstn Server.for_each]. unfold Server.bind at 1, Server.call at 1.
      now rewrite Hi. }
    rewrite X in E. rewrite E. cbn [fst snd]. split; [reflexivity|].
    count_effects. split; lia.
  - intros url Hu.
    pose proof (fetch_unmarked W url Hu) as Ef.
    destruct (analyze_url_run W url Ha Ef) as
      (t & ys & ls & t3 & ai & F & A & I & L1 & E3 & A3 & I3 & E);
      [discriminate|].
    rewrite E, Hi. cbn [fst snd]. split; [reflexivity|].
    count_effects. rewrite A, A3. reflexivity.
  - destruct (@analyze_bulk_run W a [] Ha) as (t & ys & ls & F & A & I & L1 & L2 & E);
      [cbn; lia|].
    inversion F; subst. rewrite E. eexists. reflexivity.
  - intro rows.
    destruct (analyze_csv_run W rows Ha) as (t & ys & ls & F & A & I & L1 & E).
    rewrite E. eexists. reflexivity.
Qed.

Lemma database_down_witness :
  snd (Server.analyze_text database_down_world (of_string "good"))
  = Server.Raised (internal (Server.Py OSError))
  /\ returns (Server.analyze_bulk database_down_world []).
Proof.
  destruct (@database_down database_down_world sample_analyzer OSError)
    as (T & _ & _ & B & _); [reflexivity|reflexivity|].
  split; [apply T|exact B].
Defined.

(** X23. The errors of the endpoints. Whatever the analyzer, the
    database, the scraper and the other services do, an endpoint returns
    or raises an [HTTPException]: 503 or 500 for [analyze_text] and
    [analyze_url], 503, 400 or 500 for [analyze_bulk] and [analyze_csv],
    500 for [get_stats]. No other exception leaves an endpoint. *)
Theorem endpoints_raise_http_only (W : Server.World) (text : str) (texts : list str)
    (df : Server.outcome (option (list str))) (url : str) :
  http_only [503; 500] (Server.analyze_text W text)
  /\ http_only [503; 400; 500] (Server.analyze_bulk W texts)
  /\ http_only [503; 400; 500] (Server.analyze_csv W df)
  /\ http_only [503; 500] (Server.analyze_url W url)
  /\ http_only [500] (Server.get_stats W).
Proof.
  unfold http_only.
  split; [|split; [|split; [|split]]].
  - destruct (Server.analyzer W) as [a|] eqn:Ha.
    + destruct (analyze_text_run W text Ha) as (t & c & r & _ & _ & _ & _ & E).
      rewrite E. destruct (Server.insert_one W _); cbn; auto.
    + unfold Server.analyze_text. rewrite Ha. cbn. auto.
  - destruct (Server.analyzer W) as [a|] eqn:Ha.
    + destruct (le_lt_dec (length texts) 100) as [Hl|Hl].
      * destruct (analyze_bulk_run W texts Ha Hl) as (t & ys & ls & _ & _ & _ & _ & _ & E).
        rewrite E. destruct (Server.for_each _ _) as [t2 [us|e]]; cbn; auto.
      * unfold Server.analyze_bulk. rewrite Ha.
        apply Nat.ltb_lt in Hl. rewrite Hl. cbn. auto.
    + unfold Server.analyze_bulk. rewrite Ha. cbn. auto.
  - destruct (Server.analyzer W) as [a|] eqn:Ha.
    + destruct df as [[rows|]|e].
      * destruct (analyze_csv_run W rows Ha) as (t & ys & ls & _ & _ & _ & _ & E).
        rewrite E. exact I.
      * unfold Server.analyze_csv. rewrite Ha. cbn. auto.
      * unfold Server.analyze_csv. rewrite Ha. destruct e; cbn; auto.
    + unfold Server.analyze_csv. rewrite Ha. cbn. auto.
  - destruct (Server.analyzer W) as [a|] eqn:Ha.
    + destruct (fetch_content_outcome W url) as (t0 & _ & _ & [(c & Ef)|Ef]).
      * destruct (texts_of c) as [|x l] eqn:Et.
        -- rewrite (analyze_url_empty W url Ha Ef Et). exact I.
        -- destruct (analyze_url_run W url Ha Ef) as
             (t & ys & ls & t3 & ai & _ & _ & _ & _ & _ & _ & _ & E);
             [congruence|].
           rewrite E. destruct (Server.insert_one W _); cbn; auto.
      * rewrite (analyze_url_refused W url Ha Ef). cbn. auto.
    + unfold Server.analyze_url. rewrite Ha. cbn. auto.
  - unfold Server.get_stats. unfold Server.bind at 1, Server.call at 1.
    destruct (Server.find_all W) as [[|d docs]|e]; [cbn; auto| |cbn; auto].
    destruct (sentiments_cases (d :: docs)) as [F|X].
    + destruct (proj1 (sentiments_loop (d :: docs)) F) as (ss & E & _).
      unfold Server.bind at 1. rewrite E. cbn. auto.
    + unfold Server.bind at 1. rewrite (proj2 (sentiments_loop (d :: docs)) X).
      cbn. auto.
Qed.

(** X24. The response of [analyze_csv] for a frame with a column
    [text]. The endpoint always returns. It analyses the rows among the
    first thousand whose text is neither empty nor [nan], at most a
    thousand calls, and stores nothing. The result of a row shows the
    first 200 characters of its text. The positive and the negative
    count are 0 whatever the labels of the results, since the labels
    are capitalised and the counts look for lowercase ones. *)
Theorem analyze_csv_response (W : Server.World) (a : SentimentAnalyzer)
    (rows : list str) :
  Server.analyzer W = Some a ->
  exists resp,
    snd (Server.analyze_csv W (Server.Return (Some rows))) = Server.Return resp
    /\ Forall2 (fun x r => Server.res_text r = firstn 200 x)
               (kept_rows rows) (Server.results resp)
    /\ Server.total_analyzed (Server.summary resp) = length (kept_rows rows)
    /\ Server.sentiment_counts (Server.summary resp)
       = [ (of_string "positive", 0); (of_string "negative", 0);
           (of_string "neutral", 0) ]
    /\ Server.word_frequencies resp
       = get_word_frequencies (Server.unicode W) (map PyStr (kept_rows rows))
    /\ how_many is_analyze (fst (Server.analyze_csv W (Server.Return (Some rows))))
       = length (kept_rows rows)
    /\ length (kept_rows rows) <= 1000
    /\ how_many is_insert (fst (Server.analyze_csv W (Server.Return (Some rows)))) = 0.
Proof.
  intro Ha.
  destruct (analyze_csv_run W rows Ha) as (t & ys & ls & F & A & I & L1 & E).
  fold (kept_rows rows) in *. rewrite E. cbn [fst snd].
  eexists. split; [reflexivity|]. cbn [Server.results Server.summary
    Server.total_analyzed Server.sentiment_counts Server.word_frequencies].
  assert (Len : length ys = length (kept_rows rows))
    by (symmetry; apply (Forall2_length_eq F)).
  split; [|split; [|split; [|split; [|split; [|split]]]]].
  - clear - F. induction F as [|x y l l' Hxy F IH]; cbn [map]; constructor; auto.
    destruct (analysis_round W a x) as (t & c & r & E & _).
    change (Server.csv_step W a x) with (Server.bulk_step W a x) in Hxy.
    rewrite E in Hxy. cbn [snd] in Hxy. inversion Hxy; subst y. reflexivity.
  - now rewrite length_map.
  - rewrite L1. destruct (count_lowercase ls) as (-> & ->). reflexivity.
  - reflexivity.
  - exact A.
  - unfold kept_rows.
    etransitivity; [apply filter_length_le|]. rewrite length_firstn. lia.
  - exact I.
Qed.

Lemma analyze_csv_response_witness :
  exists resp,
    snd (Server.analyze_csv sample_world
           (Server.Return (Some [of_string "good"; []; of_string "nan"; of_string "bad"])))
    = Server.Return resp
    /\ Server.total_analyzed (Server.summary resp) = 2
    /\ Server.sentiment_counts (Server.summary resp)
       = [ (of_string "positive", 0); (of_string "negative", 0);
           (of_string "neutral", 0) ].
Proof.
  destruct (@analyze_csv_response sample_world sample_analyzer
              [of_string "good"; []; of_string "nan"; of_string "bad"])
    as (resp & E & _ & T & C & _); [reflexivity|].
  exists resp. split; [exact E|]. split; [exact T|exact C].
Defined.

(** X25. The errors of [analyze_csv]. An upload that parses to an empty
    frame raises the 400 error [CSV file is empty]. A frame without a
    column [text] raises the 400 error inside the [try], where
    [except Exception] catches it: what leaves the endpoint is the 500
    error whose detail is the text of that 400 error. Any other failure
    of reading or parsing is the 500 error of its exception. In none of
    these cases is a row analysed. *)
Theorem analyze_csv_errors (W : Server.World) (a : SentimentAnalyzer) :
  Server.analyzer W = Some a ->
  Server.analyze_csv W (Server.Raised Server.EmptyDataError)
  = ([], Server.Raised
           (Server.HTTPException 400 (Server.Text (of_string "CSV file is empty"))))
  /\ Server.analyze_csv W (Server.Return None)
     = ([Server.Log ERROR],
        Server.Raised
          (internal
             (Server.HTTPException 400
                (Server.Text (of_string "CSV must contain 'text' column")))))
  /\ (forall e, e <> Server.EmptyDataError ->
      Server.analyze_csv W (Server.Raised e)
      = ([Server.Log ERROR], Server.Raised (internal e))).
Proof.
  intro Ha. unfold Server.analyze_csv. rewrite Ha.
  split; [reflexivity|]. split; [reflexivity|].
  intros e He. destruct e; [reflexivity|congruence|reflexivity].
Qed.

Lemma analyze_csv_errors_witness :
  Server.analyze_csv sample_world (Server.Return None)
  = ([Server.Log ERROR],
     Server.Raised
       (internal
          (Server.HTTPException 400
             (Server.Text (of_string "CSV must contain 'text' column"))))).
Proof.
  destruct (@analyze_csv_errors sample_world sample_analyzer eq_refl) as (_ & H & _).
  exact H.
Defined.

Lemma video_is_scraped (url : str) :
  Server.is_video_url url = true -> Server.is_scraped_url url = true.
Proof.
  unfold Server.is_video_url, Server.is_scraped_url.
  intro H. apply orb_true_iff in H.
  destruct H as [H|H]; rewrite H; rewrite ?orb_true_r; reflexivity.
Qed.

Lemma fetch_scraped (W : Server.World) (url : str) (c : Server.Content) :
  Server.is_scraped_url url = true ->
  Server.scrape_youtube_sync W url = Ok (Some c) ->
  Server.fetch_content_from_url W url
  = ([Server.Log INFO; Server.Scrape url], Server.Return c).
Proof.
  intros H E. unfold Server.fetch_content_from_url, Server.try_scrape.
  rewrite H. unfold_server. rewrite E. reflexivity.
Qed.

Lemma fetch_video_unavailable (W : Server.World) (url : str) :
  Server.is_video_url url = true ->
  (forall c, Server.scrape_youtube_sync W url <> Ok (Some c)) ->
  exists t0,
    Server.fetch_content_from_url W url
    = (t0, Server.Raised (Server.HTTPException 503 Server.scrape_unavailable))
    /\ how_many is_analyze t0 = 0 /\ how_many is_insert t0 = 0
    /\ how_many is_complete t0 = 0.
Proof.
  intros Hv Hn. unfold Server.fetch_content_from_url, Server.try_scrape.
  rewrite (video_is_scraped _ Hv), Hv. unfold_server.
  destruct (Server.scrape_youtube_sync W url) as [[c|]|e];
    [exfalso; now apply (Hn c)| |]; cbn; eexists; repeat split; reflexivity.
Qed.

(** X26. [analyze_url] when there is nothing to analyse. A video URL
    whose scrape gives nothing or raises is answered by the 503 error of
    the scraper, passed through as it is and not turned into a 500
    error. A scraped content with neither comments nor reviews is
    answered by the fixed empty response with its counts at 0. In both
    cases nothing is analysed, summarised or stored. *)
Theorem analyze_url_without_texts (W : Server.World) (a : SentimentAnalyzer)
    (url : str) :
  Server.analyzer W = Some a ->
  (Server.is_video_url url = true ->
   (forall c, Server.scrape_youtube_sync W url <> Ok (Some c)) ->
   snd (Server.analyze_url W url)
   = Server.Raised (Server.HTTPException 503 Server.scrape_unavailable)
   /\ how_many is_analyze (fst (Server.analyze_url W url)) = 0
   /\ how_many is_complete (fst (Server.analyze_url W url)) = 0
   /\ how_many is_insert (fst (Server.analyze_url W url)) = 0)
  /\ (forall c, Server.is_scraped_url url = true ->
                Server.scrape_youtube_sync W url = Ok (Some c) ->
                texts_of c = [] ->
                Server.analyze_url W url
                = ([Server.Log INFO; Server.Scrape url],
                   Server.Return (Server.no_comments c))
                /\ Server.url_results (Server.no_comments c) = []
                /\ Server.total_analyzed (Server.url_summary (Server.no_comments c)) = 0).
Proof.
  intro Ha. split.
  - intros Hv Hn.
    destruct (fetch_video_unavailable W url Hv Hn) as (t0 & E & A & I & C).
    rewrite (analyze_url_refused W url Ha E). cbn [fst snd]. repeat split; assumption.
  - intros c Hs E Ht.
    rewrite (analyze_url_empty W url Ha (fetch_scraped W url Hs E) Ht).
    repeat split; reflexivity.
Qed.

Lemma analyze_url_without_texts_witness :
  snd (Server.analyze_url sample_world (of_string "https://youtu.be/abc"))
  = Server.Raised (Server.HTTPException 503 Server.scrape_unavailable)
  /\ Server.analyze_url (scraped_world silent_video) (of_string "https://youtu.be/abc")
     = ([Server.Log INFO; Server.Scrape (of_string "https://youtu.be/abc")],
        Server.Return (Server.no_comments silent_video)).
Proof.
  split.
  - apply (@analyze_url_without_texts sample_world sample_analyzer
             (of_string "https://youtu.be/abc") eq_refl);
      [reflexivity|discriminate].
  - apply (@analyze_url_without_texts (scraped_world silent_video) sample_analyzer
             (of_string "https://youtu.be/abc") eq_refl);
      reflexivity.
Defined.

Lemma format_comment_prefix (W : Server.World) (text shown : str) :
  snd (Server.format_comment_with_translation W text) = Server.Return shown ->
  prefix_of text shown.
Proof.
  assert (P : prefix_of text text) by (exists []; now rewrite app_nil_r).
  unfold Server.format_comment_with_translation. unfold_server.
  destruct (is_empty text); cbn; [intro H; inversion H; now subst|].
  destruct (isascii text); cbn; [intro H; inversion H; now subst|].
  destruct (Server.display_translate W text) as [tr|e]; cbn;
    intro H; inversion H; subst; [|assumption].
  eexists. reflexivity.
Qed.

Lemma quiet_nil (p : Server.effect -> bool) (t : list Server.effect) :
  how_many p t = 0 -> filter p t = [].
Proof. unfold how_many. apply length_zero_iff_nil. Qed.

(** X27. The response and the history of [analyze_url]. When the fetch
    gives a content with comments or reviews and the database accepts
    the document, the endpoint returns one result per text, in order,
    each showing a text that begins with the comment as it was fetched;
    the total is the number of texts and the word frequencies are those
    of the texts. One history document is stored. Whatever tier answered
    and whatever confidences the analyses had, that document records the
    model [Transformer] and the confidence 0.8; its sentiment is
    [Positive] or [Negative] by the larger count and [Mixed] on a tie. *)
Theorem analyze_url_response (W : Server.World) (a : SentimentAnalyzer)
    (url : str) (c : Server.Content) :
  Server.analyzer W = Some a ->
  snd (Server.fetch_content_from_url W url) = Server.Return c ->
  texts_of c <> [] ->
  (forall d, Server.insert_one W d = Ok tt) ->
  exists resp doc,
    snd (Server.analyze_url W url) = Server.Return resp
    /\ Forall2 (fun x r => prefix_of x (Server.res_text r))
               (texts_of c) (Server.url_results resp)
    /\ Server.total_analyzed (Server.url_summary resp) = length (texts_of c)
    /\ Server.url_word_frequencies resp
       = get_word_frequencies (Server.unicode W) (map PyStr (texts_of c))
    /\ how_many is_analyze (fst (Server.analyze_url W url)) = length (texts_of c)
    /\ filter is_insert (fst (Server.analyze_url W url)) = [Server.Insert doc]
    /\ Server.doc_text doc = of_string "URL Analysis: " ++ url
    /\ Server.doc_model_used doc = of_string "Transformer"
    /\ Server.doc_confidence doc = (8 # 10)%Q
    /\ Server.doc_analysis_type doc = of_string "url"
    /\ Server.doc_sentiment doc
       = (let positive := Server.list_count (of_string "Positive")
                            (map Server.res_sentiment (Server.url_results resp)) in
          let negative := Server.list_count (of_string "Negative")
                            (map Server.res_sentiment (Server.url_results resp)) in
          if negative <? positive then of_string "Positive"
          else if positive <? negative then of_string "Negative"
          else of_string "Mixed").
Proof.
  intros Ha Hf Ht Hi.
  destruct (fetch_content_outcome W url) as (t0 & A0 & I0 & [(c' & Ef)|Ef]);
    rewrite Ef in Hf; cbn [snd] in Hf; [|discriminate].
  inversion Hf; subst c'.
  destruct (analysis_loop (Server.url_step W a) (texts_of c) (url_rounds W a))
    as (t' & ys' & ls' & El & F' & _ & _ & L1' & L2').
  destruct (analyze_url_run W url Ha Ef Ht)
    as (t & ys & ls & t3 & ai & F & A & I & L1 & E3 & A3 & I3 & E).
  assert (Eys : ys = ys').
  { clear - F F'. revert ys' F'.
    induction F as [|x y l l1 Hxy F IH]; intros ys' F'; inversion F'; subst;
      [reflexivity|]. f_equal; [congruence|]. now apply IH. }
  subst ys'.
  rewrite Hi in E. rewrite E. cbn [fst snd].
  do 2 eexists. split; [reflexivity|].
  cbn [Server.url_results Server.url_summary Server.total_analyzed
       Server.url_word_frequencies].
  assert (Len : length ys = length (texts_of c))
    by (symmetry; apply (Forall2_length_eq F)).
  split; [|split; [|split; [|split; [|split]]]].
  - clear - F. induction F as [|x y l l' Hxy F IH]; cbn [map]; constructor; auto.
    destruct (url_round W a x) as (t & shown & r & E & Hs & _).
    rewrite E in Hxy. cbn [snd] in Hxy. inversion Hxy; subst y. cbn.
    now apply (format_comment_prefix W).
  - now rewrite length_map.
  - reflexivity.
  - count_effects. lia.
  - rewrite !filter_app, (quiet_nil _ _ I0), (quiet_nil _ _ I), (quiet_nil _ _ I3).
    reflexivity.
  - repeat split. cbn [url_doc Server.doc_sentiment]. cbv zeta.
    now rewrite L2', <- L1'.
Qed.

Lemma analyze_url_response_witness :
  exists resp doc,
    snd (Server.analyze_url sample_world (of_string "https://example.org/post/1"))
    = Server.Return resp
    /\ Server.total_analyzed (Server.url_summary resp) = 6
    /\ filter is_insert
         (fst (Server.analyze_url sample_world (of_string "https://example.org/post/1")))
       = [Server.Insert doc]
    /\ Server.doc_model_used doc = of_string "Transformer".
Proof.
  destruct (@analyze_url_response sample_world sample_analyzer
              (of_string "https://example.org/post/1") Server.mock_comments)
    as (resp & doc & E & _ & T & _ & _ & D & _ & M & _);
    [reflexivity|reflexivity|discriminate|reflexivity|].
  exists resp, doc. repeat split; assumption.
Defined.

(** X28. The counts of [get_stats]. When every stored document has a
    sentiment the endpoint returns: the total is the number of
    documents; the positive and negative counts count the documents
    stored as [Positive] and [Negative] and never exceed the total
    together, a document stored as [Mixed] or [Neutral] counting for
    neither; the neutral count is 0; the four type counts never exceed
    the total together, a document without a type counting as [single].
    One document without a sentiment makes the endpoint raise the 500
    error of a [KeyError]. *)
Theorem get_stats_counts (W : Server.World) (docs : list Server.StoredDoc) :
  Server.find_all W = Ok docs ->
  (Forall (fun d => Server.stored_sentiment d <> None) docs ->
   exists st p n s b c u,
     Server.get_stats W = ([Server.FindAll], Server.Return st)
     /\ Server.total_analyses st = length docs
     /\ Server.sentiment_distribution st
        = [ (of_string "positive", p); (of_string "negative", n);
            (of_string "neutral", 0) ]
     /\ p = length (filter (fun d => match Server.stored_sentiment d with
                                     | Some x => str_eqb (of_string "Positive") x
                                     | None => false
                                     end) docs)
     /\ n = length (filter (fun d => match Server.stored_sentiment d with
                                     | Some x => str_eqb (of_string "Negative") x
                                     | None => false
                                     end) docs)
     /\ p + n <= length docs
     /\ Server.by_type st
        = [ (of_string "single", s); (of_string "bulk", b);
            (of_string "csv", c); (of_string "url", u) ]
     /\ s + b + c + u <= length docs
     /\ length (filter (fun d => match Server.stored_analysis_type d with
                                 | None => true
                                 | Some _ => false
                                 end) docs) <= s)
  /\ (Exists (fun d => Server.stored_sentiment d = None) docs ->
      Server.get_stats W
      = ([Server.FindAll; Server.Log ERROR],
         Server.Raised (internal (Server.Py KeyError)))).
Proof.
  intro Hf. unfold Server.get_stats. unfold Server.bind at 1, Server.call at 1.
  rewrite Hf. split.
  - intro F. destruct (proj1 (sentiments_loop docs) F) as (ss & E & M).
    assert (P : forall x, Server.list_count x ss
                = length (filter (fun d => match Server.stored_sentiment d with
                                           | Some y => str_eqb x y
                                           | None => false
                                           end) docs)).
    { intro x. clear - M. unfold Server.list_count. revert ss M.
      induction docs as [|d docs IH]; intros [|y ss] M; try discriminate;
        [reflexivity|].
      cbn [map] in M. inversion M as [[Hd Hm]]. cbn [filter]. rewrite <- Hd.
      destruct (str_eqb x y); cbn [length]; now rewrite (IH ss Hm). }
    assert (Ls : length ss = length docs).
    { rewrite <- (length_map Some ss), M. apply length_map. }
    destruct docs as [|d docs].
    + do 7 eexists. split; [reflexivity|]. cbn.
      repeat split; reflexivity || lia.
    + unfold Server.bind at 1. rewrite E. unfold_server. cbn [app].
      do 7 eexists. split; [reflexivity|].
      cbn [Server.total_analyses Server.sentiment_distribution Server.by_type].
      split; [reflexivity|]. split; [reflexivity|].
      split; [apply P|]. split; [apply P|].
      split; [rewrite <- Ls; apply count_two|].
      split; [reflexivity|].
      split.
      * etransitivity; [apply count_types|]. now rewrite length_map.
      * unfold Server.list_count. generalize (d :: docs). clear.
        induction l as [|d l IH]; [reflexivity|].
        cbn [map filter]. unfold Server.get_default at 1.
        destruct (Server.stored_analysis_type d) as [x|]; cbn [length].
        -- destruct (str_eqb (of_string "single") x); cbn [length]; lia.
        -- change (str_eqb (of_string "single") (of_string "single")) with true.
           cbn [length]. lia.
  - intro X. destruct docs as [|d docs]; [inversion X|].
    unfold Server.bind at 1, Server.call at 1. unfold Server.bind at 1. rewrite (proj2 (sentiments_loop (d :: docs)) X).
    reflexivity.
Qed.

Lemma get_stats_counts_witness :
  (exists st,
      Server.get_stats (stored_world sample_history) = ([Server.FindAll], Server.Return st)
      /\ Server.total_analyses st = 3
      /\ Server.sentiment_distribution st
         = [ (of_string "positive", 1); (of_string "negative", 0);
             (of_string "neutral", 0) ])
  /\ Server.get_stats (stored_world [unlabelled_doc])
     = ([Server.FindAll; Server.Log ERROR],
        Server.Raised (internal (Server.Py KeyError))).
Proof.
  split.
  - destruct (@get_stats_counts (stored_world sample_history) sample_history eq_refl)
      as (H & _).
    destruct H as (st & p & n & s & b & c & u & E & T & D & -> & -> & _).
    + repeat constructor; discriminate.
    + exists st. repeat split; assumption.
  - apply (@get_stats_counts (stored_world [unlabelled_doc]) [unlabelled_doc] eq_refl).
    left. reflexivity.
Defined.

(** X29. The response and the history of [analyze_text]. The analyzer
    is called once, on the corrected text, and one document is sent to
    the database, whatever it answers. The response shows the first 200
    characters of the text as sent; the document holds the first 500
    characters of the corrected text; both carry the label, the
    confidence and the model of the analysis. The endpoint returns when
    the insert succeeds and raises the 500 error of the insert
    otherwise. *)
Theorem analyze_text_response (W : Server.World) (a : SentimentAnalyzer) (text : str) :
  Server.analyzer W = Some a ->
  exists c res resp doc,
    snd (Server.autocorrect_text W text) = Server.Return c
    /\ value_of (analyze (Server.unicode W) (PyStr c) true a) = Ok res
    /\ filter is_analyze (fst (Server.analyze_text W text)) = [Server.Analyze c]
    /\ filter is_insert (fst (Server.analyze_text W text)) = [Server.Insert doc]
    /\ Server.res_text resp = firstn 200 text
    /\ Server.doc_text doc = firstn 500 c
    /\ Server.doc_analysis_type doc = of_string "single"
    /\ Server.res_sentiment resp = Server.label_str (sentiment res)
    /\ Server.doc_sentiment doc = Server.label_str (sentiment res)
    /\ Server.res_confidence resp = confidence res
    /\ Server.doc_confidence doc = confidence res
    /\ Server.res_model_used resp = Server.tag_str (model_used res)
    /\ Server.doc_model_used doc = Server.tag_str (model_used res)
    /\ (Server.insert_one W doc = Ok tt ->
        snd (Server.analyze_text W text) = Server.Return resp)
    /\ (forall e, Server.insert_one W doc = Raise e ->
        snd (Server.analyze_text W text) = Server.Raised (internal (Server.Py e))).
Proof.
  intro Ha.
  destruct (analyze_text_run W text Ha) as (t & c & r & E & A & I & Hr & Et).
  exists c, r, (text_response text r), (text_doc c r).
  rewrite E. split; [reflexivity|]. split; [exact Hr|].
  assert (T : fst (Server.analyze_text W text)
              = t ++ [Server.Analyze c; Server.Insert (text_doc c r)]
                ++ match Server.insert_one W (text_doc c r) with
                   | Ok _ => []
                   | Raise _ => [Server.Log ERROR]
                   end).
  { rewrite Et. destruct (Server.insert_one W (text_doc c r)); reflexivity. }
  split; [|split].
  - rewrite T, !filter_app, (quiet_nil _ _ A).
    destruct (Server.insert_one W (text_doc c r)); reflexivity.
  - rewrite T, !filter_app, (quiet_nil _ _ I).
    destruct (Server.insert_one W (text_doc c r)); reflexivity.
  - repeat (split; [reflexivity|]). split.
    + intro Hi. rewrite Et, Hi. reflexivity.
    + intros e Hi. rewrite Et, Hi. reflexivity.
Qed.

Lemma analyze_text_response_witness :
  exists c res resp doc,
    snd (Server.autocorrect_text sample_world (of_string "good")) = Server.Return c
    /\ value_of (analyze ascii_only (PyStr c) true sample_analyzer) = Ok res
    /\ Server.res_text resp = of_string "good"
    /\ Server.doc_text doc = c.
Proof.
  destruct (@analyze_text_response sample_world sample_analyzer (of_string "good")
              eq_refl)
    as (c & res & resp & doc & Hc & Hr & _ & _ & Rt & Dt & _).
  exists c, res, resp, doc. repeat split; try assumption.
  rewrite Dt. cbn in Hc. inversion Hc. reflexivity.
Defined.
